(** * help-now: task lifecycle and volunteer matching

    A shallow embedding of the client-side coordination logic of the
    help-now application: the haversine distance of [useTasks], the
    best-match scorer of the task feed and of the map view, and the
    task / volunteer lifecycle hooks [useTasks] and [useTaskVolunteers]
    running against the hosted tables [tasks], [task_volunteers] and
    [profiles].

    Conventions.
    - A JavaScript [number] that only goes through [+], [-], [/] and
      comparisons (scores, hours) is a rational [Q]; integer columns are
      [Z].  The haversine formula needs [sin], [cos], [atan2] and [sqrt]
      and is stated over the real numbers [R]; [NaN] and the infinities
      have no counterpart there.
    - A table is the list of its rows in insertion order.
    - The data platform is a reliable store: a call fails only on a
      constraint of the schema (primary key, foreign key, unique).
      Network failures are outside the model.  The queries of the first
      part are the statements as the owner of the rows runs them; the row
      level security of the schema, which hides rows from the updates of
      other users, is the subject of the part on the hooks under the
      policies.
    - A refetch started by a hook ([fetchTasks], [fetchVolunteers]) lands
      before the next operation starts. *)

From Stdlib Require Import ZArith QArith Reals Lra Lqa Lia List.
From stdpp Require Import base decidable option list strings gmap.

Local Open Scope Z_scope.

(** ** Data model ([src/types/database.ts]) *)

Inductive TaskUrgency := low | medium | high.
Inductive TaskStatus := open | in_progress | completed | cancelled.
Inductive TimeNeeded := t15min | t30min | t1hour | t2hours | half_day.

Global Instance TaskUrgency_eq_dec : EqDecision TaskUrgency.
Proof. solve_decision. Defined.
Global Instance TaskStatus_eq_dec : EqDecision TaskStatus.
Proof. solve_decision. Defined.
Global Instance TimeNeeded_eq_dec : EqDecision TimeNeeded.
Proof. solve_decision. Defined.

(** [interface Profile]: the fields the subsystem reads or writes.  The two
    counters are nullable columns; [completeTask] reads them through
    [|| 0]. *)
Record Profile := mkProfile {
  user_id : string;
  skills : list string;
  tasks_completed : option Z;
  total_volunteer_hours : option Q;
}.

(** [interface Task].  [completed_at] holds an ISO time stamp; [distance]
    is the optional value joined by [fetchTasks]. *)
Record Task := mkTask {
  id : string;
  creator_id : string;
  time_needed : TimeNeeded;
  urgency : TaskUrgency;
  status : TaskStatus;
  skills_needed : list string;
  max_volunteers : Z;
  current_volunteers : Z;
  completed_at : option string;
  distance : option Q;
}.

(** [interface TaskVolunteer]; its [status] is a free text column (the
    field is called [vol_status] here, [status] being taken by [Task]). *)
Record TaskVolunteer := mkTaskVolunteer {
  task_id : string;
  volunteer_id : string;
  vol_status : string;
}.

Global Instance TaskVolunteer_eq_dec : EqDecision TaskVolunteer.
Proof. solve_decision. Defined.

(** ** Numbers *)

(** [x < y] on JavaScript numbers, as a boolean. *)
Definition Qltb (x y : Q) : bool := negb (Qle_bool y x).

(** ** Distance calculator ([useTasks.tsx], [calculateDistance]) *)

Module Distance.
Local Open Scope R_scope.

(** [Math.atan2 y x] on the reals. *)
Definition atan2 (y x : R) : R :=
  if Rlt_dec 0 x then atan (y / x)
  else if Rlt_dec x 0 then
    (if Rle_dec 0 y then atan (y / x) + PI else atan (y / x) - PI)
  else if Rlt_dec 0 y then PI / 2
  else if Rlt_dec y 0 then - PI / 2
  else 0.

Definition calculateDistance (lat1 lng1 lat2 lng2 : R) : R :=
  let R_miles := 3959 in (* Earth's radius in miles *)
  let dLat := (lat2 - lat1) * PI / 180 in
  let dLng := (lng2 - lng1) * PI / 180 in
  let a := sin (dLat / 2) * sin (dLat / 2) +
           cos (lat1 * PI / 180) * cos (lat2 * PI / 180) *
           sin (dLng / 2) * sin (dLng / 2) in
  let c := 2 * atan2 (sqrt a) (sqrt (1 - a)) in
  R_miles * c.

End Distance.

(** ** Match scorer *)

(** The body of the scoring loop, shared in shape by the two components;
    each component below has its own copy, translated from its own
    source. *)

Module TaskFeed.
Local Open Scope Q_scope.

(** Lines 97-100: [if (task.distance !== undefined && task.distance < 5)
    score += 2 - task.distance / 5]. *)
Definition distanceBonus (d : option Q) (score : Q) : Q :=
  match d with
  | Some d => if Qltb d 5 then score + (2 - d / 5) else score
  | None => score
  end.

(** One iteration of the loop of lines 89-109, up to the comparison. *)
Definition taskScore (userSkills : gset string) (task : Task) : Q :=
  let score := 0 in
  let score :=
    fold_left (fun score skill =>
                 if bool_decide (skill ∈ userSkills) then score + 2 else score)
              (skills_needed task) score in
  let score := distanceBonus (distance task) score in
  let score := if bool_decide (urgency task = high) then score + 1 else score in
  score.

(** [bestMatchId] of [TaskFeed.tsx], lines 82-112. *)
Definition bestMatchId (profile : option Profile) (filteredTasks : list Task)
  : option string :=
  match profile with
  | None => None
  | Some p =>
    if (length (skills p) =? 0)%nat || (length filteredTasks =? 0)%nat
    then None
    else
      let userSkills : gset string := list_to_set (skills p) in
      let '(bestTask, bestScore) :=
        fold_left (fun '(bestTask, bestScore) task =>
                     let score := taskScore userSkills task in
                     if Qltb bestScore score then (Some task, score)
                     else (bestTask, bestScore))
                  filteredTasks (None, 0) in
      if Qltb 0 bestScore then id <$> bestTask else None
  end.

End TaskFeed.

Module TaskMapView.
Local Open Scope Q_scope.

(** [bestMatchId] of the map view, lines 126-150. *)
Definition bestMatchId (profile : option Profile) (filteredTasks : list Task)
  : option string :=
  match profile with
  | None => None
  | Some p =>
    if (length (skills p) =? 0)%nat || (length filteredTasks =? 0)%nat
    then None
    else
      let userSkills : gset string := list_to_set (skills p) in
      let '(bestTask, bestScore) :=
        fold_left (fun '(bestTask, bestScore) task =>
                     let score := 0 in
                     let score :=
                       fold_left (fun score skill =>
                                    if bool_decide (skill ∈ userSkills)
                                    then score + 2 else score)
                                 (skills_needed task) score in
                     let score :=
                       match distance task with
                       | Some d =>
                         if Qltb d 5 then score + (2 - d / 5) else score
                       | None => score
                       end in
                     let score :=
                       if bool_decide (urgency task = high)
                       then score + 1 else score in
                     if Qltb bestScore score then (Some task, score)
                     else (bestTask, bestScore))
                  filteredTasks (None, 0) in
      if Qltb 0 bestScore then id <$> bestTask else None
  end.

End TaskMapView.

(** ** The hosted tables ([supabase/migrations]) *)

Record Db := mkDb {
  tasks_tbl : list Task;
  task_volunteers_tbl : list TaskVolunteer;
  profiles_tbl : list Profile;
}.

(** The [error] member of a result; [None] is [null]. *)
Inductive Error :=
| NotAuthenticated
| NoTaskId
| PrimaryKeyViolation
| ForeignKeyViolation
| UniqueViolation.

Global Instance Error_eq_dec : EqDecision Error.
Proof. solve_decision. Defined.

(** ** The client: [useAuth], [useTasks] and [useTaskVolunteers] state *)

Record Client := mkClient {
  user : option string;                (* [user?.id] of [useAuth] *)
  taskId : option string;              (* argument of [useTaskVolunteers] *)
  tasks : list Task;                   (* [useTasks] *)
  volunteers : list TaskVolunteer;     (* [useTaskVolunteers] *)
  userVolunteerStatus : option string; (* [useTaskVolunteers] *)
}.

Record World := mkWorld { db : Db; client : Client }.

(** A hook function is a computation over the tables and the client. *)
Definition Hook (A : Type) : Type := World -> A * World.

Global Instance Hook_ret : MRet Hook := fun A x w => (x, w).
Global Instance Hook_bind : MBind Hook :=
  fun A B f m w => let '(x, w') := m w in f x w'.

Definition get_db : Hook Db := fun w => (db w, w).
Definition put_db (d : Db) : Hook unit := fun w => (tt, mkWorld d (client w)).
Definition get_client : Hook Client := fun w => (client w, w).
Definition put_client (c : Client) : Hook unit := fun w => (tt, mkWorld (db w) c).

Definition setTasks (ts : list Task) : Hook unit :=
  c ← get_client;
  put_client (mkClient (user c) (taskId c) ts (volunteers c)
                       (userVolunteerStatus c)).

Definition setVolunteers (vs : list TaskVolunteer) : Hook unit :=
  c ← get_client;
  put_client (mkClient (user c) (taskId c) (tasks c) vs
                       (userVolunteerStatus c)).

Definition setUserVolunteerStatus (s : option string) : Hook unit :=
  c ← get_client;
  put_client (mkClient (user c) (taskId c) (tasks c) (volunteers c) s).

(** *** Queries *)

(** [from('tasks').insert(row)]: [id] is the primary key. *)
Definition insert_task (row : Task) : Hook (option Error) :=
  d ← get_db;
  if bool_decide (id row ∈ id <$> tasks_tbl d)
  then mret (Some PrimaryKeyViolation)
  else
    put_db (mkDb (tasks_tbl d ++ [row]) (task_volunteers_tbl d)
                 (profiles_tbl d));;
    mret None.

(** [from('tasks').update(values).eq('id', taskId)], as the creator of
    the task runs it; [Secured.update_tasks] is the statement for any
    user. *)
Definition update_tasks (taskId : string) (values : Task -> Task)
  : Hook (option Error) :=
  d ← get_db;
  put_db (mkDb ((fun t => if bool_decide (id t = taskId) then values t else t)
                  <$> tasks_tbl d)
               (task_volunteers_tbl d) (profiles_tbl d));;
  mret None.

(** The row key of the [UNIQUE (task_id, volunteer_id)] constraint. *)
Definition vol_key (v : TaskVolunteer) : string * string :=
  (task_id v, volunteer_id v).

(** [from('task_volunteers').insert(row)]: [task_id] references [tasks],
    and [(task_id, volunteer_id)] is unique. *)
Definition insert_task_volunteer (row : TaskVolunteer) : Hook (option Error) :=
  d ← get_db;
  if negb (bool_decide (task_id row ∈ id <$> tasks_tbl d))
  then mret (Some ForeignKeyViolation)
  else if bool_decide (vol_key row ∈ vol_key <$> task_volunteers_tbl d)
  then mret (Some UniqueViolation)
  else
    put_db (mkDb (tasks_tbl d) (task_volunteers_tbl d ++ [row])
                 (profiles_tbl d));;
    mret None.

(** [from('task_volunteers').update({ status }).eq('task_id', taskId)
    .eq('volunteer_id', volunteerId)]. *)
Definition update_task_volunteer_status (taskId volunteerId status : string)
  : Hook (option Error) :=
  d ← get_db;
  put_db (mkDb (tasks_tbl d)
               ((fun v => if bool_decide (vol_key v = (taskId, volunteerId))
                          then mkTaskVolunteer (task_id v) (volunteer_id v)
                                               status
                          else v) <$> task_volunteers_tbl d)
               (profiles_tbl d));;
  mret None.

(** [from('task_volunteers').delete().eq('task_id', taskId)
    .eq('volunteer_id', volunteerId)]. *)
Definition delete_task_volunteer (taskId volunteerId : string)
  : Hook (option Error) :=
  d ← get_db;
  put_db (mkDb (tasks_tbl d)
               (filter (fun v => vol_key v <> (taskId, volunteerId))
                       (task_volunteers_tbl d))
               (profiles_tbl d));;
  mret None.

(** [from('task_volunteers').select('*').eq('task_id', taskId)]. *)
Definition select_task_volunteers (taskId : string)
  : Hook (list TaskVolunteer) :=
  d ← get_db;
  mret (filter (fun v => task_id v = taskId) (task_volunteers_tbl d)).

(** [from('profiles').select(..).eq('user_id', userId).maybeSingle()]: the
    row when there is exactly one, [null] otherwise. *)
Definition select_profile_maybeSingle (userId : string)
  : Hook (option Profile) :=
  d ← get_db;
  match filter (fun p => user_id p = userId) (profiles_tbl d) with
  | [p] => mret (Some p)
  | _ => mret None
  end.

(** [from('profiles').update({ tasks_completed, total_volunteer_hours })
    .eq('user_id', userId)], as the user of the profile runs it;
    [Secured.update_profile_stats] is the statement for any user. *)
Definition update_profile_stats (userId : string) (completed : Z) (hours : Q)
  : Hook (option Error) :=
  d ← get_db;
  put_db (mkDb (tasks_tbl d) (task_volunteers_tbl d)
               ((fun p => if bool_decide (user_id p = userId)
                          then mkProfile (user_id p) (skills p)
                                         (Some completed) (Some hours)
                          else p) <$> profiles_tbl d));;
  mret None.

(** ** [useTasks] *)

Module useTasks.

(** [interface CreateTaskData]: the members the lifecycle depends on. *)
Record CreateTaskData := mkCreateTaskData {
  new_time_needed : TimeNeeded;
  new_urgency : TaskUrgency;
  new_skills_needed : option (list string);
  new_max_volunteers : option Z;
}.

(** [fetchTasks]: the open and in-progress tasks, newest first.  The
    [creator] and [distance] annotations are left out: no operation below
    reads them. *)
Definition fetchTasks : Hook unit :=
  d ← get_db;
  let tasksData :=
    reverse (filter (fun t => status t ∈ [open; in_progress]) (tasks_tbl d)) in
  setTasks tasksData.

(** [createTask]; [new_id] is the key drawn by the platform.  The columns
    the caller does not send take the defaults of the schema. *)
Definition createTask (new_id : string) (taskData : CreateTaskData)
  : Hook (option Error) :=
  c ← get_client;
  match user c with
  | None => mret (Some NotAuthenticated)
  | Some uid =>
    error ← insert_task
      (mkTask new_id uid (new_time_needed taskData) (new_urgency taskData)
              open
              (default [] (new_skills_needed taskData))
              (default 1 (new_max_volunteers taskData))
              0 None None);
    (if bool_decide (error = None) then fetchTasks else mret tt);;
    mret error
  end.

(** [acceptTask]: the row joins with the default status of the column,
    ['active']; [task.current_volunteers || 0] is the count itself on
    integers. *)
Definition acceptTask (taskId : string) : Hook (option Error) :=
  c ← get_client;
  match user c with
  | None => mret (Some NotAuthenticated)
  | Some uid =>
    joinError ← insert_task_volunteer (mkTaskVolunteer taskId uid "active");
    match joinError with
    | Some e => mret (Some e)
    | None =>
      match find (fun t => bool_decide (id t = taskId)) (tasks c) with
      | Some task =>
        let newCount := current_volunteers task + 1 in
        let newStatus :=
          if (newCount >=? max_volunteers task)%Z then in_progress
          else status task in
        update_tasks taskId (fun t =>
          mkTask (id t) (creator_id t) (time_needed t) (urgency t) newStatus
                 (skills_needed t) (max_volunteers t) newCount
                 (completed_at t) (distance t));;
        mret tt
      | None => mret tt
      end;;
      fetchTasks;;
      mret None
    end
  end.

(** The table of [completeTask]. *)
Definition hoursMap (time_needed : TimeNeeded) : option Q :=
  match time_needed with
  | t15min => Some (1 # 4)
  | t30min => Some (1 # 2)
  | t1hour => Some 1%Q
  | t2hours => Some 2%Q
  | half_day => Some 4%Q
  end.

(** [x || d] on an optional number: [d] when [x] is missing or zero. *)
Definition Q_or (x : option Q) (d : Q) : Q :=
  match x with
  | Some q => if Qeq_bool q 0 then d else q
  | None => d
  end.

(** The loop of [completeTask] over the accepted volunteers. *)
Fixpoint updateStats (hours : Q) (volunteers : list string) : Hook unit :=
  match volunteers with
  | [] => mret tt
  | volunteer :: rest =>
    profile ← select_profile_maybeSingle volunteer;
    match profile with
    | Some profile =>
      update_profile_stats volunteer
        (default 0 (tasks_completed profile) + 1)
        (default 0%Q (total_volunteer_hours profile) + hours)%Q;;
      mret tt
    | None => mret tt
    end;;
    updateStats hours rest
  end.

(** [completeTask]; [now] is [new Date().toISOString()]. *)
Definition completeTask (taskId now : string) : Hook (option Error) :=
  c ← get_client;
  let task := find (fun t => bool_decide (id t = taskId)) (tasks c) in
  error ← update_tasks taskId (fun t =>
    mkTask (id t) (creator_id t) (time_needed t) (urgency t) completed
           (skills_needed t) (max_volunteers t) (current_volunteers t)
           (Some now) (distance t));
  match error with
  | Some e => mret (Some e)
  | None =>
    d ← get_db;
    let volunteers :=
      volunteer_id <$>
        filter (fun v => task_id v = taskId /\ vol_status v = "accepted")
               (task_volunteers_tbl d) in
    (if (0 <? length volunteers)%nat then
       let hours :=
         match task with
         | Some task => Q_or (hoursMap (time_needed task)) (1 # 2)
         | None => (1 # 2)%Q
         end in
       updateStats hours volunteers
     else mret tt);;
    fetchTasks;;
    mret None
  end.

(** The earlier revision of [completeTask] ([hooks/useTasks.tsx], lines
    178-192): the task row only. *)
Definition completeTask_rowOnly (taskId now : string) : Hook (option Error) :=
  error ← update_tasks taskId (fun t =>
    mkTask (id t) (creator_id t) (time_needed t) (urgency t) completed
           (skills_needed t) (max_volunteers t) (current_volunteers t)
           (Some now) (distance t));
  (if bool_decide (error = None) then fetchTasks else mret tt);;
  mret error.

End useTasks.

(** ** [useTaskVolunteers] *)

Module useTaskVolunteers.

(** [fetchVolunteers]; the profile of each volunteer is joined for display
    only and is left out. *)
Definition fetchVolunteers : Hook unit :=
  c ← get_client;
  match taskId c with
  | None => mret tt
  | Some taskId =>
    data ← select_task_volunteers taskId;
    setVolunteers data;;
    match user c with
    | Some uid =>
      let userVolunteer :=
        find (fun v => bool_decide (volunteer_id v = uid)) data in
      setUserVolunteerStatus
        (match userVolunteer with
         | Some v => if bool_decide (vol_status v = "") then None
                     else Some (vol_status v)
         | None => None
         end)
    | None => mret tt
    end
  end.

Definition offerToHelp (taskId : string) : Hook (option Error) :=
  c ← get_client;
  match user c with
  | None => mret (Some NotAuthenticated)
  | Some uid =>
    error ← insert_task_volunteer (mkTaskVolunteer taskId uid "pending");
    (if bool_decide (error = None)
     then setUserVolunteerStatus (Some "pending");; fetchVolunteers
     else mret tt);;
    mret error
  end.

Definition acceptVolunteer (volunteerId : string) : Hook (option Error) :=
  c ← get_client;
  match taskId c with
  | None => mret (Some NoTaskId)
  | Some taskId =>
    error ← update_task_volunteer_status taskId volunteerId "accepted";
    (if bool_decide (error = None) then
       let acceptedCount :=
         (length (filter (fun v => vol_status v = "accepted") (volunteers c))
          + 1)%nat in
       update_tasks taskId (fun t =>
         mkTask (id t) (creator_id t) (time_needed t) (urgency t) in_progress
                (skills_needed t) (max_volunteers t) (Z.of_nat acceptedCount)
                (completed_at t) (distance t));;
       fetchVolunteers
     else mret tt);;
    mret error
  end.

Definition rejectVolunteer (volunteerId : string) : Hook (option Error) :=
  c ← get_client;
  match taskId c with
  | None => mret (Some NoTaskId)
  | Some taskId =>
    error ← update_task_volunteer_status taskId volunteerId "rejected";
    (if bool_decide (error = None) then fetchVolunteers else mret tt);;
    mret error
  end.

Definition withdrawOffer : Hook (option Error) :=
  c ← get_client;
  match user c, taskId c with
  | Some uid, Some taskId =>
    error ← delete_task_volunteer taskId uid;
    (if bool_decide (error = None)
     then setUserVolunteerStatus None;; fetchVolunteers
     else mret tt);;
    mret error
  | _, _ => mret (Some NotAuthenticated)
  end.

End useTaskVolunteers.

(** ** The subsystem as a machine over the tables *)

(** An operation, with the signed-in caller and, for the volunteer hook,
    the task of the open dialog.  [updateTask], which no component calls,
    is a request of the machine under the policies ([Secured.Request]). *)
Inductive Op :=
| CreateTask (caller new_id : string) (taskData : useTasks.CreateTaskData)
| AcceptTask (caller taskId : string)
| OfferToHelp (caller taskId : string)
| AcceptVolunteer (caller taskId volunteerId : string)
| RejectVolunteer (caller taskId volunteerId : string)
| WithdrawOffer (caller taskId : string)
| CompleteTask (caller taskId now : string).

(** Mounting the two hooks: both fetch once, and the change subscriptions
    keep the lists current until the operation starts. *)
Definition mount (caller : string) (taskId : option string) (d : Db) : World :=
  snd ((useTasks.fetchTasks;; useTaskVolunteers.fetchVolunteers)
         (mkWorld d (mkClient (Some caller) taskId [] [] None))).

Definition run_op (op : Op) (d : Db) : option Error * World :=
  match op with
  | CreateTask caller new_id taskData =>
    useTasks.createTask new_id taskData (mount caller None d)
  | AcceptTask caller taskId =>
    useTasks.acceptTask taskId (mount caller None d)
  | OfferToHelp caller taskId =>
    useTaskVolunteers.offerToHelp taskId (mount caller (Some taskId) d)
  | AcceptVolunteer caller taskId volunteerId =>
    useTaskVolunteers.acceptVolunteer volunteerId
      (mount caller (Some taskId) d)
  | RejectVolunteer caller taskId volunteerId =>
    useTaskVolunteers.rejectVolunteer volunteerId
      (mount caller (Some taskId) d)
  | WithdrawOffer caller taskId =>
    useTaskVolunteers.withdrawOffer (mount caller (Some taskId) d)
  | CompleteTask caller taskId now =>
    useTasks.completeTask taskId now (mount caller (Some taskId) d)
  end.

Definition step (d : Db) (op : Op) : Db := db (snd (run_op op d)).

Definition run_ops (ops : list Op) (d : Db) : Db := fold_left step ops d.

Definition empty_db : Db := mkDb [] [] [].

(** A state of the tables is reachable when a sequence of operations leads
    to it from the tables holding profiles only. *)
Definition reachable (d : Db) : Prop :=
  exists (ps : list Profile) (ops : list Op), d = run_ops ops (mkDb [] [] ps).

(** The row of a task in the tables. *)
Definition task_row (d : Db) (taskId : string) : option Task :=
  find (fun t => bool_decide (id t = taskId)) (tasks_tbl d).

(** ** Integrity of the tables *)

Definition unique_volunteers (d : Db) : Prop :=
  NoDup (vol_key <$> task_volunteers_tbl d).

Definition unique_profiles (d : Db) : Prop :=
  NoDup (user_id <$> profiles_tbl d).

(** The status order of the specification: a status may stay, and it may
    move from [open] to any other status and from [in_progress] to
    [completed] or [cancelled]. *)
Definition forward (s s' : TaskStatus) : bool :=
  match s, s' with
  | open, _ => true
  | in_progress, (in_progress | completed | cancelled) => true
  | completed, completed => true
  | cancelled, cancelled => true
  | _, _ => false
  end.

(** ** Notions used to state the lifecycle properties *)

(** The accepted volunteer rows of a task. *)
Definition acceptedRows (taskId : string) (tbl : list TaskVolunteer)
  : list TaskVolunteer :=
  filter (fun v => vol_status v = "accepted")
         (filter (fun v => task_id v = taskId) tbl).

(** The update that [acceptVolunteer] sends to the [tasks] table. *)
Definition acceptedTask (count : nat) (t : Task) : Task :=
  mkTask (id t) (creator_id t) (time_needed t) (urgency t) in_progress
         (skills_needed t) (max_volunteers t) (Z.of_nat count)
         (completed_at t) (distance t).

(** The update that [completeTask] sends to the [tasks] table. *)
Definition completedTask (now : string) (t : Task) : Task :=
  mkTask (id t) (creator_id t) (time_needed t) (urgency t) completed
         (skills_needed t) (max_volunteers t) (current_volunteers t)
         (Some now) (distance t).

(** A profile after one more completed task of [hours] hours. *)
Definition creditedProfile (hours : Q) (p : Profile) : Profile :=
  mkProfile (user_id p) (skills p)
            (Some (default 0 (tasks_completed p) + 1))
            (Some (default 0%Q (total_volunteer_hours p) + hours)%Q).

(** What one operation can do to the volunteer rows. *)
Inductive rows_change (tbl : list TaskVolunteer)
  : list TaskVolunteer -> Prop :=
| rows_same : rows_change tbl tbl
| rows_insert row :
    vol_key row ∉ vol_key <$> tbl -> rows_change tbl (tbl ++ [row])
| rows_status k st :
    rows_change tbl
      ((fun v => if bool_decide (vol_key v = k)
                 then mkTaskVolunteer (task_id v) (volunteer_id v) st
                 else v) <$> tbl)
| rows_delete k :
    rows_change tbl (filter (fun v => vol_key v <> k) tbl).

(** The update that [acceptTask] sends to the [tasks] table, computed from
    the copy [task] of the row in the loaded list. *)
Definition joinedTask (task t : Task) : Task :=
  let newCount := current_volunteers task + 1 in
  let newStatus :=
    if (newCount >=? max_volunteers task)%Z then in_progress
    else status task in
  mkTask (id t) (creator_id t) (time_needed t) (urgency t) newStatus
         (skills_needed t) (max_volunteers t) newCount
         (completed_at t) (distance t).

(** Task keys are unique and no task is cancelled. *)
Definition tasks_wf (ts : list Task) : Prop :=
  NoDup (id <$> ts) /\ forall t, t ∈ ts -> status t <> cancelled.

(** What an operation other than [acceptVolunteer] can do to the task
    rows. *)
Inductive forward_change (ts : list Task) : list Task -> Prop :=
| tasks_same : forward_change ts ts
| tasks_insert row :
    id row ∉ id <$> ts -> status row = open ->
    forward_change ts (ts ++ [row])
| tasks_join t task :
    task ∈ ts -> id task = t -> status task ∈ [open; in_progress] ->
    forward_change ts
      ((fun x => if bool_decide (id x = t) then joinedTask task x else x)
         <$> ts)
| tasks_complete t now :
    forward_change ts
      ((fun x => if bool_decide (id x = t) then completedTask now x else x)
         <$> ts).

(** The bound of the data model on the volunteer count. *)
Definition within_capacity (ts : list Task) : Prop :=
  forall t, t ∈ ts -> current_volunteers t <= max_volunteers t.

(** The guard of the feed and of the map view on [acceptTask] (the button
    is disabled when [current_volunteers >= max_volunteers]), the same
    comparison for [acceptVolunteer], which the dialog does not make, and
    a task created for a non-negative number of volunteers. *)
Definition guarded (d : Db) (op : Op) : Prop :=
  match op with
  | CreateTask _ _ taskData =>
    0 <= default 1 (useTasks.new_max_volunteers taskData)
  | AcceptTask _ t =>
    forall row, task_row d t = Some row ->
                current_volunteers row < max_volunteers row
  | AcceptVolunteer _ t _ =>
    forall row, task_row d t = Some row ->
                Z.of_nat (length (acceptedRows t (task_volunteers_tbl d)))
                < max_volunteers row
  | _ => True
  end.

Fixpoint guarded_run (d : Db) (ops : list Op) : Prop :=
  match ops with
  | [] => True
  | op :: rest => guarded d op /\ guarded_run (step d op) rest
  end.

(** ** Scenarios *)

(** A task for one volunteer, created by C, with offers from A and B. *)
Definition offers_made : list Op :=
  [CreateTask "C" "t1"
     (useTasks.mkCreateTaskData t1hour low None (Some 1));
   OfferToHelp "A" "t1";
   OfferToHelp "B" "t1"].

(** C accepts A's offer. *)
Definition one_helper_task : list Op :=
  offers_made ++ [AcceptVolunteer "C" "t1" "A"].

(** C then accepts B's offer as well. *)
Definition second_helper_accepted : list Op :=
  one_helper_task ++ [AcceptVolunteer "C" "t1" "B"].

(** C marks the task complete instead. *)
Definition task_completed : list Op :=
  one_helper_task ++ [CompleteTask "C" "t1" "2024-01-01T00:00:00.000Z"].

(** Tables in which the one-hour task [t1] is already completed and has
    the accepted volunteers A and B. *)
Definition completed_task_db : Db :=
  mkDb [mkTask "t1" "C" t1hour low completed [] 2 2
               (Some "2024-01-01T00:00:00.000Z") None]
       [mkTaskVolunteer "t1" "A" "accepted";
        mkTaskVolunteer "t1" "B" "accepted"]
       [mkProfile "A" [] (Some 1) (Some 1%Q);
        mkProfile "B" [] (Some 4) (Some (7 # 2));
        mkProfile "C" [] None None].

(** Tables in which the one-hour task [t1] is in progress with the accepted
    volunteers A and B. *)
Definition in_progress_task_db : Db :=
  mkDb [mkTask "t1" "C" t1hour low in_progress [] 2 2 None None]
       [mkTaskVolunteer "t1" "A" "accepted";
        mkTaskVolunteer "t1" "B" "accepted"]
       [mkProfile "A" [] None None;
        mkProfile "B" [] (Some 3) (Some (5 # 2));
        mkProfile "C" [] None None].

(** ** Auxiliary notions for the scorer *)

Section ScorerNotions.
Local Open Scope Q_scope.
Import TaskFeed.

(** A natural number as a JavaScript number. *)
Definition Qnat (n : nat) : Q := inject_Z (Z.of_nat n).

(** The entries of [skills_needed] that the user has. *)
Definition matchingSkills (userSkills : gset string) (task : Task)
  : list string :=
  filter (fun skill => skill ∈ userSkills) (skills_needed task).

(** The state of the selection loop after the tasks [seen]: nothing chosen
    and no positive score so far, or the first task of highest score. *)
Definition loop_inv (userSkills : gset string) (seen : list Task)
  (st : option Task * Q) : Prop :=
  (st = (None, 0) /\ forall t, t ∈ seen -> taskScore userSkills t <= 0) \/
  (exists l1 t l2,
      seen = l1 ++ t :: l2 /\ st = (Some t, taskScore userSkills t) /\
      0 < taskScore userSkills t /\
      (forall t', t' ∈ l1 -> taskScore userSkills t' < taskScore userSkills t) /\
      (forall t', t' ∈ l2 -> taskScore userSkills t' <= taskScore userSkills t)).

Definition loop_step (userSkills : gset string)
  : option Task * Q -> Task -> option Task * Q :=
  fun '(bestTask, bestScore) task =>
    let score := taskScore userSkills task in
    if Qltb bestScore score then (Some task, score) else (bestTask, bestScore).

End ScorerNotions.

(** * Further parts of the code *)

(** ** [useTaskVolunteers]: the derived counts (lines 185-186) *)

Definition pendingCount (c : Client) : nat :=
  length (filter (fun v => vol_status v = "pending") (volunteers c)).

Definition acceptedCount (c : Client) : nat :=
  length (filter (fun v => vol_status v = "accepted") (volunteers c)).

(** The pending volunteer rows of a task. *)
Definition pendingRows (taskId : string) (tbl : list TaskVolunteer)
  : list TaskVolunteer :=
  filter (fun v => vol_status v = "pending")
         (filter (fun v => task_id v = taskId) tbl).

(** ** The skill pickers ([CreateTaskModal] and the profile page) *)

(** [handleSkillToggle], as the function it applies to the selection. *)
Definition handleSkillToggle (skill : string) (prev : list string)
  : list string :=
  if bool_decide (skill ∈ prev)
  then filter (fun s => s <> skill) prev
  else prev ++ [skill].

(** The selection after a series of clicks on the picker, which starts
    empty in [CreateTaskModal]. *)
Definition toggled (clicks : list string) : list string :=
  fold_left (fun prev skill => handleSkillToggle skill prev) clicks [].

(** ** The map view: tasks within the radius (lines 118-123) *)

Module MapRadius.

Definition filteredTasks (tasks : list Task) (radiusFilter : Q) : list Task :=
  List.filter (fun task =>
                 match distance task with
                 | None => true
                 | Some d => Qle_bool d radiusFilter
                 end) tasks.

(** The best match that the map view marks. *)
Definition bestMatchId (profile : option Profile) (tasks : list Task)
  (radiusFilter : Q) : option string :=
  TaskMapView.bestMatchId profile (filteredTasks tasks radiusFilter).

End MapRadius.

(** ** The buttons *)

Module TaskCard.

(** [getButtonContent] of [TaskCard.tsx], lines 43-61: the label and
    whether the button is disabled.  [user] is [user?.id]. *)
Definition getButtonContent (user : option string)
  (userStatus : option string) (task : Task) : string * bool :=
  let isCreator := bool_decide (Some (creator_id task) = user) in
  if isCreator then ("Manage Task", false)
  else if bool_decide (userStatus = Some "pending")
  then ("Offer Pending", true)
  else if bool_decide (userStatus = Some "accepted")
  then ("You're Helping!", true)
  else if bool_decide (status task = in_progress)
  then ("In Progress", true)
  else if (current_volunteers task >=? max_volunteers task)%Z
  then ("Full", true)
  else ("Offer to Help", false).


End TaskCard.

Module TaskDetailModal.

(** [canOffer] (line 43): [!isCreator && !userVolunteerStatus &&
    task?.status === 'open'], with [isCreator] the comparison
    [task?.creator_id === user?.id]. *)
Definition canOffer (user : option string)
  (userVolunteerStatus : option string) (task : option Task) : bool :=
  let isCreator := bool_decide (creator_id <$> task = user) in
  negb isCreator
  && bool_decide (userVolunteerStatus = None \/ userVolunteerStatus = Some "")
  && bool_decide (status <$> task = Some open).

End TaskDetailModal.

(** ** [fetchTasks]: the distance joined to a task (lines 72-79) *)

Module TaskDistance.
Local Open Scope R_scope.

(** [profile?.location_lat && profile?.location_lng ? calculateDistance(..)
    : undefined]: a coordinate that is missing or zero gives no
    distance. *)
Definition distanceFrom (location_lat location_lng : option R)
  (task_lat task_lng : R) : option R :=
  match location_lat, location_lng with
  | Some lat, Some lng =>
    if Req_dec_T lat 0 then None
    else if Req_dec_T lng 0 then None
    else Some (Distance.calculateDistance lat lng task_lat task_lng)
  | _, _ => None
  end.

End TaskDistance.

(** ** Notions used to state the further properties *)

(** The statuses that the two hooks write to a volunteer row. *)
Definition written_status (s : string) : Prop :=
  s = "active" \/ s = "pending" \/ s = "accepted" \/ s = "rejected".

(** The counters of a profile do not go down. *)
Definition counters_grow (p p' : Profile) : Prop :=
  user_id p' = user_id p /\ skills p' = skills p /\
  default 0 (tasks_completed p) <= default 0 (tasks_completed p') /\
  (default 0%Q (total_volunteer_hours p)
   <= default 0%Q (total_volunteer_hours p'))%Q.

(** Integrity of the volunteer rows: one row at most for a task and a
    user, every row on an existing task, with a status that the hooks
    write. *)
Definition rows_sound (d : Db) : Prop :=
  NoDup (vol_key <$> task_volunteers_tbl d) /\
  forall v, v ∈ task_volunteers_tbl d ->
            task_id v ∈ id <$> tasks_tbl d /\ written_status (vol_status v).


(** A task at another distance, and with another urgency. *)
Definition at_distance (d : option Q) (t : Task) : Task :=
  mkTask (id t) (creator_id t) (time_needed t) (urgency t) (status t)
         (skills_needed t) (max_volunteers t) (current_volunteers t)
         (completed_at t) d.

Definition with_urgency (u : TaskUrgency) (t : Task) : Task :=
  mkTask (id t) (creator_id t) (time_needed t) u (status t)
         (skills_needed t) (max_volunteers t) (current_volunteers t)
         (completed_at t) (distance t).

(** [d1] is not nearer than [d2]; a missing distance counts as 5 miles or
    more. *)
Definition not_nearer (d1 d2 : option Q) : Prop :=
  match d1, d2 with
  | None, _ => True
  | Some x, Some y => (y <= x)%Q
  | Some x, None => (5 <= x)%Q
  end.

(** How often a skill was clicked. *)
Definition clicks_on (skill : string) (clicks : list string) : nat :=
  length (filter (fun s => s = skill) clicks).

From Stdlib Require Import Qround.

(** ** Feedback: the [feedback] table, [FeedbackModal] and
    [useAverageRating] *)

Module Feedback.

(** A row of [feedback] (schema, lines 75-84); [id] and [created_at] are
    generated and play no part. *)
Record Row := mkRow {
  task_id : string;
  from_user_id : string;
  to_user_id : string;
  rating : option Z;
  comment : option string;
}.

Global Instance Row_eq_dec : EqDecision Row.
Proof. solve_decision. Defined.

(** The key of [UNIQUE (task_id, from_user_id, to_user_id)]. *)
Definition key (f : Row) : string * string * string :=
  (task_id f, from_user_id f, to_user_id f).

(** [CHECK (rating >= 1 AND rating <= 5)]; a null rating passes. *)
Definition rating_check (f : Row) : bool :=
  match rating f with
  | None => true
  | Some r => (1 <=? r) && (r <=? 5)
  end.

Inductive InsertError := FkViolation | CheckViolation | UqViolation.

(** The tables of the application together with [feedback]. *)
Record Store := mkStore { base : Db; feedback_tbl : list Row }.

(** [from('feedback').insert(row)]: [task_id] references [tasks]; the two
    users reference the accounts, which are not a table of the model and
    are taken to exist. *)
Definition insert_feedback (row : Row) (s : Store)
  : option InsertError * Store :=
  if negb (bool_decide (task_id row ∈ id <$> tasks_tbl (base s)))
  then (Some FkViolation, s)
  else if negb (rating_check row)
  then (Some CheckViolation, s)
  else if bool_decide (key row ∈ key <$> feedback_tbl s)
  then (Some UqViolation, s)
  else (None, mkStore (base s) (feedback_tbl s ++ [row])).

(** The state of [FeedbackModal]: [useAuth], the properties, and the
    state variables.  A recipient is given by its [id]; the name and the
    picture are only displayed.  [opened] is what the parent keeps after
    [onOpenChange]. *)
Record Modal := mkModal {
  user : option string;
  taskId : string;
  recipients : list string;
  opened : bool;
  currentIndex : nat;
  ratings : gmap string Z;
  comments : gmap string string;
}.

Definition currentRecipient (m : Modal) : option string :=
  recipients m !! currentIndex m.

(** [ratings[currentRecipient.id] || 0], for a recipient [r]. *)
Definition currentRating (m : Modal) (r : string) : Z :=
  default 0 (ratings m !! r).

(** [comments[currentRecipient.id] || ''], for a recipient [r]. *)
Definition currentComment (m : Modal) (r : string) : string :=
  default "" (comments m !! r).

(** [currentIndex === recipients.length - 1]. *)
Definition isLastRecipient (m : Modal) : bool :=
  bool_decide (Z.of_nat (currentIndex m)
               = Z.of_nat (length (recipients m)) - 1).

Definition handleStarClick (star : Z) (m : Modal) : Modal :=
  match currentRecipient m with
  | Some r =>
    mkModal (user m) (taskId m) (recipients m) (opened m) (currentIndex m)
            (<[r := star]> (ratings m)) (comments m)
  | None => m
  end.

Definition handleCommentChange (c : string) (m : Modal) : Modal :=
  match currentRecipient m with
  | Some r =>
    mkModal (user m) (taskId m) (recipients m) (opened m) (currentIndex m)
            (ratings m) (<[r := c]> (comments m))
  | None => m
  end.

(** The common end of [submitFeedback] and [handleSkip]: close on the last
    recipient, go to the next one otherwise. *)
Definition handleSkip (m : Modal) : Modal :=
  if isLastRecipient m
  then mkModal (user m) (taskId m) (recipients m) false (currentIndex m)
               (ratings m) (comments m)
  else mkModal (user m) (taskId m) (recipients m) (opened m)
               (S (currentIndex m)) (ratings m) (comments m).

(** The row that [submitFeedback] inserts for the recipient [r]. *)
Definition submitted (m : Modal) (u r : string) : Row :=
  mkRow (taskId m) u r (Some (currentRating m r))
        (if bool_decide (currentComment m r = "") then None
         else Some (currentComment m r)).

Definition submitFeedback (m : Modal) (s : Store) : Modal * Store :=
  match user m, currentRecipient m with
  | Some u, Some r =>
    if bool_decide (currentRating m r = 0) then (m, s)
    else
      match insert_feedback (submitted m u r) s with
      | (Some _, s') => (m, s')
      | (None, s') => (handleSkip m, s')
      end
  | _, _ => (m, s)
  end.

(** What the user does in the dialog. *)
Inductive Event :=
| StarClick (star : Z)
| CommentChange (c : string)
| Submit
| Skip.

Definition step (e : Event) (ms : Modal * Store) : Modal * Store :=
  match e with
  | StarClick star => (handleStarClick star ms.1, ms.2)
  | CommentChange c => (handleCommentChange c ms.1, ms.2)
  | Submit => submitFeedback ms.1 ms.2
  | Skip => (handleSkip ms.1, ms.2)
  end.

Definition run (events : list Event) (ms : Modal * Store) : Modal * Store :=
  fold_left (fun st e => step e st) events ms.

(** The dialog as it is mounted. *)
Definition mounted (u : option string) (task : string)
  (recips : list string) : Modal :=
  mkModal u task recips true 0 ∅ ∅.

(** Integrity of [feedback]: unique keys and ratings from 1 to 5. *)
Definition sound (tbl : list Row) : Prop :=
  NoDup (key <$> tbl) /\ forall f, f ∈ tbl -> rating_check f = true.

(** A row written by the dialog [m]: from its user, on its task, to one
    of its recipients, with a rating from 1 to 5. *)
Definition written_by (m : Modal) (f : Row) : Prop :=
  Some (from_user_id f) = user m /\ task_id f = taskId m /\
  to_user_id f ∈ recipients m /\
  exists r, rating f = Some r /\ 1 <= r <= 5.

(** What holds of the dialog [m0] opened on the store [s0] after any
    number of events. *)
Definition dialog_inv (m0 : Modal) (s0 : Store) (ms : Modal * Store) : Prop :=
  (currentIndex ms.1 < length (recipients m0))%nat /\
  user ms.1 = user m0 /\ taskId ms.1 = taskId m0 /\
  recipients ms.1 = recipients m0 /\
  base ms.2 = base s0 /\
  sound (feedback_tbl ms.2) /\
  exists new, feedback_tbl ms.2 = feedback_tbl s0 ++ new /\
              forall f, f ∈ new -> written_by m0 f.

(** The comment column of the row submitted for [r]. *)
Definition comment_for (m : Modal) (r : string) : option string :=
  match comments m !! r with
  | Some c => if bool_decide (c = "") then None else Some c
  | None => None
  end.

End Feedback.

Module useAverageRating.

(** [Math.round]: the nearest integer, a half going up. *)
Definition round (x : Q) : Z := Qfloor (x + (1 # 2))%Q.

Definition sum (rs : list Z) : Z := fold_left Z.add rs 0.

(** The rows that the query of [fetchRating] returns. *)
Definition rated (userId : string) (tbl : list Feedback.Row)
  : list Feedback.Row :=
  filter (fun f => Feedback.to_user_id f = userId /\ Feedback.rating f <> None)
         tbl.

(** The mean that [fetchRating] rounds. *)
Definition avg (rs : list Z) : Q :=
  if (0 <? length rs)%nat
  then (inject_Z (sum rs) / inject_Z (Z.of_nat (length rs)))%Q
  else 0%Q.

(** [useAverageRating] once the effect has run: [average] and [count]. *)
Definition fetchRating (userId : option string) (tbl : list Feedback.Row)
  : Q * nat :=
  match userId with
  | None => (0%Q, 0%nat)
  | Some uid =>
    let data := rated uid tbl in
    if (0 <? length data)%nat
    then
      let rs : list Z := omap Feedback.rating data in
      ((inject_Z (round (avg rs * 10)) / 10)%Q, length rs)
    else (0%Q, 0%nat)
  end.

End useAverageRating.

(** The creator C of the completed task [t1] rates the helpers A and B. *)
Definition feedback_store : Feedback.Store :=
  Feedback.mkStore completed_task_db [].

Definition feedback_dialog : Feedback.Modal :=
  Feedback.mounted (Some "C") "t1" ["A"; "B"].

(** All ratings of a list are from 1 to 5. *)
Definition ratings_in_range (rs : list Z) : Prop :=
  Forall (fun r => 1 <= r <= 5) rs.

(** * The hooks under the row level security of the schema

    The schema enables row level security on every table (lines 87-92).
    Reading is open to everyone, and the rows that the hooks insert and
    delete carry the identifier of the signed-in user, which is what the
    policies on [INSERT] and [DELETE] ask for.  The policies on [UPDATE]
    do restrict the hooks: a task is updated by its creator only (line
    106), a profile by its own user only (line 97), and a volunteer row by
    the volunteer or by the creator of the task (line 112 and the later
    policy).  An update of a row that the policy hides matches no row and
    reports no error.

    The queries above are the statements as the owner of the rows runs
    them.  This part gives the statements and the hooks for any signed-in
    user, together with [updateTask], and the integer columns are the
    32-bit [INTEGER] of the schema. *)

Module Secured.

(** [INTEGER]. *)
Definition int4 (z : Z) : bool :=
  (-2147483648 <=? z) && (z <=? 2147483647).

(** An error of a hook: one of the errors above, or the one of a number
    that does not fit its column. *)
Inductive Failure :=
| Refused (e : Error)
| NumericValueOutOfRange.

(** The policies on [UPDATE]; [uid] is [auth.uid()], the signed-in user of
    the client. *)
Definition tasks_update (uid : option string) (t : Task) : bool :=
  bool_decide (uid = Some (creator_id t)).

Definition profiles_update (uid : option string) (p : Profile) : bool :=
  bool_decide (uid = Some (user_id p)).

Definition task_volunteers_update (uid : option string) (ts : list Task)
  (v : TaskVolunteer) : bool :=
  bool_decide (uid = Some (volunteer_id v))
  || bool_decide (Exists (fun t => id t = task_id v
                                   /\ uid = Some (creator_id t)) ts).

(** The values of an update of [tasks]: [Partial<Task>] on the columns of
    the model other than the two keys; a column that is not assigned is
    [None]. *)
Record TaskValues := mkTaskValues {
  set_time_needed : option TimeNeeded;
  set_urgency : option TaskUrgency;
  set_status : option TaskStatus;
  set_skills_needed : option (list string);
  set_max_volunteers : option Z;
  set_current_volunteers : option Z;
  set_completed_at : option (option string);
}.

Definition assign (values : TaskValues) (t : Task) : Task :=
  mkTask (id t) (creator_id t)
         (default (time_needed t) (set_time_needed values))
         (default (urgency t) (set_urgency values))
         (default (status t) (set_status values))
         (default (skills_needed t) (set_skills_needed values))
         (default (max_volunteers t) (set_max_volunteers values))
         (default (current_volunteers t) (set_current_volunteers values))
         (default (completed_at t) (set_completed_at values))
         (distance t).

Definition in_range (values : TaskValues) : bool :=
  int4 (default 0 (set_max_volunteers values))
  && int4 (default 0 (set_current_volunteers values)).

(** The rows of [tasks] after [update(values).eq('id', taskId)] by
    [uid]. *)
Definition updated_tasks (uid : option string) (taskId : string)
  (f : Task -> Task) (ts : list Task) : list Task :=
  (fun t => if bool_decide (id t = taskId) && tasks_update uid t
            then f t else t) <$> ts.

(** [from('tasks').update(values).eq('id', taskId)]. *)
Definition update_tasks (taskId : string) (values : TaskValues)
  : Hook (option Failure) :=
  c ← get_client;
  d ← get_db;
  if in_range values
  then
    put_db (mkDb (updated_tasks (user c) taskId (assign values) (tasks_tbl d))
                 (task_volunteers_tbl d) (profiles_tbl d));;
    mret None
  else mret (Some NumericValueOutOfRange).

(** [from('task_volunteers').update({ status }).eq('task_id', taskId)
    .eq('volunteer_id', volunteerId)]. *)
Definition update_task_volunteer_status (taskId volunteerId status : string)
  : Hook (option Failure) :=
  c ← get_client;
  d ← get_db;
  put_db (mkDb (tasks_tbl d)
               ((fun v => if bool_decide (vol_key v = (taskId, volunteerId))
                             && task_volunteers_update (user c) (tasks_tbl d) v
                          then mkTaskVolunteer (task_id v) (volunteer_id v)
                                               status
                          else v) <$> task_volunteers_tbl d)
               (profiles_tbl d));;
  mret None.

(** [from('profiles').update({ tasks_completed, total_volunteer_hours })
    .eq('user_id', userId)]; [tasks_completed] is an [INTEGER], the hours
    are a [DECIMAL]. *)
Definition update_profile_stats (userId : string) (completed : Z) (hours : Q)
  : Hook (option Failure) :=
  c ← get_client;
  d ← get_db;
  if int4 completed
  then
    put_db (mkDb (tasks_tbl d) (task_volunteers_tbl d)
                 ((fun p => if bool_decide (user_id p = userId)
                               && profiles_update (user c) p
                            then mkProfile (user_id p) (skills p)
                                           (Some completed) (Some hours)
                            else p) <$> profiles_tbl d));;
    mret None
  else mret (Some NumericValueOutOfRange).

(** [updateTask] ([useTasks.tsx], lines 133-144). *)
Definition updateTask (taskId : string) (updates : TaskValues)
  : Hook (option Failure) :=
  error ← update_tasks taskId updates;
  (if bool_decide (error = None) then useTasks.fetchTasks else mret tt);;
  mret error.

(** [acceptTask]; the result of the update of the task is not looked
    at. *)
Definition acceptTask (taskId : string) : Hook (option Failure) :=
  c ← get_client;
  match user c with
  | None => mret (Some (Refused NotAuthenticated))
  | Some uid =>
    joinError ← insert_task_volunteer (mkTaskVolunteer taskId uid "active");
    match joinError with
    | Some e => mret (Some (Refused e))
    | None =>
      match find (fun t => bool_decide (id t = taskId)) (tasks c) with
      | Some task =>
        let newCount := current_volunteers task + 1 in
        let newStatus :=
          if (newCount >=? max_volunteers task)%Z then in_progress
          else status task in
        update_tasks taskId
          (mkTaskValues None None (Some newStatus) None None (Some newCount)
                        None);;
        mret tt
      | None => mret tt
      end;;
      useTasks.fetchTasks;;
      mret None
    end
  end.

(** The loop of [completeTask] over the accepted volunteers; the result of
    the update of a profile is not looked at. *)
Fixpoint updateStats (hours : Q) (volunteers : list string) : Hook unit :=
  match volunteers with
  | [] => mret tt
  | volunteer :: rest =>
    profile ← select_profile_maybeSingle volunteer;
    match profile with
    | Some profile =>
      update_profile_stats volunteer
        (default 0 (tasks_completed profile) + 1)
        (default 0%Q (total_volunteer_hours profile) + hours)%Q;;
      mret tt
    | None => mret tt
    end;;
    updateStats hours rest
  end.

(** [completeTask], the revision with the statistics. *)
Definition completeTask (taskId now : string) : Hook (option Failure) :=
  c ← get_client;
  let task := find (fun t => bool_decide (id t = taskId)) (tasks c) in
  error ← update_tasks taskId
    (mkTaskValues None None (Some completed) None None None
                  (Some (Some now)));
  match error with
  | Some e => mret (Some e)
  | None =>
    d ← get_db;
    let volunteers :=
      volunteer_id <$>
        filter (fun v => task_id v = taskId /\ vol_status v = "accepted")
               (task_volunteers_tbl d) in
    (if (0 <? length volunteers)%nat then
       let hours :=
         match task with
         | Some task => useTasks.Q_or (useTasks.hoursMap (time_needed task))
                                      (1 # 2)
         | None => (1 # 2)%Q
         end in
       updateStats hours volunteers
     else mret tt);;
    useTasks.fetchTasks;;
    mret None
  end.

(** [acceptVolunteer]; the result of the update of the task is not looked
    at. *)
Definition acceptVolunteer (volunteerId : string) : Hook (option Failure) :=
  c ← get_client;
  match taskId c with
  | None => mret (Some (Refused NoTaskId))
  | Some taskId =>
    error ← update_task_volunteer_status taskId volunteerId "accepted";
    (if bool_decide (error = None) then
       let acceptedCount :=
         (length (filter (fun v => vol_status v = "accepted") (volunteers c))
          + 1)%nat in
       update_tasks taskId
         (mkTaskValues None None (Some in_progress) None None
                       (Some (Z.of_nat acceptedCount)) None);;
       useTaskVolunteers.fetchVolunteers
     else mret tt);;
    mret error
  end.

Definition rejectVolunteer (volunteerId : string) : Hook (option Failure) :=
  c ← get_client;
  match taskId c with
  | None => mret (Some (Refused NoTaskId))
  | Some taskId =>
    error ← update_task_volunteer_status taskId volunteerId "rejected";
    (if bool_decide (error = None)
     then useTaskVolunteers.fetchVolunteers else mret tt);;
    mret error
  end.

(** A request to the two hooks: an operation of the machine above, or
    [updateTask].  [createTask], [offerToHelp] and [withdrawOffer] only
    insert and delete rows of the caller, which the policies let
    through. *)
Inductive Request :=
| Run (op : Op)
| UpdateTask (caller taskId : string) (updates : TaskValues).

Definition step (d : Db) (r : Request) : Db :=
  match r with
  | Run (CreateTask caller new_id taskData) =>
    db (snd (useTasks.createTask new_id taskData (mount caller None d)))
  | Run (AcceptTask caller taskId) =>
    db (snd (acceptTask taskId (mount caller None d)))
  | Run (OfferToHelp caller taskId) =>
    db (snd (useTaskVolunteers.offerToHelp taskId
               (mount caller (Some taskId) d)))
  | Run (AcceptVolunteer caller taskId volunteerId) =>
    db (snd (acceptVolunteer volunteerId (mount caller (Some taskId) d)))
  | Run (RejectVolunteer caller taskId volunteerId) =>
    db (snd (rejectVolunteer volunteerId (mount caller (Some taskId) d)))
  | Run (WithdrawOffer caller taskId) =>
    db (snd (useTaskVolunteers.withdrawOffer (mount caller (Some taskId) d)))
  | Run (CompleteTask caller taskId now) =>
    db (snd (completeTask taskId now (mount caller (Some taskId) d)))
  | UpdateTask caller taskId updates =>
    db (snd (updateTask taskId updates (mount caller None d)))
  end.




Definition run (rs : list Request) (d : Db) : Db := fold_left step rs d.

(** A profile after a request of [uid]: the profile of another user is as
    it was. *)
Definition own_profile_only (uid : option string) (p p' : Profile) : Prop :=
  user_id p' = user_id p /\ (uid <> Some (user_id p) -> p' = p).

End Secured.

(** The creator C has the dialog of the task of A and B open. *)
Definition creator_completes : World :=
  mount "C" (Some "t1") in_progress_task_db.

(** The run in which the creator C accepts the offers of A and B on a
    one-hour task for two and marks it complete, from tables that hold the
    three profiles. *)
Definition three_profiles : Db :=
  mkDb [] []
       [mkProfile "A" [] (Some 0) (Some 0%Q);
        mkProfile "B" [] (Some 3) (Some (5 # 2));
        mkProfile "C" [] (Some 0) (Some 0%Q)].

Definition two_helpers_accepted : list Secured.Request :=
  Secured.Run <$>
    [CreateTask "C" "t1" (useTasks.mkCreateTaskData t1hour low None (Some 2));
     OfferToHelp "A" "t1";
     OfferToHelp "B" "t1";
     AcceptVolunteer "C" "t1" "A";
     AcceptVolunteer "C" "t1" "B"].

Definition creator_marks_complete : Secured.Request :=
  Secured.Run (CompleteTask "C" "t1" "2024-01-01T00:00:00.000Z").


(** * Properties *)

Section QltbFacts.
Local Open Scope Q_scope.

Lemma Qltb_true (x y : Q) : Qltb x y = true <-> x < y.
Proof.
  unfold Qltb. rewrite negb_true_iff.
  split; intros H.
  - apply Qnot_le_lt. intros Hle. apply Qle_bool_iff in Hle. congruence.
  - destruct (Qle_bool y x) eqn:E; [|reflexivity].
    apply Qle_bool_iff in E. exfalso. apply (Qlt_not_le _ _ H E).
Qed.

Lemma Qltb_false (x y : Q) : Qltb x y = false <-> y <= x.
Proof.
  unfold Qltb. rewrite negb_false_iff. apply Qle_bool_iff.
Qed.

End QltbFacts.

(** ** Distance *)

Section DistanceFacts.
Local Open Scope R_scope.
Import Distance.

Lemma atan2_0_1 : atan2 0 1 = 0.
Proof.
  unfold atan2. destruct (Rlt_dec 0 1) as [_|H]; [|exfalso; Lra.lra].
  replace (0 / 1) with 0 by field. apply atan_0.
Qed.

(** C8: the distance from a point to itself is 0 and the distance is
    symmetric in its two points. *)
Theorem calculateDistance_refl_sym :
  (forall lat lng, calculateDistance lat lng lat lng = 0) /\
  (forall lat1 lng1 lat2 lng2,
      calculateDistance lat1 lng1 lat2 lng2 =
      calculateDistance lat2 lng2 lat1 lng1).
Proof.
  split.
  - intros lat lng. unfold calculateDistance.
    replace ((lat - lat) * PI / 180 / 2) with 0 by field.
    replace ((lng - lng) * PI / 180 / 2) with 0 by field.
    rewrite sin_0.
    replace (0 * 0 + cos (lat * PI / 180) * cos (lat * PI / 180) * 0 * 0)
      with 0 by ring.
    rewrite sqrt_0, Rminus_0_r, sqrt_1, atan2_0_1. ring.
  - intros lat1 lng1 lat2 lng2. unfold calculateDistance.
    replace ((lat1 - lat2) * PI / 180 / 2)
      with (- ((lat2 - lat1) * PI / 180 / 2)) by field.
    replace ((lng1 - lng2) * PI / 180 / 2)
      with (- ((lng2 - lng1) * PI / 180 / 2)) by field.
    rewrite !sin_neg.
    set (s1 := sin ((lat2 - lat1) * PI / 180 / 2)).
    set (s2 := sin ((lng2 - lng1) * PI / 180 / 2)).
    set (c1 := cos (lat1 * PI / 180)).
    set (c2 := cos (lat2 * PI / 180)).
    replace (- s1 * - s1 + c2 * c1 * - s2 * - s2)
      with (s1 * s1 + c1 * c2 * s2 * s2) by ring.
    reflexivity.
Qed.

End DistanceFacts.

(** ** Match scorer *)

Section ScorerFacts.
Local Open Scope Q_scope.
Import TaskFeed.

Lemma Qnat_S (n : nat) : Qnat (S n) == Qnat n + 1.
Proof.
  unfold Qnat. rewrite Nat2Z.inj_succ, <- Z.add_1_r, inject_Z_plus.
  reflexivity.
Qed.

Lemma skill_loop (userSkills : gset string) (l : list string) (s : Q) :
  fold_left (fun score skill =>
               if bool_decide (skill ∈ userSkills) then score + 2 else score)
            l s
  == s + 2 * Qnat (length (filter (fun skill => skill ∈ userSkills) l)).
Proof.
  revert s. induction l as [|k l IH]; intros s; simpl.
  - unfold Qnat. simpl. ring.
  - rewrite IH. rewrite filter_cons.
    destruct (decide (k ∈ userSkills)) as [Hin|Hin].
    + rewrite bool_decide_eq_true_2 by assumption.
      simpl length. rewrite Qnat_S. ring.
    + rewrite bool_decide_eq_false_2 by assumption. reflexivity.
Qed.

(** The score of a task, as the sum of its three parts. *)
Lemma taskScore_sum (userSkills : gset string) (t : Task) :
  taskScore userSkills t ==
    2 * Qnat (length (matchingSkills userSkills t))
    + match distance t with
      | Some d => if Qltb d 5 then 2 - d / 5 else 0
      | None => 0
      end
    + (if bool_decide (urgency t = high) then 1 else 0).
Proof.
  unfold taskScore, distanceBonus, matchingSkills.
  assert (Hs := skill_loop userSkills (skills_needed t) 0).
  destruct (distance t) as [d|]; [destruct (Qltb d 5)|];
    destruct (bool_decide (urgency t = high)); rewrite Hs; ring.
Qed.

(** Without a repeated entry in [skills_needed], the matching entries are
    the skills common to the user and the task. *)
Lemma matchingSkills_shared (userSkills : gset string) (t : Task) :
  NoDup (skills_needed t) ->
  length (matchingSkills userSkills t) =
  size (userSkills ∩ list_to_set (skills_needed t) : gset string).
Proof.
  intros Hnd. unfold matchingSkills.
  assert (Hnd' : NoDup (filter (fun skill => skill ∈ userSkills)
                               (skills_needed t)))
    by (apply NoDup_filter; assumption).
  rewrite <- (size_list_to_set (C := gset string) _ Hnd').
  f_equal. apply set_eq. intros x.
  rewrite elem_of_list_to_set, list_elem_of_filter, elem_of_intersection,
    elem_of_list_to_set.
  reflexivity.
Qed.

Lemma loop_inv_step userSkills seen st a :
  loop_inv userSkills seen st ->
  loop_inv userSkills (seen ++ [a]) (loop_step userSkills st a).
Proof.
  intros [[-> Hall]|(l1 & t & l2 & -> & -> & Hpos & Hlt & Hle)];
    unfold loop_step.
  - destruct (Qltb 0 (taskScore userSkills a)) eqn:E.
    + apply Qltb_true in E. right. exists seen, a, [].
      repeat split; try assumption.
      * intros t' Hin. eapply Qle_lt_trans; [apply Hall, Hin|exact E].
      * intros t' Hin. inversion Hin.
    + apply Qltb_false in E. left. split; [reflexivity|].
      intros t Hin. apply elem_of_app in Hin as [Hin|Hin].
      * apply Hall, Hin.
      * apply list_elem_of_singleton in Hin as ->. exact E.
  - destruct (Qltb (taskScore userSkills t) (taskScore userSkills a)) eqn:E.
    + apply Qltb_true in E. right. exists (l1 ++ t :: l2), a, [].
      repeat split.
      * eapply Qlt_trans; eassumption.
      * intros t' Hin. apply elem_of_app in Hin as [Hin|Hin].
        -- eapply Qlt_trans; [apply Hlt, Hin|exact E].
        -- apply elem_of_cons in Hin as [->|Hin]; [exact E|].
           eapply Qle_lt_trans; [apply Hle, Hin|exact E].
      * intros t' Hin. inversion Hin.
    + apply Qltb_false in E. right. exists l1, t, (l2 ++ [a]).
      repeat split; try assumption.
      * rewrite <- app_assoc. reflexivity.
      * intros t' Hin. apply elem_of_app in Hin as [Hin|Hin].
        -- apply Hle, Hin.
        -- apply list_elem_of_singleton in Hin as ->. exact E.
Qed.

Lemma loop_inv_fold userSkills rest :
  forall seen st,
    loop_inv userSkills seen st ->
    loop_inv userSkills (seen ++ rest)
             (fold_left (loop_step userSkills) rest st).
Proof.
  induction rest as [|a rest IH]; intros seen st Hinv; simpl.
  - rewrite app_nil_r. exact Hinv.
  - replace (seen ++ a :: rest) with ((seen ++ [a]) ++ rest)
      by (rewrite <- app_assoc; reflexivity).
    apply IH, loop_inv_step, Hinv.
Qed.

Lemma bestMatchId_loop (p : Profile) (tasks : list Task) :
  skills p <> [] ->
  bestMatchId (Some p) tasks =
  let '(bestTask, bestScore) :=
    fold_left (loop_step (list_to_set (skills p))) tasks (None, 0) in
  if Qltb 0 bestScore then id <$> bestTask else None.
Proof.
  intros Hne. unfold bestMatchId.
  destruct (skills p) as [|k ks] eqn:Hs; [congruence|].
  destruct tasks as [|t tasks]; reflexivity.
Qed.

(** A profile without skills, or no profile, has no best match. *)
Lemma bestMatchId_no_skills (profile : option Profile) (tasks : list Task) :
  (profile = None \/ exists p, profile = Some p /\ skills p = []) ->
  bestMatchId profile tasks = None.
Proof.
  intros [->|(p & -> & Hs)]; [reflexivity|].
  unfold bestMatchId. rewrite Hs. reflexivity.
Qed.

(** C1 (amended): for a user with at least one skill, the score of a task
    is 2 for each entry of [skills_needed] that is among the user's skills
    (the number of shared skills when no skill is listed twice), plus
    [2 - d/5] when the distance [d] is defined and below 5, plus 1 when
    the urgency is high; the best match is the first task in input order
    among those of highest score when that score is positive, and there is
    none when no task scores above 0. *)
Theorem bestMatchId_first_highest (p : Profile) (filteredTasks : list Task) :
  skills p <> [] ->
  let userSkills : gset string := list_to_set (skills p) in
  (forall t,
      taskScore userSkills t ==
        2 * Qnat (length (matchingSkills userSkills t))
        + match distance t with
          | Some d => if Qltb d 5 then 2 - d / 5 else 0
          | None => 0
          end
        + (if bool_decide (urgency t = high) then 1 else 0)) /\
  (forall t, NoDup (skills_needed t) ->
             length (matchingSkills userSkills t) =
             size (userSkills ∩ list_to_set (skills_needed t) : gset string)) /\
  match bestMatchId (Some p) filteredTasks with
  | Some best =>
    exists l1 t l2,
      filteredTasks = l1 ++ t :: l2 /\ id t = best /\
      0 < taskScore userSkills t /\
      (forall t', t' ∈ l1 -> taskScore userSkills t' < taskScore userSkills t) /\
      (forall t', t' ∈ l2 -> taskScore userSkills t' <= taskScore userSkills t)
  | None =>
    forall t, t ∈ filteredTasks -> taskScore userSkills t <= 0
  end.
Proof.
  intros Hne userSkills.
  split; [intros t; apply taskScore_sum|].
  split; [intros t; apply matchingSkills_shared|].
  rewrite bestMatchId_loop by assumption.
  assert (Hinv : loop_inv userSkills ([] ++ filteredTasks)
                   (fold_left (loop_step userSkills) filteredTasks (None, 0))).
  { apply loop_inv_fold. left. split; [reflexivity|].
    intros t Hin. inversion Hin. }
  simpl in Hinv. fold userSkills.
  destruct Hinv as [[-> Hall]|(l1 & t & l2 & Hsplit & -> & Hpos & Hlt & Hle)].
  - change (Qltb 0 0) with false. cbv iota. exact Hall.
  - apply Qltb_true in Hpos as Hb. rewrite Hb. simpl.
    exists l1, t, l2. repeat split; assumption.
Qed.

(** C1, witness. *)
Lemma bestMatchId_first_highest_witness :
  let p := mkProfile "u" ["Driving"] None None in
  let ts := [mkTask "t2" "c" t1hour low open [] 1 0 None None;
             mkTask "t1" "c" t1hour high open ["Driving"] 1 0 None
                    (Some (5 # 2))] in
  let userSkills : gset string := list_to_set (skills p) in
  match bestMatchId (Some p) ts with
  | Some best =>
    exists l1 t l2,
      ts = l1 ++ t :: l2 /\ id t = best /\
      0 < taskScore userSkills t /\
      (forall t', t' ∈ l1 -> taskScore userSkills t' < taskScore userSkills t) /\
      (forall t', t' ∈ l2 -> taskScore userSkills t' <= taskScore userSkills t)
  | None => forall t, t ∈ ts -> taskScore userSkills t <= 0
  end.
Proof.
  intros p ts.
  exact (proj2 (proj2 (bestMatchId_first_highest p ts ltac:(discriminate)))).
Defined.

(** C1, counterexample: a user without skills gets no best match although
    the only task scores 1. *)
Lemma bestMatchId_no_skills_counterexample :
  let p := mkProfile "u" [] None None in
  let t := mkTask "t1" "c" t30min high open [] 1 0 None None in
  0 < taskScore (list_to_set (skills p)) t /\
  bestMatchId (Some p) [t] = None.
Proof. split; reflexivity. Qed.

(** C5 (amended): below 5 miles the bonus is [2 - d/5], which falls
    linearly from 2 at distance 0 and stays above 1; from 5 miles on, and
    without a distance, the score is left as it is. *)
Theorem distanceBonus_range :
  (forall d score,
      0 <= d -> d < 5 ->
      distanceBonus (Some d) score - score == 2 - d / 5 /\
      1 < distanceBonus (Some d) score - score /\
      distanceBonus (Some d) score - score <= 2) /\
  (forall d score, 5 <= d -> distanceBonus (Some d) score = score) /\
  (forall score, distanceBonus None score = score).
Proof.
  split; [|split].
  - intros d score H0 H5. unfold distanceBonus.
    apply Qltb_true in H5 as Hb. rewrite Hb.
    assert (Hd : d / 5 == d * (1 # 5)) by (unfold Qdiv; reflexivity).
    repeat split.
    + ring.
    + rewrite Hd. Lqa.lra.
    + rewrite Hd. Lqa.lra.
  - intros d score H5. unfold distanceBonus.
    apply Qltb_false in H5. rewrite H5. reflexivity.
  - reflexivity.
Qed.

(** C5, witness. *)
Lemma distanceBonus_range_witness :
  1 < distanceBonus (Some (49 # 10)) 0 - 0 /\
  distanceBonus (Some 5) 0 = 0.
Proof.
  split.
  - apply (proj1 distanceBonus_range (49 # 10) 0); reflexivity || discriminate.
  - apply (proj1 (proj2 distanceBonus_range) 5 0). discriminate.
Defined.

(** C5, counterexample: the bonus below 5 miles does not come close to 0;
    it never goes below 1. *)
Lemma distanceBonus_not_vanishing :
  ~ (forall eps, 0 < eps ->
       exists d, 0 <= d /\ d < 5 /\ distanceBonus (Some d) 0 - 0 < eps).
Proof.
  intros H. destruct (H 1) as (d & H0 & H5 & Hlt); [reflexivity|].
  unfold distanceBonus in Hlt. apply Qltb_true in H5 as Hb.
  rewrite Hb in Hlt.
  assert (Hd : d / 5 == d * (1 # 5)) by (unfold Qdiv; reflexivity).
  rewrite Hd in Hlt. Lqa.lra.
Qed.

(** C9: the best match of the task feed and that of the map view are the
    same function of the profile and the task list. *)
Theorem bestMatchId_feed_map_equal :
  forall (profile : option Profile) (filteredTasks : list Task),
    TaskFeed.bestMatchId profile filteredTasks =
    TaskMapView.bestMatchId profile filteredTasks.
Proof. intros profile filteredTasks. reflexivity. Qed.

End ScorerFacts.

(** ** Volunteer offers *)

Section VolunteerFacts.
Import useTaskVolunteers.

Lemma find_own_row_fresh (tbl : list TaskVolunteer) (t uid st : string) :
  (t, uid) ∉ vol_key <$> tbl ->
  find (fun v => bool_decide (volunteer_id v = uid))
       (filter (fun v => task_id v = t)
               (tbl ++ [mkTaskVolunteer t uid st]))
  = Some (mkTaskVolunteer t uid st).
Proof.
  induction tbl as [|v tbl IH]; intros Hnot.
  - simpl. rewrite filter_cons, decide_True by reflexivity.
    simpl. rewrite bool_decide_eq_true_2 by reflexivity. reflexivity.
  - rewrite fmap_cons, not_elem_of_cons in Hnot. destruct Hnot as [Hv Hnot].
    simpl. rewrite filter_cons.
    destruct (decide (task_id v = t)) as [Ht|Ht]; [|apply IH, Hnot].
    simpl. rewrite bool_decide_eq_false_2; [apply IH, Hnot|].
    intros Hu. apply Hv. unfold vol_key. congruence.
Qed.

(** C7: a caller without a row on an existing task gets a pending row by
    [offerToHelp]; offering again while that row is there is refused by
    the unique constraint and changes nothing. *)
Theorem offerToHelp_once (w : World) (uid t : string) :
  user (client w) = Some uid ->
  taskId (client w) = Some t ->
  t ∈ id <$> tasks_tbl (db w) ->
  (t, uid) ∉ vol_key <$> task_volunteers_tbl (db w) ->
  let r1 := offerToHelp t w in
  let r2 := offerToHelp t (snd r1) in
  fst r1 = None /\
  task_volunteers_tbl (db (snd r1)) =
    task_volunteers_tbl (db w) ++ [mkTaskVolunteer t uid "pending"] /\
  tasks_tbl (db (snd r1)) = tasks_tbl (db w) /\
  userVolunteerStatus (client (snd r1)) = Some "pending" /\
  fst r2 = Some UniqueViolation /\
  snd r2 = snd r1.
Proof.
  destruct w as [d [u tid ts vs st]]. simpl.
  intros -> -> Htask Hrow.
  unfold offerToHelp, insert_task_volunteer, fetchVolunteers,
    select_task_volunteers, setVolunteers, setUserVolunteerStatus,
    get_client, put_client, get_db, put_db, mbind, mret,
    Hook_bind, Hook_ret.
  simpl.
  rewrite (bool_decide_eq_true_2 _ Htask).
  rewrite (bool_decide_eq_false_2 _ Hrow).
  simpl.
  rewrite (find_own_row_fresh _ _ _ _ Hrow).
  simpl.
  rewrite (bool_decide_eq_true_2 _ Htask).
  rewrite bool_decide_eq_true_2.
  2:{ rewrite fmap_app. apply elem_of_app. right. simpl. left. }
  simpl. repeat split; reflexivity.
Qed.

(** C7, witness: A offers twice on the task that C has just created. *)
Lemma offerToHelp_once_witness :
  let w := mount "A" (Some "t1")
                 (run_ops [CreateTask "C" "t1"
                             (useTasks.mkCreateTaskData t1hour low None None)]
                          empty_db) in
  fst (offerToHelp "t1" w) = None /\
  fst (offerToHelp "t1" (snd (offerToHelp "t1" w))) = Some UniqueViolation /\
  snd (offerToHelp "t1" (snd (offerToHelp "t1" w))) = snd (offerToHelp "t1" w).
Proof.
  intros w.
  assert (Htask : "t1" ∈ id <$> tasks_tbl (db w))
    by (apply (bool_decide_unpack _); vm_compute; exact I).
  assert (Hrow : ("t1", "A") ∉ vol_key <$> task_volunteers_tbl (db w))
    by (apply (bool_decide_unpack _); vm_compute; exact I).
  destruct (offerToHelp_once w "A" "t1" eq_refl eq_refl Htask Hrow)
    as (H1 & _ & _ & _ & H2 & H3).
  split; [exact H1|]. split; [exact H2|exact H3].
Defined.

(** C10: [withdrawOffer] removes the rows of the caller on the task of
    the dialog and nothing else: the [tasks] table, and with it the
    volunteer count and the status of the task, stays as it was, whatever
    the status of the withdrawn row. *)
Theorem withdrawOffer_frame (w : World) (uid t : string) :
  user (client w) = Some uid ->
  taskId (client w) = Some t ->
  let r := withdrawOffer w in
  fst r = None /\
  tasks_tbl (db (snd r)) = tasks_tbl (db w) /\
  profiles_tbl (db (snd r)) = profiles_tbl (db w) /\
  task_volunteers_tbl (db (snd r)) =
    filter (fun v => vol_key v <> (t, uid)) (task_volunteers_tbl (db w)).
Proof.
  destruct w as [d [u tid ts vs st]]. simpl.
  intros -> ->.
  unfold withdrawOffer, delete_task_volunteer, fetchVolunteers,
    select_task_volunteers, setVolunteers, setUserVolunteerStatus,
    get_client, put_client, get_db, put_db, mbind, mret,
    Hook_bind, Hook_ret.
  simpl. repeat split; reflexivity.
Qed.

(** C10, witness: A, whose offer was accepted, withdraws; the task still
    counts one volunteer and is still in progress. *)
Lemma withdrawOffer_frame_witness :
  let w := mount "A" (Some "t1") (run_ops one_helper_task empty_db) in
  tasks_tbl (db (snd (withdrawOffer w))) = tasks_tbl (db w) /\
  task_volunteers_tbl (db w) =
    [mkTaskVolunteer "t1" "A" "accepted"; mkTaskVolunteer "t1" "B" "pending"] /\
  (current_volunteers <$> task_row (db w) "t1" = Some 1 /\
   status <$> task_row (db w) "t1" = Some in_progress).
Proof.
  intros w. split.
  - exact (proj1 (proj2 (withdrawOffer_frame w "A" "t1" eq_refl eq_refl))).
  - split; [|split]; vm_compute; reflexivity.
Defined.

End VolunteerFacts.

(** ** Accepting a volunteer *)

Section AcceptFacts.
Import useTaskVolunteers.



Lemma task_row_fmap (f : Task -> Task) (tbl : list Task) (t : string) :
  (forall x, id (f x) = id x) ->
  find (fun x => bool_decide (id x = t)) (f <$> tbl)
  = f <$> find (fun x => bool_decide (id x = t)) tbl.
Proof.
  intros Hid. induction tbl as [|x tbl IH]; [reflexivity|].
  rewrite fmap_cons. simpl. rewrite Hid.
  destruct (bool_decide (id x = t)); [reflexivity|apply IH].
Qed.





End AcceptFacts.

(** ** Completing a task *)

Section CompleteFacts.
Import useTasks.

Lemma filter_key_unique {A K : Type} `{EqDecision K} (key : A -> K)
  (l : list A) (x : A) :
  NoDup (key <$> l) -> x ∈ l -> filter (fun y => key y = key x) l = [x].
Proof.
  induction l as [|y l IH]; intros Hnd Hin; [inversion Hin|].
  rewrite fmap_cons in Hnd. apply NoDup_cons in Hnd as [Hy Hnd].
  rewrite filter_cons. apply elem_of_cons in Hin as [->|Hin].
  - rewrite decide_True by reflexivity. f_equal.
    clear IH Hnd. induction l as [|z l IH]; [reflexivity|].
    rewrite fmap_cons, not_elem_of_cons in Hy. destruct Hy as [Hz Hy].
    rewrite filter_cons, decide_False by congruence. apply IH, Hy.
  - rewrite decide_False; [apply IH; assumption|].
    intros Heq. apply Hy. rewrite Heq.
    apply (list_elem_of_fmap_2 key), Hin.
Qed.

Lemma key_unique_eq {A K : Type} `{EqDecision K} (key : A -> K)
  (l : list A) (x y : A) :
  NoDup (key <$> l) -> x ∈ l -> y ∈ l -> key y = key x -> y = x.
Proof.
  intros Hnd Hx Hy Hk.
  assert (Hin : y ∈ filter (fun z => key z = key x) l)
    by (apply list_elem_of_filter; split; assumption).
  rewrite (filter_key_unique key l x Hnd Hx) in Hin.
  apply list_elem_of_singleton in Hin. exact Hin.
Qed.

(** The rows of the [tasks] table after [completeTask], in both revisions
    of the hook. *)
Lemma completeTask_rowOnly_run (w : World) (taskId now : string) :
  fst (completeTask_rowOnly taskId now w) = None /\
  db (snd (completeTask_rowOnly taskId now w)) =
    mkDb ((fun x => if bool_decide (id x = taskId)
                    then completedTask now x else x) <$> tasks_tbl (db w))
         (task_volunteers_tbl (db w)) (profiles_tbl (db w)).
Proof.
  destruct w as [d c].
  unfold completeTask_rowOnly, update_tasks, fetchTasks, setTasks,
    get_client, put_client, get_db, put_db, mbind, mret, Hook_bind, Hook_ret.
  simpl. split; reflexivity.
Qed.

(** [completeTask], step by step. *)
Lemma completeTask_run (w : World) (taskId now : string) :
  completeTask taskId now w =
  let w1 :=
    mkWorld
      (mkDb ((fun x => if bool_decide (id x = taskId)
                       then completedTask now x else x) <$> tasks_tbl (db w))
            (task_volunteers_tbl (db w)) (profiles_tbl (db w)))
      (client w) in
  let vols :=
    volunteer_id <$>
      filter (fun v => task_id v = taskId /\ vol_status v = "accepted")
             (task_volunteers_tbl (db w)) in
  let hours :=
    match find (fun t => bool_decide (id t = taskId)) (tasks (client w)) with
    | Some task => Q_or (hoursMap (time_needed task)) (1 # 2)
    | None => (1 # 2)%Q
    end in
  let w2 :=
    if (0 <? length vols)%nat then snd (updateStats hours vols w1) else w1 in
  (None, snd (fetchTasks w2)).
Proof.
  destruct w as [d c].
  unfold completeTask, update_tasks, fetchTasks, setTasks,
    get_client, put_client, get_db, put_db, mbind, mret, Hook_bind, Hook_ret,
    completedTask.
  simpl.
  destruct (0 <? length _)%nat.
  - destruct (updateStats _ _ _) as [[] w2]. reflexivity.
  - reflexivity.
Qed.

Lemma fetchTasks_db (w : World) : db (snd (fetchTasks w)) = db w.
Proof. destruct w as [d c]. reflexivity. Qed.

End CompleteFacts.

(** ** Integrity of the volunteer rows *)

Section IntegrityFacts.
Import useTasks useTaskVolunteers.

Lemma mount_db (caller : string) (t : option string) (d : Db) :
  db (mount caller t d) = d.
Proof. destruct d, t; reflexivity. Qed.

Lemma updateStats_frame (hours : Q) (vols : list string) (w : World) :
  tasks_tbl (db (snd (updateStats hours vols w))) = tasks_tbl (db w) /\
  task_volunteers_tbl (db (snd (updateStats hours vols w)))
    = task_volunteers_tbl (db w) /\
  user_id <$> profiles_tbl (db (snd (updateStats hours vols w)))
    = user_id <$> profiles_tbl (db w).
Proof.
  revert w. induction vols as [|v vols IH]; intros [d c].
  - repeat split; reflexivity.
  - cbn [updateStats].
    unfold select_profile_maybeSingle, update_profile_stats, get_db, put_db,
      mbind, mret, Hook_bind, Hook_ret.
    cbn [db].
    destruct (filter (fun p => user_id p = v) (profiles_tbl d))
      as [|p [|p' l]];
      cbv beta iota zeta; cbn [db client tasks_tbl task_volunteers_tbl
                                  profiles_tbl];
      try apply IH.
    match goal with
    | |- context [updateStats hours vols ?w1] =>
      destruct (IH w1) as (H1 & H2 & H3)
    end.
    cbn [db tasks_tbl task_volunteers_tbl profiles_tbl] in *.
    rewrite H1, H2, H3. repeat split.
    rewrite <- list_fmap_compose. apply list_fmap_ext. intros i q _.
    unfold compose. destruct (bool_decide (user_id q = v)); reflexivity.
Qed.

Lemma rows_change_unique (tbl tbl' : list TaskVolunteer) :
  rows_change tbl tbl' ->
  NoDup (vol_key <$> tbl) -> NoDup (vol_key <$> tbl').
Proof.
  intros [|row Hrow|k st|k] Hnd.
  - exact Hnd.
  - rewrite fmap_app. apply NoDup_app. split; [exact Hnd|]. split.
    + intros x Hx Hx'. apply list_elem_of_singleton in Hx'. subst x.
      contradiction.
    + apply NoDup_singleton.
  - rewrite <- list_fmap_compose.
    erewrite list_fmap_ext; [exact Hnd|]. intros i v _. unfold compose.
    destruct (bool_decide (vol_key v = k)); reflexivity.
  - eapply sublist_NoDup; [exact Hnd|]. apply fmap_sublist, sublist_filter.
Qed.

Lemma step_rows_change (d : Db) (op : Op) :
  rows_change (task_volunteers_tbl d) (task_volunteers_tbl (step d op)).
Proof.
  unfold step, run_op.
  destruct op as [caller new_id taskData|caller t|caller t|caller t vid
                 |caller t vid|caller t|caller t now].
  1-6: destruct d as [ts vs ps];
    unfold mount, createTask, acceptTask, offerToHelp, acceptVolunteer,
      rejectVolunteer, withdrawOffer, insert_task, insert_task_volunteer,
      update_tasks, update_task_volunteer_status, delete_task_volunteer,
      fetchTasks, fetchVolunteers, select_task_volunteers, setTasks,
      setVolunteers, setUserVolunteerStatus, get_client, put_client,
      get_db, put_db, mbind, mret, Hook_bind, Hook_ret;
    simpl.
  - (* createTask *)
    destruct (bool_decide (new_id ∈ id <$> ts)); apply rows_same.
  - (* acceptTask *)
    destruct (bool_decide (t ∈ id <$> ts)); simpl; [|apply rows_same].
    destruct (bool_decide_reflect
                (vol_key (mkTaskVolunteer t caller "active")
                 ∈ vol_key <$> vs))
      as [Hin|Hin]; simpl; [apply rows_same|].
    destruct (find _ _); apply (rows_insert _ _ Hin).
  - (* offerToHelp *)
    destruct (bool_decide (t ∈ id <$> ts)); simpl; [|apply rows_same].
    destruct (bool_decide_reflect
                (vol_key (mkTaskVolunteer t caller "pending")
                 ∈ vol_key <$> vs))
      as [Hin|Hin]; simpl; [apply rows_same|].
    apply (rows_insert _ _ Hin).
  - (* acceptVolunteer *)
    apply rows_status.
  - (* rejectVolunteer *)
    apply rows_status.
  - (* withdrawOffer *)
    apply rows_delete.
  - (* completeTask *)
    rewrite completeTask_run. cbv zeta. cbn [snd].
    rewrite fetchTasks_db.
    destruct (0 <? length _)%nat.
    + match goal with
      | |- context [updateStats ?h ?vols ?w1] =>
        destruct (updateStats_frame h vols w1) as (_ & H2 & _)
      end.
      rewrite H2. cbn [db task_volunteers_tbl]. rewrite mount_db.
      apply rows_same.
    + cbn [db task_volunteers_tbl]. rewrite mount_db. apply rows_same.
Qed.

(** Every reachable state of the tables has one volunteer row at most for
    a task and a user. *)
Lemma reachable_unique_volunteers (d : Db) :
  reachable d -> unique_volunteers d.
Proof.
  intros (ps & ops & ->). unfold run_ops, unique_volunteers.
  assert (H0 : NoDup (vol_key <$> task_volunteers_tbl (mkDb [] [] ps)))
    by apply NoDup_nil_2.
  revert H0. generalize (mkDb [] [] ps) as d0.
  induction ops as [|op ops IH]; intros d0 H0; [exact H0|].
  simpl. apply IH. eapply rows_change_unique; [apply step_rows_change|].
  exact H0.
Qed.

End IntegrityFacts.

(** ** The status of a task along the operations *)

Section StatusFacts.
Import useTasks useTaskVolunteers.

Lemma forward_refl (s : TaskStatus) : forward s s = true.
Proof. destruct s; reflexivity. Qed.

Lemma find_app_found {A : Type} (f : A -> bool) (l k : list A) (x : A) :
  find f l = Some x -> find f (l ++ k) = Some x.
Proof.
  induction l as [|y l IH]; [discriminate|].
  simpl. destruct (f y); [trivial|exact IH].
Qed.

Lemma find_row_elem (ts : list Task) (t : string) (row : Task) :
  find (fun x => bool_decide (id x = t)) ts = Some row ->
  row ∈ ts /\ id row = t.
Proof.
  intros H. apply find_some in H as [Hin Hid].
  split; [apply list_elem_of_In, Hin|].
  apply bool_decide_eq_true_1 in Hid. exact Hid.
Qed.

(** The task rows after each operation. *)
Lemma step_tasks_shape (d : Db) (op : Op) :
  let ts := tasks_tbl d in
  let ts' := tasks_tbl (step d op) in
  match op with
  | CreateTask caller new_id taskData =>
    ts' = ts \/
    ((new_id ∉ id <$> ts) /\
     ts' = ts ++ [mkTask new_id caller (new_time_needed taskData)
                         (new_urgency taskData) open
                         (default [] (new_skills_needed taskData))
                         (default 1 (new_max_volunteers taskData))
                         0 None None])
  | AcceptTask _ t =>
    ts' = ts \/
    (exists task,
        task ∈ ts /\ id task = t /\ status task ∈ [open; in_progress] /\
        ts' = ((fun x => if bool_decide (id x = t)
                         then joinedTask task x else x) <$> ts))
  | AcceptVolunteer _ t _ =>
    ts' = ((fun x => if bool_decide (id x = t)
                     then acceptedTask
                            (S (length (acceptedRows
                                          t (task_volunteers_tbl d)))) x
                     else x) <$> ts)
  | CompleteTask _ t now =>
    ts' = ((fun x => if bool_decide (id x = t)
                     then completedTask now x else x) <$> ts)
  | _ => ts' = ts
  end.
Proof.
  unfold step, run_op.
  destruct op as [caller new_id taskData|caller t|caller t|caller t vid
                 |caller t vid|caller t|caller t now].
  1-6: destruct d as [ts vs ps];
    unfold mount, createTask, acceptTask, offerToHelp, acceptVolunteer,
      rejectVolunteer, withdrawOffer, insert_task, insert_task_volunteer,
      update_tasks, update_task_volunteer_status, delete_task_volunteer,
      fetchTasks, fetchVolunteers, select_task_volunteers, setTasks,
      setVolunteers, setUserVolunteerStatus, get_client, put_client,
      get_db, put_db, mbind, mret, Hook_bind, Hook_ret;
    simpl.
  - (* createTask *)
    destruct (bool_decide_reflect (new_id ∈ id <$> ts)) as [Hin|Hin];
      simpl; [left; reflexivity|].
    right. split; [exact Hin|reflexivity].
  - (* acceptTask *)
    destruct (bool_decide (t ∈ id <$> ts)); simpl; [|left; reflexivity].
    destruct (bool_decide
                (vol_key (mkTaskVolunteer t caller "active")
                 ∈ vol_key <$> vs)); simpl; [left; reflexivity|].
    destruct (find (fun t0 => bool_decide (id t0 = t))
                   (reverse (filter (fun t0 => status t0 ∈ [open; in_progress])
                                    ts))) as [task|] eqn:Hfind;
      simpl; [|left; reflexivity].
    apply find_row_elem in Hfind as [Hin Hid].
    apply elem_of_reverse, list_elem_of_filter in Hin as [Hst Hin].
    right. exists task. repeat split; assumption.
  - (* offerToHelp *)
    destruct (bool_decide (t ∈ id <$> ts)); simpl; [|reflexivity].
    destruct (bool_decide
                (vol_key (mkTaskVolunteer t caller "pending")
                 ∈ vol_key <$> vs)); reflexivity.
  - (* acceptVolunteer *)
    unfold acceptedTask, acceptedRows. rewrite Nat.add_1_r. reflexivity.
  - (* rejectVolunteer *)
    reflexivity.
  - (* withdrawOffer *)
    reflexivity.
  - (* completeTask *)
    rewrite completeTask_run. cbv zeta. cbn [snd].
    rewrite fetchTasks_db.
    destruct (0 <? length _)%nat.
    + match goal with
      | |- context [updateStats ?h ?vols ?w1] =>
        destruct (updateStats_frame h vols w1) as (H1 & _ & _)
      end.
      rewrite H1. cbn [db tasks_tbl]. rewrite mount_db. reflexivity.
    + cbn [db tasks_tbl]. rewrite mount_db. reflexivity.
Qed.

Lemma step_tasks_change (d : Db) (op : Op) :
  match op with
  | AcceptVolunteer _ t _ =>
    exists count,
      tasks_tbl (step d op) =
      ((fun x => if bool_decide (id x = t) then acceptedTask count x else x)
         <$> tasks_tbl d)
  | _ => forward_change (tasks_tbl d) (tasks_tbl (step d op))
  end.
Proof.
  pose proof (step_tasks_shape d op) as H. cbv zeta in H.
  destruct op as [caller new_id taskData|caller t|caller t|caller t vid
                 |caller t vid|caller t|caller t now].
  - destruct H as [->|[Hnew ->]]; [apply tasks_same|].
    apply tasks_insert; [exact Hnew|reflexivity].
  - destruct H as [->|(task & Hin & Hid & Hst & ->)]; [apply tasks_same|].
    apply tasks_join; assumption.
  - rewrite H. apply tasks_same.
  - eexists. exact H.
  - rewrite H. apply tasks_same.
  - rewrite H. apply tasks_same.
  - rewrite H. apply tasks_complete.
Qed.

Lemma fmap_update_ids (ts : list Task) (t : string) (f : Task -> Task) :
  (forall x, id (f x) = id x) ->
  id <$> ((fun x => if bool_decide (id x = t) then f x else x) <$> ts)
  = id <$> ts.
Proof.
  intros Hid. rewrite <- list_fmap_compose. apply list_fmap_ext.
  intros i x _. unfold compose.
  destruct (bool_decide (id x = t)); [apply Hid|reflexivity].
Qed.

Lemma update_wf (ts : list Task) (t : string) (f : Task -> Task) :
  (forall x, id (f x) = id x) ->
  (forall x, x ∈ ts -> status (f x) <> cancelled) ->
  tasks_wf ts ->
  tasks_wf ((fun x => if bool_decide (id x = t) then f x else x) <$> ts).
Proof.
  intros Hid Hst [Hnd Hnc]. split.
  - rewrite fmap_update_ids by exact Hid. exact Hnd.
  - intros x Hx. apply list_elem_of_fmap in Hx as (y & -> & Hy).
    destruct (bool_decide (id y = t)); [apply Hst, Hy|apply Hnc, Hy].
Qed.

Lemma forward_change_wf (ts ts' : list Task) :
  forward_change ts ts' -> tasks_wf ts -> tasks_wf ts'.
Proof.
  intros [|row Hrow Hopen|t task Hin Hid Hst|t now] Hwf.
  - exact Hwf.
  - destruct Hwf as [Hnd Hnc]. split.
    + rewrite fmap_app. apply NoDup_app. split; [exact Hnd|]. split.
      * intros x Hx Hx'. apply list_elem_of_singleton in Hx'. subst x.
        contradiction.
      * apply NoDup_singleton.
    + intros x Hx. apply elem_of_app in Hx as [Hx|Hx]; [apply Hnc, Hx|].
      apply list_elem_of_singleton in Hx. subst x. rewrite Hopen. discriminate.
  - apply update_wf; [reflexivity| |exact Hwf].
    intros x _. unfold joinedTask. cbn [status].
    destruct (_ >=? _)%Z; [discriminate|].
    apply (proj2 Hwf), Hin.
  - apply update_wf; [reflexivity| |exact Hwf]. intros x _. discriminate.
Qed.

Lemma step_tasks_wf (d : Db) (op : Op) :
  tasks_wf (tasks_tbl d) -> tasks_wf (tasks_tbl (step d op)).
Proof.
  intros Hwf. pose proof (step_tasks_change d op) as H.
  destruct op; try (eapply forward_change_wf; eassumption).
  destruct H as [count ->].
  apply update_wf; [reflexivity| |exact Hwf]. intros x _. discriminate.
Qed.

Lemma reachable_tasks_wf (d : Db) : reachable d -> tasks_wf (tasks_tbl d).
Proof.
  intros (ps & ops & ->). unfold run_ops.
  assert (H0 : tasks_wf (tasks_tbl (mkDb [] [] ps))).
  { split; [apply NoDup_nil_2|]. intros t Ht. inversion Ht. }
  revert H0. generalize (mkDb [] [] ps) as d0.
  induction ops as [|op ops IH]; intros d0 H0; [exact H0|].
  simpl. apply IH, step_tasks_wf, H0.
Qed.

Lemma forward_change_status (ts ts' : list Task) (t : string) (row : Task) :
  tasks_wf ts -> forward_change ts ts' ->
  find (fun x => bool_decide (id x = t)) ts = Some row ->
  exists row',
    find (fun x => bool_decide (id x = t)) ts' = Some row' /\
    forward (status row) (status row') = true.
Proof.
  intros [Hnd Hnc] Hch Hrow.
  destruct (find_row_elem _ _ _ Hrow) as [Hin Hid].
  destruct Hch as [|new Hnew Hopen|t' task Htin Htid Hst|t' now].
  - exists row. split; [exact Hrow|apply forward_refl].
  - exists row. split; [apply find_app_found, Hrow|apply forward_refl].
  - rewrite (task_row_fmap
               (fun x => if bool_decide (id x = t')
                         then joinedTask task x else x))
      by (intros x; destruct (bool_decide (id x = t')); reflexivity).
    rewrite Hrow. eexists. split; [reflexivity|].
    destruct (bool_decide_reflect (id row = t')) as [Heq|Hne];
      [|apply forward_refl].
    assert (task = row)
      by (apply (key_unique_eq id ts); [assumption..|congruence]).
    subst task. unfold joinedTask. cbn [status].
    destruct (_ >=? _)%Z; [|apply forward_refl].
    apply elem_of_cons in Hst as [->|Hst]; [reflexivity|].
    apply list_elem_of_singleton in Hst as ->. reflexivity.
  - rewrite (task_row_fmap
               (fun x => if bool_decide (id x = t')
                         then completedTask now x else x))
      by (intros x; destruct (bool_decide (id x = t')); reflexivity).
    rewrite Hrow. eexists. split; [reflexivity|].
    destruct (bool_decide (id row = t')); [|apply forward_refl].
    cbn [completedTask status]. specialize (Hnc row Hin).
    destruct (status row); try reflexivity. contradiction.
Qed.

(** From a reachable state, every operation other than [acceptVolunteer]
    keeps each task and moves its status forward or leaves it. *)
Lemma step_forward_except_acceptVolunteer (d : Db) (op : Op) (t : string)
  (row : Task) :
  reachable d ->
  (forall caller t' v, op <> AcceptVolunteer caller t' v) ->
  task_row d t = Some row ->
  exists row',
    task_row (step d op) t = Some row' /\
    forward (status row) (status row') = true.
Proof.
  intros Hreach Hop Hrow. unfold task_row in *.
  pose proof (step_tasks_change d op) as Hch.
  apply (forward_change_status (tasks_tbl d));
    [apply reachable_tasks_wf, Hreach| |exact Hrow].
  destruct op; try exact Hch.
  exfalso. eapply Hop. reflexivity.
Qed.

(** [acceptVolunteer] never sets a status back to [open]: with the lemma
    above, no operation does. *)
Lemma step_never_reopens (d : Db) (op : Op) (t : string) (row row' : Task) :
  reachable d ->
  task_row d t = Some row ->
  task_row (step d op) t = Some row' ->
  status row' = open -> status row = open.
Proof.
  intros Hreach Hrow Hrow' Hopen.
  pose proof (step_tasks_change d op) as Hch.
  pose proof (reachable_tasks_wf d Hreach) as Hwf.
  unfold task_row in *.
  destruct op as [caller new_id taskData|caller t0|caller t0|caller t0 vid
                 |caller t0 vid|caller t0|caller t0 now].
  4:{ destruct Hch as [count Heq]. rewrite Heq in Hrow'.
      rewrite (task_row_fmap
                 (fun x => if bool_decide (id x = t0)
                           then acceptedTask count x else x)) in Hrow'
        by (intros x; destruct (bool_decide (id x = t0)); reflexivity).
      rewrite Hrow in Hrow'. simpl in Hrow'. injection Hrow' as <-.
      destruct (bool_decide (id row = t0)); [discriminate Hopen|exact Hopen]. }
  all: destruct (forward_change_status _ _ t row Hwf Hch Hrow)
         as (r & Hr & Hf);
    rewrite Hrow' in Hr; injection Hr as <-;
    rewrite Hopen in Hf; destruct (status row);
    [reflexivity|discriminate..].
Qed.

(** *** The volunteer count under the guards *)

Lemma find_unique_row (ts : list Task) (row : Task) :
  NoDup (id <$> ts) -> row ∈ ts ->
  find (fun x => bool_decide (id x = id row)) ts = Some row.
Proof.
  intros Hnd Hin.
  destruct (find (fun x => bool_decide (id x = id row)) ts) as [r|] eqn:E.
  - apply find_row_elem in E as [Hr Hid]. f_equal.
    apply (key_unique_eq id ts); assumption.
  - exfalso. apply list_elem_of_In in Hin.
    apply (find_none _ _ E) in Hin.
    apply bool_decide_eq_false_1 in Hin. apply Hin. reflexivity.
Qed.

Lemma update_within_capacity (ts : list Task) (t : string) (f : Task -> Task) :
  (forall x, x ∈ ts -> id x = t ->
             current_volunteers (f x) <= max_volunteers (f x)) ->
  within_capacity ts ->
  within_capacity ((fun x => if bool_decide (id x = t) then f x else x)
                     <$> ts).
Proof.
  intros Hf Hcap y Hy. apply list_elem_of_fmap in Hy as (x & -> & Hx).
  destruct (bool_decide_reflect (id x = t)); [apply Hf; assumption|].
  apply Hcap, Hx.
Qed.

(** One guarded operation keeps the volunteer count of every task within
    [max_volunteers]. *)
Lemma step_within_capacity (d : Db) (op : Op) :
  tasks_wf (tasks_tbl d) -> guarded d op ->
  within_capacity (tasks_tbl d) -> within_capacity (tasks_tbl (step d op)).
Proof.
  intros [Hnd _] Hg Hcap.
  pose proof (step_tasks_shape d op) as H. cbv zeta in H.
  destruct op as [caller new_id taskData|caller t|caller t|caller t vid
                 |caller t vid|caller t|caller t now];
    cbn [guarded] in Hg.
  - destruct H as [->|[_ ->]]; [exact Hcap|].
    intros x Hx. apply elem_of_app in Hx as [Hx|Hx]; [apply Hcap, Hx|].
    apply list_elem_of_singleton in Hx. subst x. exact Hg.
  - destruct H as [->|(task & Hin & Hid & _ & ->)]; [exact Hcap|].
    apply update_within_capacity; [|exact Hcap].
    intros x Hx Hxid.
    assert (x = task)
      by (apply (key_unique_eq id (tasks_tbl d)); [assumption..|congruence]).
    subst x. unfold joinedTask. cbn [current_volunteers max_volunteers].
    assert (Hrow : task_row d t = Some task)
      by (unfold task_row; rewrite <- Hid; apply find_unique_row; assumption).
    specialize (Hg task Hrow). lia.
  - rewrite H. exact Hcap.
  - rewrite H. apply update_within_capacity; [|exact Hcap].
    intros x Hx Hxid. unfold acceptedTask.
    cbn [current_volunteers max_volunteers].
    assert (Hrow : task_row d t = Some x)
      by (unfold task_row; rewrite <- Hxid; apply find_unique_row; assumption).
    specialize (Hg x Hrow). lia.
  - rewrite H. exact Hcap.
  - rewrite H. exact Hcap.
  - rewrite H. apply update_within_capacity; [|exact Hcap].
    intros x Hx _. unfold completedTask.
    cbn [current_volunteers max_volunteers]. apply Hcap, Hx.
Qed.

(** Along a run in which every operation is guarded, the volunteer count
    of every task stays within [max_volunteers]. *)
Lemma guarded_run_within_capacity (ps : list Profile) (ops : list Op) :
  guarded_run (mkDb [] [] ps) ops ->
  within_capacity (tasks_tbl (run_ops ops (mkDb [] [] ps))).
Proof.
  unfold run_ops.
  assert (Hwf : tasks_wf (tasks_tbl (mkDb [] [] ps))).
  { split; [apply NoDup_nil_2|]. intros t Ht. inversion Ht. }
  assert (Hcap : within_capacity (tasks_tbl (mkDb [] [] ps))).
  { intros t Ht. inversion Ht. }
  revert Hwf Hcap. generalize (mkDb [] [] ps) as d.
  induction ops as [|op ops IH]; intros d Hwf Hcap Hg; [exact Hcap|].
  destruct Hg as [Hop Hrest]. simpl. apply IH.
  - apply step_tasks_wf, Hwf.
  - apply step_within_capacity; assumption.
  - exact Hrest.
Qed.

End StatusFacts.

(** ** The machine at the failing inputs *)

Section MachineFacts.

(** C4, at the failing input: C creates a task for one volunteer, A and B
    offer to help, C accepts A and then B; the task then counts 2 current
    volunteers with [max_volunteers] 1, so the bound on the volunteer count
    does not hold in every reachable state. *)
Theorem acceptVolunteer_exceeds_max_volunteers :
  let d := run_ops second_helper_accepted empty_db in
  reachable d /\
  (exists t, task_row d "t1" = Some t /\
             max_volunteers t = 1 /\ current_volunteers t = 2) /\
  ~ (forall d', reachable d' -> within_capacity (tasks_tbl d')).
Proof.
  intros d.
  assert (Hreach : reachable d)
    by (exists [], second_helper_accepted; reflexivity).
  assert (Hrow : exists t, task_row d "t1" = Some t /\
                           max_volunteers t = 1 /\ current_volunteers t = 2).
  { eexists. split; [vm_compute; reflexivity|]. split; reflexivity. }
  split; [exact Hreach|]. split; [exact Hrow|].
  intros Hall. destruct Hrow as (t & Ht & Hmax & Hcur).
  apply find_some in Ht as [Hin _]. apply list_elem_of_In in Hin.
  specialize (Hall d Hreach t Hin). lia.
Qed.

(** C6, at the failing input: after C has marked the task complete, C
    accepts the offer of B that was still pending; the status goes from
    [completed] back to [in_progress], so not every operation moves the
    status forward. *)
Theorem acceptVolunteer_reopens_completed_task :
  let d1 := run_ops task_completed empty_db in
  let d2 := step d1 (AcceptVolunteer "C" "t1" "B") in
  reachable d1 /\
  status <$> task_row d1 "t1" = Some completed /\
  status <$> task_row d2 "t1" = Some in_progress /\
  ~ (forall d op t row row',
        reachable d ->
        task_row d t = Some row -> task_row (step d op) t = Some row' ->
        forward (status row) (status row') = true).
Proof.
  intros d1 d2.
  assert (Hreach : reachable d1) by (exists [], task_completed; reflexivity).
  assert (H1 : exists row, task_row d1 "t1" = Some row /\
                           status row = completed)
    by (eexists; split; vm_compute; reflexivity).
  assert (H2 : exists row, task_row d2 "t1" = Some row /\
                           status row = in_progress)
    by (eexists; split; vm_compute; reflexivity).
  destruct H1 as (row & Hrow & Hst). destruct H2 as (row' & Hrow' & Hst').
  split; [exact Hreach|].
  split; [rewrite Hrow; simpl; rewrite Hst; reflexivity|].
  split; [rewrite Hrow'; simpl; rewrite Hst'; reflexivity|].
  intros Hall.
  specialize (Hall d1 (AcceptVolunteer "C" "t1" "B") "t1" row row'
                   Hreach Hrow Hrow').
  rewrite Hst, Hst' in Hall. discriminate Hall.
Qed.

(** The run up to the first acceptance is guarded; the second acceptance
    is the operation that the guard would have refused. *)
Example one_helper_task_guarded : guarded_run empty_db one_helper_task.
Proof.
  repeat split.
  - vm_compute. discriminate.
  - intros row Hrow. vm_compute in Hrow. injection Hrow as <-.
    vm_compute. reflexivity.
Qed.

Example second_acceptance_not_guarded :
  ~ guarded (run_ops one_helper_task empty_db) (AcceptVolunteer "C" "t1" "B").
Proof.
  intros H.
  assert (Hrow : exists row,
             task_row (run_ops one_helper_task empty_db) "t1" = Some row /\
             max_volunteers row = 1)
    by (eexists; split; vm_compute; reflexivity).
  destruct Hrow as (row & Hrow & Hmax).
  specialize (H row Hrow). rewrite Hmax in H.
  vm_compute in H. discriminate H.
Qed.

End MachineFacts.

(** * Further properties *)

(** ** The hooks without a caller or a task *)

Section RefusalFacts.
Import useTasks useTaskVolunteers.

(** X1: without a signed-in user [createTask], [acceptTask] and
    [offerToHelp] return the authentication error, without a task
    [acceptVolunteer] and [rejectVolunteer] return the task error, and
    [withdrawOffer] returns the authentication error when either is
    missing; in each case tables and hook state stay as they were. *)
Theorem hooks_refuse_without_identity (w : World) :
  (user (client w) = None ->
   (forall new_id taskData,
       createTask new_id taskData w = (Some NotAuthenticated, w)) /\
   (forall t, acceptTask t w = (Some NotAuthenticated, w)) /\
   (forall t, offerToHelp t w = (Some NotAuthenticated, w))) /\
  (taskId (client w) = None ->
   forall v, acceptVolunteer v w = (Some NoTaskId, w) /\
             rejectVolunteer v w = (Some NoTaskId, w)) /\
  (user (client w) = None \/ taskId (client w) = None ->
   withdrawOffer w = (Some NotAuthenticated, w)).
Proof.
  destruct w as [d [u tid ts vs st]]. simpl.
  split; [|split].
  - intros ->. repeat split; reflexivity.
  - intros ->. intros v. split; reflexivity.
  - intros [-> | ->]; [reflexivity|]. destruct u; reflexivity.
Qed.

(** X1, witness: a visitor who is not signed in, on the dialog of a
    task. *)
Lemma hooks_refuse_without_identity_witness :
  let w := mkWorld empty_db (mkClient None (Some "t1") [] [] None) in
  offerToHelp "t1" w = (Some NotAuthenticated, w) /\
  withdrawOffer w = (Some NotAuthenticated, w).
Proof.
  intros w.
  destruct (hooks_refuse_without_identity w) as (H1 & _ & H3).
  split.
  - apply (H1 eq_refl).
  - apply H3. left. reflexivity.
Defined.

End RefusalFacts.

(** ** Offers: refusals, and offering again after a withdrawal *)

Section OfferAgainFacts.
Import useTasks useTaskVolunteers.

Lemma mount_client (caller t : string) (d : Db) :
  client (mount caller (Some t) d) =
  mkClient (Some caller) (Some t)
    (reverse (filter (fun x => status x ∈ [open; in_progress]) (tasks_tbl d)))
    (filter (fun v => task_id v = t) (task_volunteers_tbl d))
    (match find (fun v => bool_decide (volunteer_id v = caller))
                (filter (fun v => task_id v = t) (task_volunteers_tbl d))
     with
     | Some v => if bool_decide (vol_status v = "") then None
                 else Some (vol_status v)
     | None => None
     end).
Proof. destruct d. reflexivity. Qed.

(** The successful [offerToHelp]. *)
Lemma offerToHelp_fresh (w : World) (uid t : string) :
  user (client w) = Some uid ->
  t ∈ id <$> tasks_tbl (db w) ->
  (t, uid) ∉ vol_key <$> task_volunteers_tbl (db w) ->
  fst (offerToHelp t w) = None /\
  db (snd (offerToHelp t w)) =
    mkDb (tasks_tbl (db w))
         (task_volunteers_tbl (db w) ++ [mkTaskVolunteer t uid "pending"])
         (profiles_tbl (db w)) /\
  (taskId (client w) = Some t ->
   userVolunteerStatus (client (snd (offerToHelp t w))) = Some "pending").
Proof.
  destruct w as [[ts tbl ps] [u tid tl vs st]]. simpl.
  intros -> Htask Hrow.
  unfold offerToHelp, insert_task_volunteer, fetchVolunteers,
    select_task_volunteers, setVolunteers, setUserVolunteerStatus,
    get_client, put_client, get_db, put_db, mbind, mret,
    Hook_bind, Hook_ret.
  simpl.
  rewrite (bool_decide_eq_true_2 _ Htask).
  rewrite (bool_decide_eq_false_2 _ Hrow).
  simpl. destruct tid as [tid|]; simpl.
  - split; [reflexivity|]. split; [reflexivity|].
    intros Heq. injection Heq as ->.
    rewrite (find_own_row_fresh _ _ _ _ Hrow). reflexivity.
  - split; [reflexivity|]. split; [reflexivity|]. discriminate.
Qed.

(** X2: [offerToHelp] on a task that is not in the [tasks] table is
    refused by the foreign key, and it is refused by the unique constraint
    as long as the caller has a row on the task, whatever its status (also
    a rejected one); both refusals leave tables and hook state as they
    were. *)
Theorem offerToHelp_refusals (w : World) (uid t : string) :
  user (client w) = Some uid ->
  (t ∉ id <$> tasks_tbl (db w) ->
   offerToHelp t w = (Some ForeignKeyViolation, w)) /\
  (t ∈ id <$> tasks_tbl (db w) ->
   forall st, mkTaskVolunteer t uid st ∈ task_volunteers_tbl (db w) ->
              offerToHelp t w = (Some UniqueViolation, w)).
Proof.
  destruct w as [[ts tbl ps] [u tid tl vs st0]]. simpl.
  intros ->.
  unfold offerToHelp, insert_task_volunteer, get_client, get_db,
    mbind, mret, Hook_bind, Hook_ret.
  simpl. split.
  - intros Hno. rewrite (bool_decide_eq_false_2 _ Hno). reflexivity.
  - intros Hin st Hrow. rewrite (bool_decide_eq_true_2 _ Hin). simpl.
    rewrite bool_decide_eq_true_2; [reflexivity|].
    apply (list_elem_of_fmap_2 vol_key) in Hrow. exact Hrow.
Qed.

(** X2, witness: B, whose offer was rejected, offers again. *)
Lemma offerToHelp_refusals_witness :
  let d := mkDb [mkTask "t1" "C" t1hour low open [] 1 0 None None]
                [mkTaskVolunteer "t1" "B" "rejected"] [] in
  let w := mount "B" (Some "t1") d in
  offerToHelp "t1" w = (Some UniqueViolation, w) /\
  offerToHelp "t2" w = (Some ForeignKeyViolation, w).
Proof.
  intros d w.
  split.
  - apply (proj2 (offerToHelp_refusals w "B" "t1" eq_refl)) with "rejected";
      apply (bool_decide_unpack _); vm_compute; exact I.
  - apply (proj1 (offerToHelp_refusals w "B" "t2" eq_refl)).
    apply (bool_decide_unpack _); vm_compute; exact I.
Defined.

(** The effect of [withdrawOffer] for a signed-in caller on a task. *)
Lemma withdrawOffer_run (w : World) (uid t : string) :
  user (client w) = Some uid ->
  taskId (client w) = Some t ->
  fst (withdrawOffer w) = None /\
  db (snd (withdrawOffer w)) =
    mkDb (tasks_tbl (db w))
         (filter (fun v => vol_key v <> (t, uid)) (task_volunteers_tbl (db w)))
         (profiles_tbl (db w)) /\
  user (client (snd (withdrawOffer w))) = Some uid /\
  taskId (client (snd (withdrawOffer w))) = Some t.
Proof.
  destruct w as [[ts tbl ps] [u tid tl vs st]]. simpl.
  intros -> ->. repeat split; reflexivity.
Qed.

(** X3: after [withdrawOffer] the caller has no row on the task, whatever
    the status of the row was, and a new [offerToHelp] goes through: it
    adds a pending row and the caller's status is pending again. *)
Theorem withdraw_then_offer_again (w : World) (uid t : string) :
  user (client w) = Some uid ->
  taskId (client w) = Some t ->
  t ∈ id <$> tasks_tbl (db w) ->
  let w1 := snd (withdrawOffer w) in
  let r := offerToHelp t w1 in
  ((t, uid) ∉ vol_key <$> task_volunteers_tbl (db w1)) /\
  fst r = None /\
  task_volunteers_tbl (db (snd r)) =
    filter (fun v => vol_key v <> (t, uid)) (task_volunteers_tbl (db w))
    ++ [mkTaskVolunteer t uid "pending"] /\
  userVolunteerStatus (client (snd r)) = Some "pending".
Proof.
  intros Hu Ht Htask w1 r.
  destruct (withdrawOffer_run w uid t Hu Ht) as (_ & Hdb & Hu1 & Ht1).
  fold w1 in Hdb, Hu1, Ht1.
  assert (Hno : (t, uid) ∉ vol_key <$> task_volunteers_tbl (db w1)).
  { rewrite Hdb. simpl. intros Hin.
    apply list_elem_of_fmap in Hin as (v & Hk & Hv).
    apply list_elem_of_filter in Hv as [Hne _]. congruence. }
  assert (Htask1 : t ∈ id <$> tasks_tbl (db w1))
    by (rewrite Hdb; exact Htask).
  destruct (offerToHelp_fresh w1 uid t Hu1 Htask1 Hno) as (He & Hd & Hs).
  subst r. split; [exact Hno|]. split; [exact He|].
  split; [rewrite Hd, Hdb; reflexivity|apply Hs, Ht1].
Qed.

(** X3, witness: A, whose offer was accepted, withdraws and offers
    again. *)
Lemma withdraw_then_offer_again_witness :
  let w := mount "A" (Some "t1") (run_ops one_helper_task empty_db) in
  task_volunteers_tbl (db (snd (offerToHelp "t1" (snd (withdrawOffer w))))) =
    [mkTaskVolunteer "t1" "B" "pending"; mkTaskVolunteer "t1" "A" "pending"].
Proof.
  intros w.
  assert (Htask : "t1" ∈ id <$> tasks_tbl (db w))
    by (apply (bool_decide_unpack _); vm_compute; exact I).
  destruct (withdraw_then_offer_again w "A" "t1" eq_refl eq_refl Htask)
    as (_ & _ & H & _).
  rewrite H. vm_compute. reflexivity.
Defined.

End OfferAgainFacts.

(** ** Accepting and rejecting: edge cases and composition *)

Section AcceptRejectFacts.
Import useTasks useTaskVolunteers.

(** The volunteer rows after each operation. *)
Lemma step_rows_shape (d : Db) (op : Op) :
  let tbl := task_volunteers_tbl d in
  let tbl' := task_volunteers_tbl (step d op) in
  match op with
  | AcceptTask caller t =>
    tbl' = tbl \/
    (t ∈ id <$> tasks_tbl d /\ ((t, caller) ∉ vol_key <$> tbl) /\
     tbl' = tbl ++ [mkTaskVolunteer t caller "active"])
  | OfferToHelp caller t =>
    tbl' = tbl \/
    (t ∈ id <$> tasks_tbl d /\ ((t, caller) ∉ vol_key <$> tbl) /\
     tbl' = tbl ++ [mkTaskVolunteer t caller "pending"])
  | AcceptVolunteer _ t v =>
    tbl' = ((fun r => if bool_decide (vol_key r = (t, v))
                      then mkTaskVolunteer (task_id r) (volunteer_id r)
                                           "accepted"
                      else r) <$> tbl)
  | RejectVolunteer _ t v =>
    tbl' = ((fun r => if bool_decide (vol_key r = (t, v))
                      then mkTaskVolunteer (task_id r) (volunteer_id r)
                                           "rejected"
                      else r) <$> tbl)
  | WithdrawOffer caller t =>
    tbl' = filter (fun r => vol_key r <> (t, caller)) tbl
  | _ => tbl' = tbl
  end.
Proof.
  unfold step, run_op.
  destruct op as [caller new_id taskData|caller t|caller t|caller t vid
                 |caller t vid|caller t|caller t now].
  1-6: destruct d as [ts vs ps];
    unfold mount, createTask, acceptTask, offerToHelp, acceptVolunteer,
      rejectVolunteer, withdrawOffer, insert_task, insert_task_volunteer,
      update_tasks, update_task_volunteer_status, delete_task_volunteer,
      fetchTasks, fetchVolunteers, select_task_volunteers, setTasks,
      setVolunteers, setUserVolunteerStatus, get_client, put_client,
      get_db, put_db, mbind, mret, Hook_bind, Hook_ret;
    simpl.
  - destruct (bool_decide (new_id ∈ id <$> ts)); reflexivity.
  - destruct (bool_decide_reflect (t ∈ id <$> ts)) as [Ht|Ht]; simpl;
      [|left; reflexivity].
    destruct (bool_decide_reflect
                (vol_key (mkTaskVolunteer t caller "active")
                 ∈ vol_key <$> vs))
      as [Hin|Hin]; simpl; [left; reflexivity|].
    right. destruct (find _ _); repeat split; assumption.
  - destruct (bool_decide_reflect (t ∈ id <$> ts)) as [Ht|Ht]; simpl;
      [|left; reflexivity].
    destruct (bool_decide_reflect
                (vol_key (mkTaskVolunteer t caller "pending")
                 ∈ vol_key <$> vs))
      as [Hin|Hin]; simpl; [left; reflexivity|].
    right. repeat split; assumption.
  - reflexivity.
  - reflexivity.
  - reflexivity.
  - rewrite completeTask_run. cbv zeta. cbn [snd].
    rewrite fetchTasks_db.
    destruct (0 <? length _)%nat.
    + match goal with
      | |- context [updateStats ?h ?vols ?w1] =>
        destruct (updateStats_frame h vols w1) as (_ & H2 & _)
      end.
      rewrite H2. cbn [db task_volunteers_tbl]. rewrite mount_db.
      reflexivity.
    + cbn [db task_volunteers_tbl]. rewrite mount_db. reflexivity.
Qed.








End AcceptRejectFacts.

(** ** Integrity of the tables in every reachable state *)

Section SoundnessFacts.
Import useTasks useTaskVolunteers.

Lemma step_ids (d : Db) (op : Op) (x : string) :
  x ∈ id <$> tasks_tbl d -> x ∈ id <$> tasks_tbl (step d op).
Proof.
  intros Hx. pose proof (step_tasks_shape d op) as H. cbv zeta in H.
  destruct op as [caller new_id taskData|caller t|caller t|caller t vid
                 |caller t vid|caller t|caller t now].
  - destruct H as [->|[_ ->]]; [exact Hx|].
    rewrite fmap_app. apply elem_of_app. left. exact Hx.
  - destruct H as [->|(task & _ & _ & _ & ->)]; [exact Hx|].
    rewrite fmap_update_ids by reflexivity. exact Hx.
  - rewrite H. exact Hx.
  - rewrite H, fmap_update_ids by reflexivity. exact Hx.
  - rewrite H. exact Hx.
  - rewrite H. exact Hx.
  - rewrite H, fmap_update_ids by reflexivity. exact Hx.
Qed.

Lemma step_rows_sound (d : Db) (op : Op) :
  rows_sound d -> rows_sound (step d op).
Proof.
  intros [Hnd Hall]. split.
  - eapply rows_change_unique; [apply step_rows_change|exact Hnd].
  - pose proof (step_rows_shape d op) as H. cbv zeta in H.
    assert (Hkeep : forall v, v ∈ task_volunteers_tbl d ->
                              task_id v ∈ id <$> tasks_tbl (step d op) /\
                              written_status (vol_status v)).
    { intros v Hv. destruct (Hall v Hv) as [Hid Hst].
      split; [apply step_ids, Hid|exact Hst]. }
    assert (Hupd : forall k st,
               written_status st ->
               forall v,
                 v ∈ (fun r => if bool_decide (vol_key r = k)
                               then mkTaskVolunteer (task_id r)
                                                    (volunteer_id r) st
                               else r) <$> task_volunteers_tbl d ->
                 task_id v ∈ id <$> tasks_tbl (step d op) /\
                 written_status (vol_status v)).
    { intros k st Hst v Hv. apply list_elem_of_fmap in Hv as (r & -> & Hr).
      destruct (Hkeep r Hr) as [Hid Hs].
      destruct (bool_decide (vol_key r = k)); split; assumption. }
    assert (Hins : forall t c st,
               t ∈ id <$> tasks_tbl d -> written_status st ->
               forall v,
                 v ∈ task_volunteers_tbl d ++ [mkTaskVolunteer t c st] ->
                 task_id v ∈ id <$> tasks_tbl (step d op) /\
                 written_status (vol_status v)).
    { intros t c st Ht Hst v Hv. apply elem_of_app in Hv as [Hv|Hv];
        [apply Hkeep, Hv|].
      apply list_elem_of_singleton in Hv. subst v.
      split; [apply step_ids, Ht|exact Hst]. }
    destruct op as [caller new_id taskData|caller t|caller t|caller t vid
                   |caller t vid|caller t|caller t now].
    + rewrite H. exact Hkeep.
    + destruct H as [->|(Ht & _ & ->)]; [exact Hkeep|].
      apply Hins; [exact Ht|]. left. reflexivity.
    + destruct H as [->|(Ht & _ & ->)]; [exact Hkeep|].
      apply Hins; [exact Ht|]. right. left. reflexivity.
    + rewrite H. apply Hupd. right. right. left. reflexivity.
    + rewrite H. apply Hupd. right. right. right. reflexivity.
    + rewrite H. intros v Hv. apply list_elem_of_filter in Hv as [_ Hv].
      apply Hkeep, Hv.
    + rewrite H. exact Hkeep.
Qed.

Lemma run_rows_sound (d : Db) : reachable d -> rows_sound d.
Proof.
  intros (ps & ops & ->). unfold run_ops.
  assert (H0 : rows_sound (mkDb [] [] ps)).
  { split; [apply NoDup_nil_2|]. intros v Hv. inversion Hv. }
  revert H0. generalize (mkDb [] [] ps) as d0.
  induction ops as [|op ops IH]; intros d0 H0; [exact H0|].
  simpl. apply IH, step_rows_sound, H0.
Qed.

(** X6: in every reachable state of the tables there is one volunteer row
    at most for a task and a user, every volunteer row is on a task of
    the [tasks] table, and its status is one of ['active'], ['pending'],
    ['accepted'] and ['rejected']. *)
Theorem reachable_rows_sound (d : Db) : reachable d -> rows_sound d.
Proof. apply run_rows_sound. Qed.

(** X6, witness. *)
Lemma reachable_rows_sound_witness :
  rows_sound (run_ops second_helper_accepted empty_db).
Proof.
  apply reachable_rows_sound. exists [], second_helper_accepted. reflexivity.
Defined.

End SoundnessFacts.

(** ** The direct accept: joining once, the count, closed tasks *)

Section LegacyAcceptFacts.
Import useTasks useTaskVolunteers.

Lemma mount_tasks (caller : string) (tid : option string) (d : Db) :
  user (client (mount caller tid d)) = Some caller /\
  tasks (client (mount caller tid d)) =
    reverse (filter (fun x => status x ∈ [open; in_progress]) (tasks_tbl d)).
Proof. destruct d, tid; split; reflexivity. Qed.

(** The successful [acceptTask]. *)
Lemma acceptTask_fresh (w : World) (uid t : string) :
  user (client w) = Some uid ->
  t ∈ id <$> tasks_tbl (db w) ->
  (t, uid) ∉ vol_key <$> task_volunteers_tbl (db w) ->
  fst (acceptTask t w) = None /\
  db (snd (acceptTask t w)) =
    mkDb (match find (fun x => bool_decide (id x = t)) (tasks (client w)) with
          | Some task =>
            (fun x => if bool_decide (id x = t) then joinedTask task x else x)
              <$> tasks_tbl (db w)
          | None => tasks_tbl (db w)
          end)
         (task_volunteers_tbl (db w) ++ [mkTaskVolunteer t uid "active"])
         (profiles_tbl (db w)) /\
  user (client (snd (acceptTask t w))) = Some uid.
Proof.
  destruct w as [[ts tbl ps] [u tid tl vs st]]. simpl.
  intros -> Htask Hrow.
  unfold acceptTask, insert_task_volunteer, update_tasks, fetchTasks,
    setTasks, get_client, put_client, get_db, put_db, mbind, mret,
    Hook_bind, Hook_ret.
  simpl.
  rewrite (bool_decide_eq_true_2 _ Htask).
  rewrite (bool_decide_eq_false_2 _ Hrow).
  simpl. destruct (find _ tl); repeat split; reflexivity.
Qed.

(** X9: [acceptTask] by a signed-in user without a row on an existing
    task adds a row with the default status ['active']; a second
    [acceptTask] on the same task is refused by the unique constraint and
    changes nothing, so the volunteer count is not raised again.  On a task
    that is not in the table it is refused by the foreign key. *)
Theorem acceptTask_joins_once (w : World) (uid t : string) :
  user (client w) = Some uid ->
  (t ∉ id <$> tasks_tbl (db w) ->
   acceptTask t w = (Some ForeignKeyViolation, w)) /\
  (t ∈ id <$> tasks_tbl (db w) ->
   ((t, uid) ∉ vol_key <$> task_volunteers_tbl (db w)) ->
   let r1 := acceptTask t w in
   let r2 := acceptTask t (snd r1) in
   fst r1 = None /\
   task_volunteers_tbl (db (snd r1)) =
     task_volunteers_tbl (db w) ++ [mkTaskVolunteer t uid "active"] /\
   fst r2 = Some UniqueViolation /\
   snd r2 = snd r1).
Proof.
  intros Hu. split.
  - destruct w as [[ts tbl ps] [u tid tl vs st]]. simpl in *. subst u.
    intros Hno.
    unfold acceptTask, insert_task_volunteer, get_client, get_db,
      mbind, mret, Hook_bind, Hook_ret.
    simpl. rewrite (bool_decide_eq_false_2 _ Hno). reflexivity.
  - intros Htask Hrow r1 r2.
    destruct (acceptTask_fresh w uid t Hu Htask Hrow) as (He & Hd & Hu1).
    fold r1 in He, Hd, Hu1.
    split; [exact He|]. split; [rewrite Hd; reflexivity|].
    subst r2. destruct (snd r1) as [[ts1 tbl1 ps1] [u1 tid1 tl1 vs1 st1]].
    simpl in Hd, Hu1. subst u1. injection Hd as Hts Htbl Hps.
    unfold acceptTask, insert_task_volunteer, get_client, get_db,
      mbind, mret, Hook_bind, Hook_ret.
    simpl.
    assert (Htask1 : t ∈ id <$> ts1).
    { rewrite Hts. destruct (find _ _); [|exact Htask].
      rewrite fmap_update_ids by reflexivity. exact Htask. }
    rewrite (bool_decide_eq_true_2 _ Htask1). simpl.
    rewrite bool_decide_eq_true_2; [split; reflexivity|].
    rewrite Htbl, fmap_app. apply elem_of_app. right. left.
Qed.

(** X9, witness: A joins the task of C twice. *)
Lemma acceptTask_joins_once_witness :
  let d := mkDb [mkTask "t1" "C" t1hour low open [] 2 0 None None] [] [] in
  let w := mount "A" None d in
  fst (acceptTask "t1" w) = None /\
  fst (acceptTask "t1" (snd (acceptTask "t1" w))) = Some UniqueViolation /\
  current_volunteers <$>
    task_row (db (snd (acceptTask "t1" (snd (acceptTask "t1" w))))) "t1"
  = Some 1.
Proof.
  intros d w.
  assert (Htask : "t1" ∈ id <$> tasks_tbl (db w))
    by (apply (bool_decide_unpack _); vm_compute; exact I).
  assert (Hrow : ("t1", "A") ∉ vol_key <$> task_volunteers_tbl (db w))
    by (apply (bool_decide_unpack _); vm_compute; exact I).
  destruct (proj2 (acceptTask_joins_once w "A" "t1" eq_refl) Htask Hrow)
    as (H1 & _ & H2 & H3).
  split; [exact H1|]. split; [exact H2|].
  rewrite H3. vm_compute. reflexivity.
Defined.

Lemma find_all_false {A : Type} (f : A -> bool) (l : list A) :
  (forall x, x ∈ l -> f x = false) -> find f l = None.
Proof.
  induction l as [|x l IH]; intros H; [reflexivity|].
  simpl. rewrite (H x) by left. apply IH. intros y Hy. apply H. right.
  exact Hy.
Qed.

(** The task list that [fetchTasks] loads holds a task of the table under
    its key exactly when the task is open or in progress. *)
Lemma loaded_find (ts : list Task) (row : Task) :
  NoDup (id <$> ts) -> row ∈ ts ->
  find (fun x => bool_decide (id x = id row))
       (reverse (filter (fun x => status x ∈ [open; in_progress]) ts))
  = if bool_decide (status row ∈ [open; in_progress]) then Some row else None.
Proof.
  intros Hnd Hin.
  set (l := reverse (filter (fun x => status x ∈ [open; in_progress]) ts)).
  assert (Hl : forall x, x ∈ l <-> status x ∈ [open; in_progress] /\ x ∈ ts).
  { intros x. unfold l. rewrite elem_of_reverse, list_elem_of_filter.
    reflexivity. }
  destruct (bool_decide_reflect (status row ∈ [open; in_progress]))
    as [Hst|Hst].
  - apply find_unique_row; [|apply Hl; split; assumption].
    unfold l. rewrite fmap_reverse, reverse_Permutation.
    eapply sublist_NoDup; [exact Hnd|]. apply fmap_sublist, sublist_filter.
  - apply find_all_false. intros x Hx. apply Hl in Hx as [Hxs Hxin].
    apply bool_decide_eq_false_2. intros Hid. apply Hst.
    assert (x = row) by (apply (key_unique_eq id ts); assumption).
    subst x. exact Hxs.
Qed.

(** [acceptTask] as an operation of the machine, for a caller without a
    row on the task. *)
Lemma step_acceptTask (d : Db) (caller t : string) (row : Task) :
  NoDup (id <$> tasks_tbl d) ->
  task_row d t = Some row ->
  (t, caller) ∉ vol_key <$> task_volunteers_tbl d ->
  step d (AcceptTask caller t) =
  mkDb (if bool_decide (status row ∈ [open; in_progress])
        then (fun x => if bool_decide (id x = t) then joinedTask row x else x)
               <$> tasks_tbl d
        else tasks_tbl d)
       (task_volunteers_tbl d ++ [mkTaskVolunteer t caller "active"])
       (profiles_tbl d).
Proof.
  intros Hnd Hrow Hkey. unfold step, run_op.
  destruct (find_row_elem _ _ _ Hrow) as [Hin Hid].
  destruct (mount_tasks caller None d) as [Hu Hts].
  assert (Htask : t ∈ id <$> tasks_tbl (db (mount caller None d))).
  { rewrite mount_db, <- Hid. apply (list_elem_of_fmap_2 id), Hin. }
  assert (Hkey' : (t, caller) ∉
                  vol_key <$> task_volunteers_tbl (db (mount caller None d)))
    by (rewrite mount_db; exact Hkey).
  destruct (acceptTask_fresh _ caller t Hu Htask Hkey') as (_ & Hd & _).
  rewrite Hd, Hts, mount_db.
  pose proof (loaded_find _ _ Hnd Hin) as Hf. rewrite Hid in Hf. rewrite Hf.
  destruct (bool_decide (status row ∈ [open; in_progress])); reflexivity.
Qed.

(** X11: from a reachable state, [acceptTask] on a task that is completed
    still succeeds for a caller without a row: the caller gets an
    ['active'] row, and the task row is left alone because the loaded list
    does not hold the task. *)
Theorem acceptTask_on_completed_task (d : Db) (caller t : string)
  (row : Task) :
  reachable d ->
  task_row d t = Some row ->
  status row = completed ->
  ((t, caller) ∉ vol_key <$> task_volunteers_tbl d) ->
  fst (run_op (AcceptTask caller t) d) = None /\
  tasks_tbl (step d (AcceptTask caller t)) = tasks_tbl d /\
  task_volunteers_tbl (step d (AcceptTask caller t)) =
    task_volunteers_tbl d ++ [mkTaskVolunteer t caller "active"].
Proof.
  intros Hreach Hrow Hst Hkey.
  destruct (reachable_tasks_wf d Hreach) as [Hnd _].
  split.
  - unfold run_op.
    destruct (find_row_elem _ _ _ Hrow) as [Hin Hid].
    destruct (mount_tasks caller None d) as [Hu _].
    apply (acceptTask_fresh _ caller t Hu).
    + rewrite mount_db, <- Hid. apply (list_elem_of_fmap_2 id), Hin.
    + rewrite mount_db. exact Hkey.
  - rewrite (step_acceptTask d caller t row Hnd Hrow Hkey).
    rewrite bool_decide_eq_false_2; [split; reflexivity|].
    rewrite Hst. intros H. apply elem_of_cons in H as [H|H]; [discriminate|].
    apply list_elem_of_singleton in H. discriminate.
Qed.

(** X11, witness: B joins the task that C has completed. *)
Lemma acceptTask_on_completed_task_witness :
  let d := run_ops (offers_made ++ [WithdrawOffer "B" "t1";
                                    AcceptVolunteer "C" "t1" "A";
                                    CompleteTask "C" "t1" "now"]) empty_db in
  tasks_tbl (step d (AcceptTask "B" "t1")) = tasks_tbl d /\
  task_volunteers_tbl (step d (AcceptTask "B" "t1")) =
    task_volunteers_tbl d ++ [mkTaskVolunteer "t1" "B" "active"].
Proof.
  intros d.
  assert (Hreach : reachable d) by (eexists [], _; reflexivity).
  assert (Hrow : task_row d "t1" =
                 Some (mkTask "t1" "C" t1hour low completed [] 1 1
                              (Some "now") None))
    by (vm_compute; reflexivity).
  assert (Hkey : ("t1", "B") ∉ vol_key <$> task_volunteers_tbl d)
    by (apply (bool_decide_unpack _); vm_compute; exact I).
  exact (proj2 (acceptTask_on_completed_task d "B" "t1" _ Hreach Hrow
                  eq_refl Hkey)).
Defined.

End LegacyAcceptFacts.

(** ** Completion: what it touches, whom it credits *)

Section CompletionFacts.
Import useTasks useTaskVolunteers.

Lemma fetchTasks_tasks (w : World) :
  tasks (client (snd (fetchTasks w))) =
  reverse (filter (fun x => status x ∈ [open; in_progress])
                  (tasks_tbl (db w))).
Proof. destruct w as [d c]. reflexivity. Qed.

(** The tables after [completeTask]. *)
Lemma completeTask_tables (w : World) (t now : string) :
  let r := completeTask t now w in
  fst r = None /\
  tasks_tbl (db (snd r)) =
    ((fun x => if bool_decide (id x = t) then completedTask now x else x)
       <$> tasks_tbl (db w)) /\
  task_volunteers_tbl (db (snd r)) = task_volunteers_tbl (db w) /\
  user_id <$> profiles_tbl (db (snd r)) = user_id <$> profiles_tbl (db w) /\
  tasks (client (snd r)) =
    reverse (filter (fun x => status x ∈ [open; in_progress])
                    (tasks_tbl (db (snd r)))) /\
  (volunteer_id <$>
     filter (fun v => task_id v = t /\ vol_status v = "accepted")
            (task_volunteers_tbl (db w)) = [] ->
   profiles_tbl (db (snd r)) = profiles_tbl (db w)).
Proof.
  intros r. subst r. rewrite completeTask_run. cbv zeta.
  cbn [fst snd]. rewrite fetchTasks_tasks, fetchTasks_db.
  destruct (0 <? length _)%nat eqn:E.
  - match goal with
    | |- context [updateStats ?h ?vols ?w1] =>
      destruct (updateStats_frame h vols w1) as (H1 & H2 & H3)
    end.
    rewrite H1, H2, H3. cbn [db tasks_tbl task_volunteers_tbl profiles_tbl].
    repeat split; try reflexivity.
    intros Hnil. rewrite Hnil in E. discriminate E.
  - cbn [db tasks_tbl task_volunteers_tbl profiles_tbl].
    repeat split; reflexivity.
Qed.



(** X13: the two revisions of [completeTask] leave the same [tasks] and
    [task_volunteers] tables and the same loaded task list; the earlier
    one does not touch the profiles. *)
Theorem completeTask_revisions_agree (w : World) (t now : string) :
  let r := completeTask t now w in
  let r0 := completeTask_rowOnly t now w in
  fst r0 = fst r /\
  tasks_tbl (db (snd r0)) = tasks_tbl (db (snd r)) /\
  task_volunteers_tbl (db (snd r0)) = task_volunteers_tbl (db (snd r)) /\
  tasks (client (snd r0)) = tasks (client (snd r)) /\
  profiles_tbl (db (snd r0)) = profiles_tbl (db w).
Proof.
  intros r r0.
  destruct (completeTask_tables w t now) as (He & Hts & Htbl & _ & Hl & _).
  fold r in He, Hts, Htbl, Hl.
  destruct (completeTask_rowOnly_run w t now) as [He0 Hd0].
  fold r0 in He0, Hd0.
  rewrite He, He0, Hts, Htbl, Hl, Hts, Hd0. cbn [db tasks_tbl
    task_volunteers_tbl profiles_tbl].
  repeat split; reflexivity.
Qed.

Lemma Forall2_map_self {A : Type} (R : A -> A -> Prop) (f : A -> A)
  (l : list A) :
  (forall x, x ∈ l -> R x (f x)) -> Forall2 R l (f <$> l).
Proof.
  induction l as [|x l IH]; intros H; [constructor|].
  rewrite fmap_cons. constructor; [apply H; left|].
  apply IH. intros y Hy. apply H. right. exact Hy.
Qed.

Lemma Forall2_trans_rel {A : Type} (R : A -> A -> Prop) :
  (forall x y z, R x y -> R y z -> R x z) ->
  forall l1 l2 l3, Forall2 R l1 l2 -> Forall2 R l2 l3 -> Forall2 R l1 l3.
Proof.
  intros Htr l1 l2 l3 H12. revert l3.
  induction H12 as [|x y l1 l2 Hxy _ IH]; intros l3 H23.
  - inversion H23. constructor.
  - inversion H23 as [|? z ? l3' Hyz H23']; subst.
    constructor; [eapply Htr; eassumption|apply IH, H23'].
Qed.

Lemma counters_grow_refl (p : Profile) : counters_grow p p.
Proof.
  split; [reflexivity|]. split; [reflexivity|]. split; [lia|apply Qle_refl].
Qed.

Lemma counters_grow_trans (p q r : Profile) :
  counters_grow p q -> counters_grow q r -> counters_grow p r.
Proof.
  intros (H1 & H2 & H3 & H4) (G1 & G2 & G3 & G4).
  split; [congruence|]. split; [congruence|].
  split; [lia|eapply Qle_trans; eassumption].
Qed.

Lemma counters_grow_same (ps : list Profile) : Forall2 counters_grow ps ps.
Proof.
  induction ps; constructor; [apply counters_grow_refl|assumption].
Qed.

Lemma updateStats_grow (hours : Q) (vols : list string) (w : World) :
  (0 <= hours)%Q ->
  Forall2 counters_grow (profiles_tbl (db w))
          (profiles_tbl (db (snd (updateStats hours vols w)))).
Proof.
  intros Hh. revert w. induction vols as [|v vols IH]; intros [d c].
  - apply counters_grow_same.
  - cbn [updateStats].
    unfold select_profile_maybeSingle, update_profile_stats, get_db, put_db,
      mbind, mret, Hook_bind, Hook_ret.
    cbn [db].
    destruct (filter (fun p => user_id p = v) (profiles_tbl d))
      as [|p [|p' l]] eqn:E;
      cbv beta iota zeta; cbn [db client tasks_tbl task_volunteers_tbl
                                  profiles_tbl];
      try apply (IH (mkWorld d c)).
    eapply (Forall2_trans_rel _ counters_grow_trans);
      [|match goal with
        | |- Forall2 _ _ (profiles_tbl (db (snd (updateStats _ _ ?w1)))) =>
          apply (IH w1)
        end].
    cbn [db profiles_tbl]. apply Forall2_map_self. intros q Hq.
    destruct (bool_decide_reflect (user_id q = v)) as [Hv|Hv];
      [|apply counters_grow_refl].
    assert (Hqp : q ∈ filter (fun p => user_id p = v) (profiles_tbl d))
      by (apply list_elem_of_filter; split; assumption).
    rewrite E in Hqp. apply list_elem_of_singleton in Hqp. subst q.
    split; [reflexivity|]. split; [reflexivity|]. split; cbn.
    + lia.
    + Lqa.lra.
Qed.

Lemma hours_nonneg (task : option Task) :
  (0 <= match task with
        | Some task => Q_or (hoursMap (time_needed task)) (1 # 2)
        | None => 1 # 2
        end)%Q.
Proof.
  destruct task as [task|]; [|discriminate].
  destruct (time_needed task); discriminate.
Qed.

Lemma step_counters_grow (d : Db) (op : Op) :
  Forall2 counters_grow (profiles_tbl d) (profiles_tbl (step d op)).
Proof.
  unfold step, run_op.
  destruct op as [caller new_id taskData|caller t|caller t|caller t vid
                 |caller t vid|caller t|caller t now].
  1-6: destruct d as [ts vs ps];
    unfold mount, createTask, acceptTask, offerToHelp, acceptVolunteer,
      rejectVolunteer, withdrawOffer, insert_task, insert_task_volunteer,
      update_tasks, update_task_volunteer_status, delete_task_volunteer,
      fetchTasks, fetchVolunteers, select_task_volunteers, setTasks,
      setVolunteers, setUserVolunteerStatus, get_client, put_client,
      get_db, put_db, mbind, mret, Hook_bind, Hook_ret;
    simpl.
  - destruct (bool_decide (new_id ∈ id <$> ts)); apply counters_grow_same.
  - destruct (bool_decide (t ∈ id <$> ts)); simpl;
      [|apply counters_grow_same].
    destruct (bool_decide
                (vol_key (mkTaskVolunteer t caller "active")
                 ∈ vol_key <$> vs)); simpl; [apply counters_grow_same|].
    destruct (find _ _); apply counters_grow_same.
  - destruct (bool_decide (t ∈ id <$> ts)); simpl;
      [|apply counters_grow_same].
    destruct (bool_decide
                (vol_key (mkTaskVolunteer t caller "pending")
                 ∈ vol_key <$> vs)); apply counters_grow_same.
  - apply counters_grow_same.
  - apply counters_grow_same.
  - apply counters_grow_same.
  - rewrite completeTask_run. cbv zeta. cbn [snd].
    rewrite fetchTasks_db.
    destruct (0 <? length _)%nat.
    + match goal with
      | |- context [updateStats ?h ?vols ?w1] =>
        pose proof (updateStats_grow h vols w1 (hours_nonneg _)) as H
      end.
      cbn [db profiles_tbl] in H. rewrite mount_db in H. exact H.
    + cbn [db profiles_tbl]. rewrite mount_db. apply counters_grow_same.
Qed.

(** X14: along every sequence of operations the profiles stay the same
    users in the same order with the same skills, and neither
    [tasks_completed] nor [total_volunteer_hours] of a profile ever goes
    down. *)
Theorem profile_counters_never_decrease (d : Db) (ops : list Op) :
  Forall2 counters_grow (profiles_tbl d) (profiles_tbl (run_ops ops d)).
Proof.
  unfold run_ops. revert d. induction ops as [|op ops IH]; intros d.
  - apply counters_grow_same.
  - simpl. eapply (Forall2_trans_rel _ counters_grow_trans);
      [apply step_counters_grow|apply IH].
Qed.

(** X15: a volunteer who joins a task through [acceptTask] is not
    credited when the task is completed: the row has the status
    ['active'], and [completeTask] credits the accepted rows only.  When
    the task has no accepted row, [acceptTask] followed by [completeTask]
    leaves every profile as it was. *)
Theorem direct_join_is_not_credited (d : Db) (caller creator t now : string) :
  (forall v, v ∈ task_volunteers_tbl d -> task_id v = t ->
             vol_status v <> "accepted") ->
  let d1 := step d (AcceptTask caller t) in
  let d2 := step d1 (CompleteTask creator t now) in
  (forall v, v ∈ task_volunteers_tbl d1 -> task_id v = t ->
             vol_status v <> "accepted") /\
  profiles_tbl d2 = profiles_tbl d.
Proof.
  intros Hall d1 d2.
  assert (H1 : forall v, v ∈ task_volunteers_tbl d1 -> task_id v = t ->
                         vol_status v <> "accepted").
  { pose proof (step_rows_shape d (AcceptTask caller t)) as H.
    cbv zeta in H. fold d1 in H.
    destruct H as [->|(_ & _ & ->)]; [exact Hall|].
    intros v Hv. apply elem_of_app in Hv as [Hv|Hv]; [apply Hall, Hv|].
    apply list_elem_of_singleton in Hv. subst v. intros _. discriminate. }
  split; [exact H1|].
  assert (Hp1 : profiles_tbl d1 = profiles_tbl d).
  { subst d1. unfold step, run_op. destruct d as [ts vs ps].
    unfold mount, acceptTask, insert_task_volunteer, update_tasks,
      fetchTasks, fetchVolunteers, setTasks, get_client, put_client,
      get_db, put_db, mbind, mret, Hook_bind, Hook_ret.
    simpl.
    destruct (bool_decide (t ∈ id <$> ts)); simpl; [|reflexivity].
    destruct (bool_decide
                (vol_key (mkTaskVolunteer t caller "active")
                 ∈ vol_key <$> vs)); simpl; [reflexivity|].
    destruct (find _ _); reflexivity. }
  rewrite <- Hp1. subst d2. unfold step, run_op.
  destruct (completeTask_tables (mount creator (Some t) d1) t now)
    as (_ & _ & _ & _ & _ & Hn).
  rewrite Hn, mount_db; [reflexivity|].
  rewrite mount_db.
  destruct (filter (fun v => task_id v = t /\ vol_status v = "accepted")
                   (task_volunteers_tbl d1)) as [|v l] eqn:E;
    [reflexivity|].
  exfalso.
  assert (Hv : v ∈ filter (fun v => task_id v = t /\ vol_status v = "accepted")
                          (task_volunteers_tbl d1))
    by (rewrite E; left).
  apply list_elem_of_filter in Hv as [[Ht Hs] Hv].
  exact (H1 v Hv Ht Hs).
Qed.

(** X15, witness: A joins the task of C, and C completes it. *)
Lemma direct_join_is_not_credited_witness :
  let d := mkDb [mkTask "t1" "C" t1hour low open [] 1 0 None None] []
                [mkProfile "A" [] (Some 2) (Some 3%Q)] in
  let d2 := run_ops [AcceptTask "A" "t1"; CompleteTask "C" "t1" "now"] d in
  profiles_tbl d2 = profiles_tbl d /\
  task_volunteers_tbl d2 = [mkTaskVolunteer "t1" "A" "active"] /\
  status <$> task_row d2 "t1" = Some completed.
Proof.
  intros d d2. split.
  - apply (direct_join_is_not_credited d "A" "C" "t1" "now").
    intros v Hv. inversion Hv.
  - split; vm_compute; reflexivity.
Defined.

End CompletionFacts.

(** ** What the hooks load, and the offer button *)

Section LoadedFacts.
Import useTasks useTaskVolunteers.

Lemma mount_status (d : Db) (caller t : string) :
  unique_volunteers d ->
  forall st,
    userVolunteerStatus (client (mount caller (Some t) d)) = Some st <->
    st <> "" /\ mkTaskVolunteer t caller st ∈ task_volunteers_tbl d.
Proof.
  intros Hu. rewrite mount_client. cbn [userVolunteerStatus].
  intros st.
  destruct (find (fun v => bool_decide (volunteer_id v = caller))
                 (filter (fun v => task_id v = t) (task_volunteers_tbl d)))
    as [v|] eqn:E.
  + apply find_some in E as [Hin Hv].
    apply bool_decide_eq_true_1 in Hv. apply list_elem_of_In in Hin.
    apply list_elem_of_filter in Hin as [Ht Hin].
    assert (Hvrow : v = mkTaskVolunteer t caller (vol_status v))
      by (destruct v; simpl in *; congruence).
    destruct (bool_decide_reflect (vol_status v = "")) as [He|He].
    * split; [discriminate|]. intros [Hne Hrow]. exfalso.
      assert (mkTaskVolunteer t caller st = v).
      { apply (key_unique_eq vol_key (task_volunteers_tbl d));
          [exact Hu|exact Hin|exact Hrow|].
        rewrite Hvrow. reflexivity. }
      subst v. simpl in He. contradiction.
    * split.
      -- intros [= <-]. split; [exact He|]. rewrite <- Hvrow. exact Hin.
      -- intros [Hne Hrow]. f_equal.
         assert (mkTaskVolunteer t caller st = v).
         { apply (key_unique_eq vol_key (task_volunteers_tbl d));
             [exact Hu|exact Hin|exact Hrow|].
           rewrite Hvrow. reflexivity. }
         subst v. reflexivity.
  + split; [discriminate|]. intros [Hne Hrow]. exfalso.
    apply list_elem_of_In in Hrow.
    assert (Hin : In (mkTaskVolunteer t caller st)
                     (filter (fun v => task_id v = t)
                             (task_volunteers_tbl d))).
    { apply list_elem_of_In, list_elem_of_filter. split; [reflexivity|].
      apply list_elem_of_In, Hrow. }
    apply (find_none _ _ E) in Hin.
    apply bool_decide_eq_false_1 in Hin. apply Hin. reflexivity.
Qed.

(** X16: after the hooks are mounted on a task, the loaded volunteers are
    exactly the rows of the task, [acceptedCount] is the number of its
    accepted rows and [pendingCount] the number of its pending rows (the
    two together are at most the number of loaded rows), the loaded tasks
    are exactly the open and in-progress ones, and, rows being unique per
    task and user, the caller's status is the status of the caller's row
    (none without a row or with an empty status). *)
Theorem mount_loads_current_rows (d : Db) (caller t : string) :
  unique_volunteers d ->
  let c := client (mount caller (Some t) d) in
  (forall v, v ∈ volunteers c <-> task_id v = t /\ v ∈ task_volunteers_tbl d) /\
  acceptedCount c = length (acceptedRows t (task_volunteers_tbl d)) /\
  pendingCount c = length (pendingRows t (task_volunteers_tbl d)) /\
  (pendingCount c + acceptedCount c <= length (volunteers c))%nat /\
  (forall x, x ∈ tasks c <->
             status x ∈ [open; in_progress] /\ x ∈ tasks_tbl d) /\
  (forall st, userVolunteerStatus c = Some st <->
              st <> "" /\
              mkTaskVolunteer t caller st ∈ task_volunteers_tbl d).
Proof.
  intros Hu c. subst c.
  pose proof (mount_status d caller t Hu) as Hstatus.
  rewrite mount_client in Hstatus |- *.
  cbn [volunteers tasks userVolunteerStatus acceptedCount pendingCount]
    in Hstatus |- *.
  split; [|split; [|split; [|split; [|split]]]].
  - intros v. rewrite list_elem_of_filter. reflexivity.
  - reflexivity.
  - reflexivity.
  - unfold acceptedCount, pendingCount. cbn [volunteers].
    generalize (filter (fun v => task_id v = t) (task_volunteers_tbl d)).
    intros l. induction l as [|v l IH]; [reflexivity|].
    rewrite !filter_cons.
    destruct (decide (vol_status v = "pending")) as [Hp|Hp];
      destruct (decide (vol_status v = "accepted")) as [Ha|Ha];
      simpl; try lia.
    rewrite Hp in Ha. discriminate.
  - intros x. rewrite elem_of_reverse, list_elem_of_filter. reflexivity.
  - exact Hstatus.
Qed.

(** X16, witness: B looks at the task after A was accepted. *)
Lemma mount_loads_current_rows_witness :
  let d := run_ops one_helper_task empty_db in
  let c := client (mount "B" (Some "t1") d) in
  acceptedCount c = 1%nat /\ pendingCount c = 1%nat /\
  userVolunteerStatus c = Some "pending".
Proof.
  intros d c. subst c.
  assert (Hu : unique_volunteers d)
    by (apply (bool_decide_unpack _); vm_compute; exact I).
  destruct (mount_loads_current_rows d "B" "t1" Hu)
    as (_ & H2 & H3 & _ & _ & H5).
  split; [|split].
  - rewrite H2. vm_compute. reflexivity.
  - rewrite H3. vm_compute. reflexivity.
  - apply H5. split; [discriminate|].
    apply (bool_decide_unpack _). vm_compute. exact I.
Defined.

(** X17: from a reachable state, when the dialog of a task shows the offer
    button to a signed-in user ([canOffer] on the freshly loaded status),
    [offerToHelp] succeeds: it adds the pending row of the user and the
    user's status becomes pending. *)
Theorem canOffer_then_offer_succeeds (d : Db) (caller t : string)
  (task : Task) :
  reachable d ->
  task_row d t = Some task ->
  let w := mount caller (Some t) d in
  TaskDetailModal.canOffer (user (client w)) (userVolunteerStatus (client w))
                           (Some task) = true ->
  let r := offerToHelp t w in
  fst r = None /\
  task_volunteers_tbl (db (snd r)) =
    task_volunteers_tbl d ++ [mkTaskVolunteer t caller "pending"] /\
  userVolunteerStatus (client (snd r)) = Some "pending".
Proof.
  intros Hreach Hrow w Hcan r.
  destruct (run_rows_sound d Hreach) as [Hu Hall].
  destruct (find_row_elem _ _ _ Hrow) as [Hin Hid].
  assert (Hst : userVolunteerStatus (client w) = None \/
                userVolunteerStatus (client w) = Some "").
  { unfold TaskDetailModal.canOffer in Hcan.
    apply andb_true_iff in Hcan as [Hcan _].
    apply andb_true_iff in Hcan as [_ Hcan].
    apply bool_decide_eq_true_1 in Hcan. exact Hcan. }
  assert (Hkey : (t, caller) ∉ vol_key <$> task_volunteers_tbl d).
  { intros Hk. apply list_elem_of_fmap in Hk as (v & Hk & Hv).
    destruct (Hall v Hv) as [_ Hw].
    assert (Hne : vol_status v <> "")
      by (destruct Hw as [H|[H|[H|H]]]; rewrite H; discriminate).
    assert (Hs : userVolunteerStatus (client w) = Some (vol_status v)).
    { apply (mount_status d caller t Hu). split; [exact Hne|].
      destruct v as [vt vu vs]. unfold vol_key in Hk. simpl in Hk.
      injection Hk as -> ->. exact Hv. }
    destruct Hst as [H|H]; rewrite H in Hs; [discriminate|].
    injection Hs as Hs. apply Hne. symmetry. exact Hs. }
  assert (Hw : user (client w) = Some caller /\ taskId (client w) = Some t
               /\ db w = d).
  { subst w. rewrite mount_client, mount_db. repeat split. }
  destruct Hw as (Huser & Htid & Hdb).
  destruct (offerToHelp_fresh w caller t Huser) as (He & Hd & Hs).
  - rewrite Hdb, <- Hid. apply (list_elem_of_fmap_2 id), Hin.
  - rewrite Hdb. exact Hkey.
  - subst r. split; [exact He|]. split; [rewrite Hd, Hdb; reflexivity|].
    apply Hs, Htid.
Qed.

(** X17, witness: D, who has no row, offers on the task of the
    scenario. *)
Lemma canOffer_then_offer_succeeds_witness :
  let d := run_ops [CreateTask "C" "t1"
                      (mkCreateTaskData t1hour low None None);
                    OfferToHelp "A" "t1"] empty_db in
  task_volunteers_tbl (db (snd (offerToHelp "t1" (mount "D" (Some "t1") d))))
  = [mkTaskVolunteer "t1" "A" "pending"; mkTaskVolunteer "t1" "D" "pending"].
Proof.
  intros d.
  assert (Hreach : reachable d) by (eexists [], _; reflexivity).
  assert (Hrow : task_row d "t1" =
                 Some (mkTask "t1" "C" t1hour low open [] 1 0 None None))
    by (vm_compute; reflexivity).
  destruct (canOffer_then_offer_succeeds d "D" "t1" _ Hreach Hrow)
    as (_ & H & _); [vm_compute; reflexivity|].
  rewrite H. vm_compute. reflexivity.
Defined.

(** X18: the button of the card is enabled exactly for the creator of the
    task, and for anyone else who is neither pending nor accepted while
    the task is not in progress and below [max_volunteers]; it is
    therefore enabled whenever the dialog would show its offer button on a
    task that is not full, and also for a volunteer who was rejected. *)
Theorem getButtonContent_enabled (user userStatus : option string)
  (task : Task) :
  (snd (TaskCard.getButtonContent user userStatus task) = false <->
   Some (creator_id task) = user \/
   (userStatus <> Some "pending" /\ userStatus <> Some "accepted" /\
    status task <> in_progress /\
    current_volunteers task < max_volunteers task)) /\
  (TaskDetailModal.canOffer user userStatus (Some task) = true ->
   current_volunteers task < max_volunteers task ->
   TaskCard.getButtonContent user userStatus task
   = ("Offer to Help", false)) /\
  (Some (creator_id task) <> user -> status task = open ->
   current_volunteers task < max_volunteers task ->
   TaskCard.getButtonContent user (Some "rejected") task
   = ("Offer to Help", false) /\
   TaskDetailModal.canOffer user (Some "rejected") (Some task) = false).
Proof.
  unfold TaskCard.getButtonContent, TaskDetailModal.canOffer.
  split; [|split].
  - destruct (bool_decide_reflect (Some (creator_id task) = user)) as [Hc|Hc].
    { simpl. split; [left; exact Hc|reflexivity]. }
    destruct (bool_decide_reflect (userStatus = Some "pending")) as [Hp|Hp].
    { simpl. split; [discriminate|]. intros [?|(? & _)]; contradiction. }
    destruct (bool_decide_reflect (userStatus = Some "accepted")) as [Ha|Ha].
    { simpl. split; [discriminate|]. intros [?|(_ & ? & _)]; contradiction. }
    destruct (bool_decide_reflect (status task = in_progress)) as [Hs|Hs].
    { simpl. split; [discriminate|].
      intros [?|(_ & _ & ? & _)]; contradiction. }
    destruct (current_volunteers task >=? max_volunteers task)%Z eqn:E;
      rewrite Z.geb_leb in E; simpl.
    + apply Z.leb_le in E. split; [discriminate|].
      intros [?|(_ & _ & _ & ?)]; [contradiction|lia].
    + apply Z.leb_gt in E. split; [|reflexivity].
      intros _. right. repeat split; assumption.
  - intros Hcan Hcap.
    apply andb_true_iff in Hcan as [Hcan Hopen].
    apply andb_true_iff in Hcan as [Hcr Hst].
    apply negb_true_iff, bool_decide_eq_false_1 in Hcr.
    apply bool_decide_eq_true_1 in Hst, Hopen.
    simpl in Hcr, Hopen. injection Hopen as Hopen.
    rewrite bool_decide_eq_false_2
      by (intros H; apply Hcr; rewrite <- H; reflexivity).
    rewrite bool_decide_eq_false_2
      by (destruct Hst as [-> | ->]; discriminate).
    rewrite bool_decide_eq_false_2
      by (destruct Hst as [-> | ->]; discriminate).
    rewrite bool_decide_eq_false_2 by (rewrite Hopen; discriminate).
    replace (current_volunteers task >=? max_volunteers task)%Z with false
      by (symmetry; rewrite Z.geb_leb; apply Z.leb_gt; exact Hcap).
    reflexivity.
  - intros Hcr Hopen Hcap.
    rewrite (bool_decide_eq_false_2 _ Hcr).
    rewrite bool_decide_eq_false_2 by discriminate.
    rewrite bool_decide_eq_false_2 by discriminate.
    rewrite bool_decide_eq_false_2 by (rewrite Hopen; discriminate).
    replace (current_volunteers task >=? max_volunteers task)%Z with false
      by (symmetry; rewrite Z.geb_leb; apply Z.leb_gt; exact Hcap).
    split; [reflexivity|].
    rewrite (bool_decide_eq_false_2
               (Some "rejected" = None \/ Some "rejected" = Some ""))
      by (intros [H|H]; discriminate).
    apply andb_false_iff. left. apply andb_false_r.
Qed.

(** X18, witness: the card and the dialog for a rejected volunteer. *)
Lemma getButtonContent_enabled_witness :
  let task := mkTask "t1" "C" t1hour low open [] 2 0 None None in
  TaskCard.getButtonContent (Some "B") (Some "rejected") task
  = ("Offer to Help", false) /\
  TaskDetailModal.canOffer (Some "B") (Some "rejected") (Some task) = false.
Proof.
  intros task.
  apply (proj2 (proj2 (getButtonContent_enabled (Some "B") None task)));
    [discriminate|reflexivity|reflexivity].
Defined.

End LoadedFacts.

(** ** The skill picker *)

Section SkillToggleFacts.

Lemma handleSkillToggle_elem (skill s : string) (prev : list string) :
  s ∈ handleSkillToggle skill prev <->
  (s <> skill /\ s ∈ prev) \/ (s = skill /\ skill ∉ prev).
Proof.
  unfold handleSkillToggle.
  destruct (bool_decide_reflect (skill ∈ prev)) as [Hin|Hin].
  - rewrite list_elem_of_filter. split.
    + intros [Hne Hs]. left. split; assumption.
    + intros [[Hne Hs]|[-> Hno]]; [split; assumption|contradiction].
  - rewrite elem_of_app, list_elem_of_singleton. split.
    + intros [Hs| ->]; [left|right; split; [reflexivity|exact Hin]].
      split; [|exact Hs]. intros ->. contradiction.
    + intros [[_ Hs]|[-> _]]; [left; exact Hs|right; reflexivity].
Qed.

Lemma handleSkillToggle_NoDup (skill : string) (prev : list string) :
  NoDup prev -> NoDup (handleSkillToggle skill prev).
Proof.
  intros Hnd. unfold handleSkillToggle.
  destruct (bool_decide_reflect (skill ∈ prev)) as [Hin|Hin].
  - apply NoDup_filter, Hnd.
  - apply NoDup_app. split; [exact Hnd|]. split; [|apply NoDup_singleton].
    intros x Hx Hx'. apply list_elem_of_singleton in Hx'. subst x.
    contradiction.
Qed.

Lemma toggled_snoc (clicks : list string) (skill : string) :
  toggled (clicks ++ [skill]) = handleSkillToggle skill (toggled clicks).
Proof. unfold toggled. rewrite fold_left_app. reflexivity. Qed.

Lemma toggled_NoDup (clicks : list string) : NoDup (toggled clicks).
Proof.
  induction clicks as [|skill clicks IH] using rev_ind.
  - apply NoDup_nil_2.
  - rewrite toggled_snoc. apply handleSkillToggle_NoDup, IH.
Qed.

(** X19: a click on the skill picker removes the skill when it is selected
    and appends it otherwise, so a selection without repetition stays
    without repetition, and a skill that was not selected is back out
    after two clicks, with the selection as it was.  Starting from the
    empty selection, the selection never repeats a skill, and it holds
    exactly the skills clicked an odd number of times. *)
Theorem skill_picker_selection :
  (forall skill prev,
      NoDup prev -> NoDup (handleSkillToggle skill prev)) /\
  (forall skill prev,
      skill ∉ prev ->
      handleSkillToggle skill (handleSkillToggle skill prev) = prev) /\
  (forall clicks, NoDup (toggled clicks)) /\
  (forall clicks skill,
      skill ∈ toggled clicks <-> Nat.odd (clicks_on skill clicks) = true).
Proof.
  split; [exact handleSkillToggle_NoDup|]. split; [|split].
  - intros skill prev Hno. unfold handleSkillToggle at 2.
    rewrite (bool_decide_eq_false_2 _ Hno). unfold handleSkillToggle.
    rewrite bool_decide_eq_true_2
      by (apply elem_of_app; right; left).
    rewrite filter_app, filter_cons, filter_nil.
    rewrite decide_False by (intros H; apply H; reflexivity).
    rewrite app_nil_r.
    induction prev as [|x prev IH]; [reflexivity|].
    apply not_elem_of_cons in Hno as [Hx Hno].
    rewrite filter_cons, decide_True by congruence.
    f_equal. apply IH, Hno.
  - exact toggled_NoDup.
  - intros clicks skill.
    induction clicks as [|x clicks IH] using rev_ind.
    + split; [intros H; inversion H|discriminate].
    + rewrite toggled_snoc, handleSkillToggle_elem.
      unfold clicks_on in *. rewrite filter_app, length_app.
      rewrite filter_cons, filter_nil.
      destruct (decide (x = skill)) as [->|Hx].
      * simpl length. rewrite Nat.add_1_r, Nat.odd_succ, <- Nat.negb_odd.
        rewrite negb_true_iff. split.
        -- intros [[Hne _]|[_ Hno]]; [contradiction|].
           destruct (Nat.odd _) eqn:E; [|reflexivity].
           exfalso. apply Hno, IH. reflexivity.
        -- intros Hodd. right. split; [reflexivity|].
           intros Hin. apply IH in Hin. congruence.
      * simpl length. rewrite Nat.add_0_r. rewrite <- IH. split.
        -- intros [[_ Hs]|[-> _]]; [exact Hs|contradiction].
        -- intros Hs. left. split; [congruence|exact Hs].
Qed.

(** X19, witness. *)
Lemma skill_picker_selection_witness :
  handleSkillToggle "Driving" (handleSkillToggle "Driving" ["Cooking"])
  = ["Cooking"] /\
  toggled ["Driving"; "Cooking"; "Driving"] = ["Cooking"].
Proof.
  split.
  - apply (proj1 (proj2 skill_picker_selection)).
    apply (bool_decide_unpack _). vm_compute. exact I.
  - vm_compute. reflexivity.
Defined.

End SkillToggleFacts.

(** ** More on the scorer *)

Section ScoreOrderFacts.
Local Open Scope Q_scope.
Import TaskFeed.

(** X20: for a task whose [skills_needed] was selected with the skill
    picker of the task form, the skill part of the score is twice the
    number of skills that the user and the task have in common. *)
Theorem picked_skills_score (userSkills : gset string) (t : Task)
  (clicks : list string) :
  skills_needed t = toggled clicks ->
  taskScore userSkills t ==
    2 * Qnat (size (userSkills ∩ list_to_set (skills_needed t) : gset string))
    + match distance t with
      | Some d => if Qltb d 5 then 2 - d / 5 else 0
      | None => 0
      end
    + (if bool_decide (urgency t = high) then 1 else 0).
Proof.
  intros Hsk. rewrite taskScore_sum.
  rewrite (matchingSkills_shared userSkills t)
    by (rewrite Hsk; apply toggled_NoDup).
  reflexivity.
Qed.

(** X20, witness. *)
Lemma picked_skills_score_witness :
  taskScore (list_to_set ["Driving"; "Cooking"])
            (mkTask "t1" "C" t1hour low open ["Cooking"] 1 0 None None)
  == 2.
Proof.
  rewrite (picked_skills_score _ _ ["Driving"; "Cooking"; "Driving"])
    by reflexivity.
  vm_compute. reflexivity.
Defined.

Lemma distance_part_nonneg (d : option Q) :
  0 <= match d with
       | Some d => if Qltb d 5 then 2 - d / 5 else 0
       | None => 0
       end.
Proof.
  destruct d as [d|]; [|apply Qle_refl].
  destruct (Qltb d 5) eqn:E; [|apply Qle_refl].
  apply Qltb_true in E.
  assert (Hd : d / 5 == d * (1 # 5)) by (unfold Qdiv; reflexivity).
  rewrite Hd. Lqa.lra.
Qed.

Lemma distance_part_order (d1 d2 : option Q) :
  not_nearer d1 d2 ->
  match d1 with
  | Some d => if Qltb d 5 then 2 - d / 5 else 0
  | None => 0
  end
  <= match d2 with
     | Some d => if Qltb d 5 then 2 - d / 5 else 0
     | None => 0
     end.
Proof.
  assert (Hdiv : forall d, d / 5 == d * (1 # 5))
    by (intros d; unfold Qdiv; reflexivity).
  destruct d1 as [x|], d2 as [y|]; simpl; intros H.
  - destruct (Qltb x 5) eqn:Ex, (Qltb y 5) eqn:Ey;
      try apply Qltb_true in Ex; try apply Qltb_true in Ey;
      try apply Qltb_false in Ex; try apply Qltb_false in Ey;
      rewrite ?Hdiv; Lqa.lra.
  - destruct (Qltb x 5) eqn:Ex; [|apply Qle_refl].
    apply Qltb_true in Ex. Lqa.lra.
  - apply (distance_part_nonneg (Some y)).
  - apply Qle_refl.
Qed.

Lemma Qnat_le (n m : nat) : (n <= m)%nat -> Qnat n <= Qnat m.
Proof.
  intros H. unfold Qnat. rewrite <- Zle_Qle. lia.
Qed.

Lemma matching_mono (u u' : gset string) (l : list string) :
  u ⊆ u' ->
  (length (filter (fun s => s ∈ u) l) <= length (filter (fun s => s ∈ u') l))%nat.
Proof.
  intros Hsub. induction l as [|x l IH]; [reflexivity|].
  rewrite !filter_cons.
  destruct (decide (x ∈ u)) as [Hx|Hx].
  - rewrite decide_True by (apply Hsub, Hx). simpl. lia.
  - destruct (decide (x ∈ u')); simpl; lia.
Qed.

(** X21: the score of a task is never negative; all else equal, a task
    that is not nearer never scores more (a missing distance counting as 5
    miles or more), an urgent task scores exactly one more than the same
    task with another urgency, and a user with more skills never scores a
    task lower. *)
Theorem taskScore_order (userSkills : gset string) (t : Task) :
  0 <= taskScore userSkills t /\
  (forall d1 d2,
      not_nearer d1 d2 ->
      taskScore userSkills (at_distance d1 t)
      <= taskScore userSkills (at_distance d2 t)) /\
  (forall u, u <> high ->
             taskScore userSkills (with_urgency high t)
             == taskScore userSkills (with_urgency u t) + 1) /\
  (forall moreSkills : gset string,
      userSkills ⊆ moreSkills ->
      taskScore userSkills t <= taskScore moreSkills t).
Proof.
  split; [|split; [|split]].
  - rewrite taskScore_sum.
    pose proof (distance_part_nonneg (distance t)) as Hd.
    pose proof (Qnat_le 0 (length (matchingSkills userSkills t))
                        (Nat.le_0_l _)) as Hn.
    change (Qnat 0) with 0 in Hn.
    destruct (bool_decide (urgency t = high)); Lqa.lra.
  - intros d1 d2 Hd. rewrite !taskScore_sum.
    pose proof (distance_part_order d1 d2 Hd) as Ho.
    change (matchingSkills userSkills (at_distance d1 t))
      with (matchingSkills userSkills t).
    change (matchingSkills userSkills (at_distance d2 t))
      with (matchingSkills userSkills t).
    cbn [distance urgency at_distance].
    destruct (bool_decide (urgency t = high)); Lqa.lra.
  - intros u Hu. rewrite !taskScore_sum.
    change (matchingSkills userSkills (with_urgency high t))
      with (matchingSkills userSkills t).
    change (matchingSkills userSkills (with_urgency u t))
      with (matchingSkills userSkills t).
    cbn [distance urgency with_urgency].
    rewrite bool_decide_eq_true_2 by reflexivity.
    rewrite bool_decide_eq_false_2 by exact Hu.
    ring.
  - intros moreSkills Hsub. rewrite !taskScore_sum.
    pose proof (Qnat_le _ _ (matching_mono userSkills moreSkills
                               (skills_needed t) Hsub)) as Hn.
    unfold matchingSkills.
    destruct (bool_decide (urgency t = high)); Lqa.lra.
Qed.

(** X21, witness: the same task at 1 mile and at 6 miles. *)
Lemma taskScore_order_witness :
  let t := mkTask "t1" "C" t1hour low open [] 1 0 None None in
  taskScore ∅ (at_distance (Some 6) t) <= taskScore ∅ (at_distance (Some 1) t).
Proof.
  intros t. apply (proj1 (proj2 (taskScore_order ∅ t))). discriminate.
Defined.

(** The best match is a listed task with a positive score. *)
Lemma bestMatchId_listed (profile : option Profile) (l : list Task)
  (best : string) :
  bestMatchId profile l = Some best ->
  exists p t,
    profile = Some p /\ t ∈ l /\ id t = best /\
    0 < taskScore (list_to_set (skills p)) t.
Proof.
  destruct profile as [p|]; [|discriminate].
  destruct (skills p) as [|k ks] eqn:Hs.
  { unfold bestMatchId. rewrite Hs. discriminate. }
  rewrite bestMatchId_loop by (rewrite Hs; discriminate).
  pose proof (loop_inv_fold (list_to_set (skills p)) l [] (None, 0)) as Hinv.
  simpl in Hinv.
  destruct Hinv as [[-> _]|(l1 & t & l2 & -> & -> & Hpos & _ & _)].
  { left. split; [reflexivity|]. intros t Ht. inversion Ht. }
  - change (Qltb 0 0) with false. discriminate.
  - apply Qltb_true in Hpos as Hb. rewrite Hb. simpl. intros [= <-].
    exists p, t. split; [reflexivity|]. split; [|split; [reflexivity|]].
    + apply elem_of_app. right. left.
    + exact Hpos.
Qed.

(** X22: the map view keeps the tasks without a distance and those within
    the radius, so a larger radius keeps at least the same tasks and a
    user without a location sees every task; the best match that the map
    marks is a task of the list that is within the radius or has no
    distance, and it scores above 0. *)
Theorem map_radius_filter (tasks : list Task) (radiusFilter : Q) :
  (forall t, t ∈ MapRadius.filteredTasks tasks radiusFilter <->
             t ∈ tasks /\
             match distance t with
             | None => True
             | Some d => d <= radiusFilter
             end) /\
  (forall larger t,
      radiusFilter <= larger ->
      t ∈ MapRadius.filteredTasks tasks radiusFilter ->
      t ∈ MapRadius.filteredTasks tasks larger) /\
  ((forall t, t ∈ tasks -> distance t = None) ->
   MapRadius.filteredTasks tasks radiusFilter = tasks) /\
  (forall profile best,
      MapRadius.bestMatchId profile tasks radiusFilter = Some best ->
      exists p t,
        profile = Some p /\ t ∈ tasks /\ id t = best /\
        match distance t with
        | None => True
        | Some d => d <= radiusFilter
        end /\
        0 < taskScore (list_to_set (skills p)) t).
Proof.
  assert (Hmem : forall r t,
             t ∈ MapRadius.filteredTasks tasks r <->
             t ∈ tasks /\
             match distance t with
             | None => True
             | Some d => d <= r
             end).
  { intros r t. unfold MapRadius.filteredTasks.
    rewrite !list_elem_of_In, filter_In.
    destruct (distance t) as [d|].
    - rewrite Qle_bool_iff. reflexivity.
    - split; [intros [H _]; split; [exact H|exact I]
             |intros [H _]; split; [exact H|reflexivity]]. }
  split; [apply Hmem|]. split; [|split].
  - intros larger t Hle Ht. apply Hmem in Ht as [Hin Hd]. apply Hmem.
    split; [exact Hin|]. destruct (distance t) as [d|]; [|exact I].
    eapply Qle_trans; eassumption.
  - intros Hnone. clear Hmem. unfold MapRadius.filteredTasks.
    induction tasks as [|t l IH]; [reflexivity|].
    simpl. rewrite (Hnone t) by left. f_equal.
    apply IH. intros t0 Ht0. apply Hnone. right. exact Ht0.
  - intros profile best Hbest. unfold MapRadius.bestMatchId in Hbest.
    change (TaskMapView.bestMatchId profile
              (MapRadius.filteredTasks tasks radiusFilter))
      with (bestMatchId profile (MapRadius.filteredTasks tasks radiusFilter))
      in Hbest.
    apply bestMatchId_listed in Hbest as (p & t & -> & Ht & Hid & Hpos).
    apply Hmem in Ht as [Hin Hd].
    exists p, t. repeat split; assumption.
Qed.

(** X22, witness. *)
Lemma map_radius_filter_witness :
  let near := mkTask "t1" "C" t1hour high open [] 1 0 None (Some 3) in
  let far := mkTask "t2" "C" t1hour high open [] 1 0 None (Some 30) in
  near ∈ MapRadius.filteredTasks [far; near] 50.
Proof.
  intros near far.
  apply (proj1 (proj2 (map_radius_filter [far; near] 25)) 50 near).
  - discriminate.
  - apply (proj1 (map_radius_filter [far; near] 25)).
    split; [right; left|discriminate].
Defined.

End ScoreOrderFacts.

(** ** More on the distance *)

Section DistanceRangeFacts.
Local Open Scope R_scope.
Import Distance.

(** X24: the distance is the same when the two longitudes are exchanged,
    and when both points are mirrored at the equator: the formula depends
    on the differences of the coordinates through squares of sines, and on
    the latitudes through cosines. *)
Theorem calculateDistance_invariances (lat1 lng1 lat2 lng2 : R) :
  calculateDistance lat1 lng2 lat2 lng1
  = calculateDistance lat1 lng1 lat2 lng2 /\
  calculateDistance (- lat1) lng1 (- lat2) lng2
  = calculateDistance lat1 lng1 lat2 lng2.
Proof.
  split.
  - unfold calculateDistance.
    replace ((lng1 - lng2) * PI / 180 / 2)
      with (- ((lng2 - lng1) * PI / 180 / 2)) by field.
    rewrite sin_neg.
    set (s2 := sin ((lng2 - lng1) * PI / 180 / 2)).
    set (s1 := sin ((lat2 - lat1) * PI / 180 / 2)).
    set (c1 := cos (lat1 * PI / 180)). set (c2 := cos (lat2 * PI / 180)).
    replace (s1 * s1 + c1 * c2 * - s2 * - s2)
      with (s1 * s1 + c1 * c2 * s2 * s2) by ring.
    reflexivity.
  - unfold calculateDistance.
    replace ((- lat2 - - lat1) * PI / 180 / 2)
      with (- ((lat2 - lat1) * PI / 180 / 2)) by field.
    replace (- lat1 * PI / 180) with (- (lat1 * PI / 180)) by field.
    replace (- lat2 * PI / 180) with (- (lat2 * PI / 180)) by field.
    rewrite sin_neg, !cos_neg.
    set (s2 := sin ((lng2 - lng1) * PI / 180 / 2)).
    set (s1 := sin ((lat2 - lat1) * PI / 180 / 2)).
    set (c1 := cos (lat1 * PI / 180)). set (c2 := cos (lat2 * PI / 180)).
    replace (- s1 * - s1 + c1 * c2 * s2 * s2)
      with (s1 * s1 + c1 * c2 * s2 * s2) by ring.
    reflexivity.
Qed.

(** X25: [fetchTasks] joins a distance to a task exactly when the profile
    has a latitude and a longitude that are both different from 0, and
    the distance is then the one from the place of the profile to the
    place of the task; a profile on the equator or on the prime meridian
    gets no distance. *)
Theorem distanceFrom_defined (location_lat location_lng : option R)
  (task_lat task_lng d : R) :
  TaskDistance.distanceFrom location_lat location_lng task_lat task_lng
  = Some d <->
  exists lat lng,
    location_lat = Some lat /\ location_lng = Some lng /\
    lat <> 0 /\ lng <> 0 /\
    d = calculateDistance lat lng task_lat task_lng.
Proof.
  unfold TaskDistance.distanceFrom.
  destruct location_lat as [lat|], location_lng as [lng|].
  2-4: split; [discriminate|intros (? & ? & ? & ? & _); discriminate].
  destruct (Req_dec_T lat 0) as [Hlat|Hlat].
  { split; [discriminate|].
    intros (? & ? & [= <-] & _ & H & _). contradiction. }
  destruct (Req_dec_T lng 0) as [Hlng|Hlng].
  { split; [discriminate|].
    intros (? & ? & _ & [= <-] & _ & H & _). contradiction. }
  split.
  - intros [= <-]. exists lat, lng. repeat split; assumption.
  - intros (? & ? & [= <-] & [= <-] & _ & _ & ->). reflexivity.
Qed.

(** X25, witness: a profile in New York, and one on the equator. *)
Lemma distanceFrom_defined_witness :
  TaskDistance.distanceFrom (Some 40) (Some (-74)) 41 (-73)
  = Some (calculateDistance 40 (-74) 41 (-73)) /\
  TaskDistance.distanceFrom (Some 0) (Some (-74)) 41 (-73) <> Some 0.
Proof.
  split.
  - apply (proj2 (distanceFrom_defined (Some 40) (Some (-74)) 41 (-73) _)).
    exists 40, (-74). repeat split; Lra.lra.
  - intros H.
    apply (proj1 (distanceFrom_defined (Some 0) (Some (-74)) 41 (-73) 0))
      in H as (lat & lng & [= <-] & _ & Hlat & _).
    apply Hlat. reflexivity.
Defined.

End DistanceRangeFacts.

(** ** Feedback *)

Section FeedbackFacts.
Import Feedback.

Lemma insert_feedback_ok (row : Row) (s : Store) :
  task_id row ∈ id <$> tasks_tbl (base s) ->
  rating_check row = true ->
  key row ∉ key <$> feedback_tbl s ->
  insert_feedback row s
  = (None, mkStore (base s) (feedback_tbl s ++ [row])).
Proof.
  intros Hfk Hck Huq. unfold insert_feedback.
  rewrite (bool_decide_eq_true_2 _ Hfk), Hck, (bool_decide_eq_false_2 _ Huq).
  reflexivity.
Qed.

Lemma insert_feedback_cases (row : Row) (s : Store) :
  (exists e, insert_feedback row s = (Some e, s)) \/
  (insert_feedback row s
   = (None, mkStore (base s) (feedback_tbl s ++ [row])) /\
   rating_check row = true /\ key row ∉ key <$> feedback_tbl s).
Proof.
  unfold insert_feedback.
  destruct (bool_decide (task_id row ∈ id <$> tasks_tbl (base s)));
    simpl; [|left; eexists; reflexivity].
  destruct (rating_check row); simpl; [|left; eexists; reflexivity].
  destruct (bool_decide (key row ∈ key <$> feedback_tbl s)) eqn:Huq;
    [left; eexists; reflexivity|].
  right. apply bool_decide_eq_false in Huq. auto.
Qed.

Lemma submitted_row (m : Modal) (u r : string) :
  submitted m u r
  = mkRow (taskId m) u r (Some (currentRating m r)) (comment_for m r).
Proof.
  unfold submitted, comment_for, currentComment. f_equal.
  destruct (comments m !! r) as [c|]; reflexivity.
Qed.

Lemma submitFeedback_run (m : Modal) (s : Store) (u r : string) (k : Z) :
  user m = Some u -> currentRecipient m = Some r ->
  ratings m !! r = Some k -> 1 <= k <= 5 ->
  taskId m ∈ id <$> tasks_tbl (base s) ->
  (taskId m, u, r) ∉ key <$> feedback_tbl s ->
  submitFeedback m s
  = (handleSkip m,
     mkStore (base s)
             (feedback_tbl s
                ++ [mkRow (taskId m) u r (Some k) (comment_for m r)])).
Proof.
  intros Hu Hr Hk Hrange Hfk Huq. unfold submitFeedback.
  rewrite Hu, Hr.
  assert (currentRating m r = k) as Hcur
      by (unfold currentRating; rewrite Hk; reflexivity).
  rewrite Hcur. rewrite bool_decide_eq_false_2 by lia.
  rewrite submitted_row, Hcur.
  rewrite insert_feedback_ok; [reflexivity|exact Hfk| |exact Huq].
  unfold rating_check. simpl.
  apply andb_true_iff. split; apply Z.leb_le; lia.
Qed.

Lemma handleSkip_index (m : Modal) :
  (currentIndex m < length (recipients m))%nat ->
  (currentIndex (handleSkip m) < length (recipients m))%nat /\
  user (handleSkip m) = user m /\ taskId (handleSkip m) = taskId m /\
  recipients (handleSkip m) = recipients m.
Proof.
  intros Hlt. unfold handleSkip, isLastRecipient.
  destruct (bool_decide _) eqn:Hlast; simpl; repeat split; try assumption.
  apply bool_decide_eq_false in Hlast. lia.
Qed.

(** X26: with a signed-in user, 1 to 5 stars chosen for the current
    recipient, the task present and no feedback yet from the user to the
    recipient on the task, [submitFeedback] appends exactly one row, with
    the chosen stars and the typed comment (none when it is empty); it
    then closes the dialog on the last recipient and moves to the next
    recipient otherwise, keeping the stars and comments entered. *)
Theorem submitFeedback_effect (m : Modal) (s : Store) (u r : string)
  (k : Z) :
  user m = Some u -> currentRecipient m = Some r ->
  ratings m !! r = Some k -> 1 <= k <= 5 ->
  taskId m ∈ id <$> tasks_tbl (base s) ->
  (taskId m, u, r) ∉ key <$> feedback_tbl s ->
  let m' := (submitFeedback m s).1 in
  let s' := (submitFeedback m s).2 in
  base s' = base s /\
  feedback_tbl s'
  = feedback_tbl s ++ [mkRow (taskId m) u r (Some k) (comment_for m r)] /\
  ratings m' = ratings m /\ comments m' = comments m /\
  (S (currentIndex m) = length (recipients m) ->
   opened m' = false /\ currentIndex m' = currentIndex m) /\
  (S (currentIndex m) <> length (recipients m) ->
   opened m' = opened m /\ currentIndex m' = S (currentIndex m)).
Proof.
  intros Hu Hr Hk Hrange Hfk Huq. simpl.
  rewrite (submitFeedback_run m s u r k Hu Hr Hk Hrange Hfk Huq). simpl.
  split; [reflexivity|]. split; [reflexivity|].
  unfold handleSkip, isLastRecipient.
  destruct (bool_decide _) eqn:Hlast; simpl.
  - apply bool_decide_eq_true in Hlast.
    repeat split; try reflexivity; intros; lia.
  - apply bool_decide_eq_false in Hlast.
    repeat split; try reflexivity; intros; lia.
Qed.

(** X27: [submitFeedback] changes neither the tables nor the dialog when
    nobody is signed in, when no star (or a number of stars outside 1 to
    5) is chosen for the current recipient, or when the user has already
    given feedback to the recipient on the task; in the last case the
    dialog stays on the recipient. *)
Theorem submitFeedback_refused (m : Modal) (s : Store) :
  user m = None \/
  (exists r, currentRecipient m = Some r /\
             ~ 1 <= default 0 (ratings m !! r) <= 5) \/
  (exists u r, user m = Some u /\ currentRecipient m = Some r /\
               (taskId m, u, r) ∈ key <$> feedback_tbl s) ->
  submitFeedback m s = (m, s).
Proof.
  unfold submitFeedback.
  intros [Hu|[(r & Hr & Hk)|(u & r & Hu & Hr & Hin)]].
  - rewrite Hu. reflexivity.
  - destruct (user m) as [u|]; [|reflexivity]. rewrite Hr.
    fold (currentRating m r) in Hk.
    destruct (bool_decide (currentRating m r = 0)); [reflexivity|].
    destruct (insert_feedback_cases (submitted m u r) s)
      as [[e ->]|(_ & Hck & _)]; [reflexivity|].
    exfalso. apply Hk. unfold rating_check, submitted in Hck. simpl in Hck.
    apply andb_true_iff in Hck as [H1 H2].
    apply Z.leb_le in H1, H2. lia.
  - rewrite Hu, Hr.
    destruct (bool_decide (currentRating m r = 0)); [reflexivity|].
    destruct (insert_feedback_cases (submitted m u r) s)
      as [[e ->]|(_ & _ & Huq)]; [reflexivity|].
    exfalso. apply Huq. exact Hin.
Qed.

Lemma step_dialog_inv (m0 : Modal) (s0 : Store) (e : Event)
  (ms : Modal * Store) :
  dialog_inv m0 s0 ms -> dialog_inv m0 s0 (step e ms).
Proof.
  destruct ms as [m s].
  intros (Hidx & Hu & Ht & Hrs & Hb & Hsound & new & Hnew & Hw).
  simpl in *.
  destruct e as [star|c| |]; simpl.
  - unfold handleStarClick. destruct (currentRecipient m); simpl;
      (split; [exact Hidx|]); repeat (split; [assumption|]);
      exists new; auto.
  - unfold handleCommentChange. destruct (currentRecipient m); simpl;
      (split; [exact Hidx|]); repeat (split; [assumption|]);
      exists new; auto.
  - assert (dialog_inv m0 s0 (m, s)) as Hsame.
    { split; [exact Hidx|]. repeat (split; [assumption|]).
      exists new. auto. }
    unfold submitFeedback.
    destruct (user m) as [u|] eqn:Hum; [|exact Hsame].
    destruct (currentRecipient m) as [r|] eqn:Hr; [|exact Hsame].
    destruct (bool_decide (currentRating m r = 0)); [exact Hsame|].
    destruct (insert_feedback_cases (submitted m u r) s)
      as [[err ->]|(-> & Hck & Huq)]; [exact Hsame|].
    rewrite <- Hrs in Hidx.
    destruct (handleSkip_index m Hidx) as (Hidx' & Hu' & Ht' & Hrs').
    unfold dialog_inv. simpl.
    rewrite Hu', Ht', Hrs', Hum. rewrite Hrs in Hidx'.
    split; [exact Hidx'|]. repeat (split; [assumption|]).
    destruct Hsound as [Hnd Hrange].
    split; [split|].
    + rewrite fmap_app. apply NoDup_app. split; [exact Hnd|].
      split; [|apply NoDup_singleton].
      intros x Hx Hx'. apply list_elem_of_singleton in Hx'. subst x.
      apply Huq, Hx.
    + intros f Hf. apply elem_of_app in Hf as [Hf|Hf]; [auto|].
      apply list_elem_of_singleton in Hf. subst f. exact Hck.
    + exists (new ++ [submitted m u r]). split.
      * rewrite Hnew. symmetry. apply app_assoc.
      * intros f Hf. apply elem_of_app in Hf as [Hf|Hf]; [auto|].
        apply list_elem_of_singleton in Hf. subst f.
        unfold written_by. simpl. rewrite <- Ht, <- Hrs.
        split; [exact Hu|]. split; [reflexivity|].
        split; [apply (list_elem_of_lookup_2 _ _ _ Hr)|].
        exists (currentRating m r). split; [reflexivity|].
        unfold rating_check, submitted in Hck. simpl in Hck.
        apply andb_true_iff in Hck as [H1 H2].
        apply Z.leb_le in H1, H2. lia.
  - rewrite <- Hrs in Hidx.
    destruct (handleSkip_index m Hidx) as (Hidx' & Hu' & Ht' & Hrs').
    unfold dialog_inv. simpl.
    rewrite Hu', Ht', Hrs'. rewrite Hrs in Hidx'.
    split; [exact Hidx'|]. repeat (split; [assumption|]).
    exists new. auto.
Qed.

Lemma run_dialog_inv (m0 : Modal) (s0 : Store) (events : list Event)
  (ms : Modal * Store) :
  dialog_inv m0 s0 ms -> dialog_inv m0 s0 (run events ms).
Proof.
  revert ms. induction events as [|e events IH]; intros ms Hinv.
  - exact Hinv.
  - simpl. apply IH, step_dialog_inv, Hinv.
Qed.

(** X28: whatever the user does in a feedback dialog opened on at least
    one recipient, the dialog always has a current recipient, the tables
    of the application are untouched, the feedback table keeps its rows,
    its unique keys and its ratings from 1 to 5, and every row added is
    from the dialog's user, on its task, to one of its recipients, with a
    rating from 1 to 5, at most one to each recipient. *)
Theorem feedback_dialog_invariant (u : option string) (task : string)
  (recips : list string) (s : Store) (events : list Event) :
  recips <> [] -> sound (feedback_tbl s) ->
  let m0 := mounted u task recips in
  let ms := run events (m0, s) in
  currentRecipient ms.1 <> None /\
  base ms.2 = base s /\
  sound (feedback_tbl ms.2) /\
  exists new, feedback_tbl ms.2 = feedback_tbl s ++ new /\
              (forall f, f ∈ new -> written_by m0 f) /\
              NoDup (to_user_id <$> new).
Proof.
  intros Hne Hsound m0 ms.
  assert (dialog_inv m0 s (m0, s)) as Hinit.
  { split; [simpl; destruct recips; [contradiction|simpl; lia]|].
    repeat (split; [reflexivity|]). split; [exact Hsound|].
    exists []. split; [symmetry; apply app_nil_r|].
    intros f Hf. apply elem_of_nil in Hf. contradiction. }
  pose proof (run_dialog_inv m0 s events _ Hinit)
    as (Hidx & _ & _ & Hrs & Hb & Hs & new & Hnew & Hw).
  fold ms in Hidx, Hrs, Hb, Hs, Hnew.
  split.
  { unfold currentRecipient. rewrite Hrs.
    destruct (lookup_lt_is_Some_2 _ _ Hidx) as [r ->]. discriminate. }
  split; [exact Hb|]. split; [exact Hs|].
  exists new. split; [exact Hnew|]. split; [exact Hw|].
  destruct Hs as [Hnd _]. rewrite Hnew, fmap_app in Hnd.
  apply NoDup_app in Hnd as (_ & _ & Hnd).
  clear Hnew. induction new as [|f new IH]; [constructor|].
  rewrite fmap_cons in Hnd. apply NoDup_cons in Hnd as [Hnotin Hnd].
  rewrite fmap_cons. apply NoDup_cons. split.
  - intros Hin. apply Hnotin.
    apply list_elem_of_fmap in Hin as (g & Hto & Hg).
    apply list_elem_of_fmap. exists g. split; [|exact Hg].
    destruct (Hw f) as (Hfu & Hft & _); [left|].
    destruct (Hw g) as (Hgu & Hgt & _); [right; exact Hg|].
    unfold key. rewrite Hft, Hgt, Hto. f_equal. f_equal.
    rewrite <- Hgu in Hfu. congruence.
  - apply IH; [exact Hnd|]. intros g Hg. apply Hw. right. exact Hg.
Qed.

End FeedbackFacts.

(** X26, witness: C gives four stars to A, the first of two helpers. *)
Lemma submitFeedback_effect_witness :
  let m := Feedback.handleStarClick 4 feedback_dialog in
  Feedback.feedback_tbl (Feedback.submitFeedback m feedback_store).2
  = [Feedback.mkRow "t1" "C" "A" (Some 4) None] /\
  Feedback.currentIndex (Feedback.submitFeedback m feedback_store).1 = 1%nat.
Proof.
  intros m.
  assert (Feedback.ratings m !! "A" = Some 4) as Hk
      by (apply lookup_insert_eq).
  assert ((Feedback.taskId m, "C", "A")
            ∉ Feedback.key <$> Feedback.feedback_tbl feedback_store) as Huq
      by (apply not_elem_of_nil).
  assert (Feedback.taskId m
            ∈ id <$> tasks_tbl (Feedback.base feedback_store)) as Hfk
      by (left).
  destruct (submitFeedback_effect m feedback_store "C" "A" 4
              eq_refl eq_refl Hk ltac:(lia) Hfk Huq)
    as (_ & Htbl & _ & _ & _ & Hnext).
  split; [exact Htbl|].
  apply Hnext. discriminate.
Defined.

(** X27, witness: C submits without choosing a star. *)
Lemma submitFeedback_refused_witness :
  Feedback.submitFeedback feedback_dialog feedback_store
  = (feedback_dialog, feedback_store).
Proof.
  apply submitFeedback_refused. right. left.
  exists "A". split; [reflexivity|].
  unfold feedback_dialog, Feedback.mounted. simpl.
  rewrite lookup_empty. simpl. lia.
Defined.

(** X28, witness: C rates A, skips B, and presses submit once more. *)
Lemma feedback_dialog_invariant_witness :
  Feedback.sound
    (Feedback.feedback_tbl
       (Feedback.run [Feedback.StarClick 4; Feedback.Submit; Feedback.Skip;
                      Feedback.Submit]
                     (feedback_dialog, feedback_store)).2).
Proof.
  apply (feedback_dialog_invariant (Some "C") "t1" ["A"; "B"]
                                   feedback_store).
  - discriminate.
  - split; [constructor|]. intros f Hf. apply elem_of_nil in Hf.
    contradiction.
Defined.

(** ** The average rating *)

Section RatingFacts.
Import useAverageRating.

Lemma sum_acc (rs : list Z) (a : Z) :
  fold_left Z.add rs a = a + sum rs.
Proof.
  unfold sum. revert a. induction rs as [|r rs IH]; intros a; simpl.
  - lia.
  - rewrite (IH (a + r)), (IH (0 + r)). lia.
Qed.

Lemma sum_cons (r : Z) (rs : list Z) : sum (r :: rs) = r + sum rs.
Proof. unfold sum at 1. simpl. apply sum_acc. Qed.

Lemma sum_bounds (rs : list Z) :
  ratings_in_range rs ->
  Z.of_nat (length rs) <= sum rs <= 5 * Z.of_nat (length rs).
Proof.
  induction 1 as [|r rs Hr _ IH].
  - unfold sum. simpl. lia.
  - rewrite sum_cons. simpl length. lia.
Qed.

Lemma rated_ratings (uid : string) (tbl : list Feedback.Row) :
  length (omap Feedback.rating (rated uid tbl)) = length (rated uid tbl).
Proof.
  unfold rated. induction tbl as [|f tbl IH]; [reflexivity|].
  rewrite filter_cons. destruct (decide _) as [[_ Hr]|_]; [|exact IH].
  simpl. destruct (Feedback.rating f); [|contradiction].
  simpl. f_equal. exact IH.
Qed.

Lemma rated_range (uid : string) (tbl : list Feedback.Row) :
  (forall f, f ∈ tbl -> Feedback.rating_check f = true) ->
  ratings_in_range (omap Feedback.rating (rated uid tbl)).
Proof.
  intros Hck. unfold rated. induction tbl as [|f tbl IH]; [constructor|].
  assert (forall g, g ∈ tbl -> Feedback.rating_check g = true) as Htl
      by (intros g Hg; apply Hck; right; exact Hg).
  rewrite filter_cons. destruct (decide _) as [[_ Hr]|_]; [|exact (IH Htl)].
  simpl. pose proof (Hck f ltac:(left)) as Hf.
  unfold Feedback.rating_check in Hf.
  destruct (Feedback.rating f) as [r|]; [|contradiction].
  simpl. constructor; [|exact (IH Htl)].
  apply andb_true_iff in Hf as [H1 H2]. apply Z.leb_le in H1, H2. lia.
Qed.

Lemma avg_bounds (rs : list Z) :
  rs <> [] -> ratings_in_range rs -> (1 <= avg rs <= 5)%Q.
Proof.
  intros Hne Hrs. unfold avg.
  destruct rs as [|r rs]; [contradiction|].
  pose proof (sum_bounds _ Hrs) as [Hlo Hhi].
  set (n := Z.of_nat (length (r :: rs))) in *.
  assert (0 < n) as Hn by (unfold n; simpl length; lia).
  assert (0 < inject_Z n)%Q as HnQ
      by (change 0%Q with (inject_Z 0); rewrite <- Zlt_Qlt; exact Hn).
  simpl Nat.ltb. cbv iota. split.
  - apply Qle_shift_div_l; [exact HnQ|].
    rewrite Qmult_1_l. rewrite <- Zle_Qle. exact Hlo.
  - apply Qle_shift_div_r; [exact HnQ|].
    change 5%Q with (inject_Z 5). rewrite <- inject_Z_mult, <- Zle_Qle.
    exact Hhi.
Qed.

Lemma round_near (x : Q) :
  (x - (1 # 2) < inject_Z (round x) <= x + (1 # 2))%Q.
Proof.
  unfold round.
  pose proof (Qfloor_le (x + (1 # 2))) as Hle.
  pose proof (Qlt_floor (x + (1 # 2))) as Hlt.
  rewrite inject_Z_plus in Hlt. change (inject_Z 1) with 1%Q in Hlt.
  split; Lqa.lra.
Qed.

Lemma fetchRating_count (uid : string) (tbl : list Feedback.Row) :
  (fetchRating (Some uid) tbl).2
  = length (omap Feedback.rating (rated uid tbl)).
Proof.
  unfold fetchRating. destruct (rated uid tbl) as [|f data]; reflexivity.
Qed.

(** X29: with the ratings of the table from 1 to 5, the count that
    [useAverageRating] shows for a user is the number of rated feedback
    rows to that user; without such a row the average is 0, and otherwise
    the average lies from 1 to 5 and differs from the mean of the ratings
    by at most one twentieth. *)
Theorem fetchRating_rounds (uid : string) (tbl : list Feedback.Row) :
  (forall f, f ∈ tbl -> Feedback.rating_check f = true) ->
  let rs := omap Feedback.rating (rated uid tbl) in
  let res := fetchRating (Some uid) tbl in
  res.2 = length (rated uid tbl) /\
  (res.2 = 0%nat -> res.1 = 0%Q) /\
  ((0 < res.2)%nat ->
   (1 <= res.1 <= 5)%Q /\
   (avg rs - (1 # 20) < res.1 <= avg rs + (1 # 20))%Q).
Proof.
  intros Hck rs res.
  pose proof (rated_range uid tbl Hck) as Hrange. fold rs in Hrange.
  pose proof (rated_ratings uid tbl) as Hlen. fold rs in Hlen.
  assert (res.2 = length rs) as Hcount by apply fetchRating_count.
  split; [congruence|]. split.
  - intros H0. rewrite Hcount, Hlen in H0. unfold res, fetchRating.
    destruct (rated uid tbl); [reflexivity|discriminate].
  - intros Hpos. rewrite Hcount in Hpos.
    assert (rs <> []) as Hne by (intros ->; simpl in Hpos; lia).
    pose proof (avg_bounds rs Hne Hrange) as [Hlo Hhi].
    assert (res.1 = (inject_Z (round (avg rs * 10)) / 10)%Q) as ->.
    { unfold res, fetchRating. rewrite Hlen in Hpos.
      destruct (rated uid tbl) eqn:E; [simpl in Hpos; lia|].
      reflexivity. }
    pose proof (round_near (avg rs * 10)) as [Hr1 Hr2].
    set (F := round (avg rs * 10)) in *.
    assert (9 < F) as HF1.
    { rewrite Zlt_Qlt. change (inject_Z 9) with 9%Q. Lqa.lra. }
    assert (F < 51) as HF2.
    { rewrite Zlt_Qlt. change (inject_Z 51) with 51%Q. Lqa.lra. }
    assert (10 <= inject_Z F)%Q as HF3.
    { change 10%Q with (inject_Z 10). rewrite <- Zle_Qle. lia. }
    assert (inject_Z F <= 50)%Q as HF4.
    { change 50%Q with (inject_Z 50). rewrite <- Zle_Qle. lia. }
    assert (inject_Z F / 10 == inject_Z F * (1 # 10))%Q as Hdiv
        by reflexivity.
    rewrite Hdiv. repeat split; Lqa.lra.
Qed.

(** X29, witness: ratings 5 and 4 to A, and a rating to B. *)
Lemma fetchRating_rounds_witness :
  let tbl := [Feedback.mkRow "t1" "C" "A" (Some 5) None;
              Feedback.mkRow "t2" "D" "A" (Some 4) None;
              Feedback.mkRow "t1" "C" "B" (Some 2) None] in
  (fetchRating (Some "A") tbl).2 = 2%nat.
Proof.
  intros tbl.
  apply (proj1 (fetchRating_rounds "A" tbl
                  ltac:(intros f Hf;
                        repeat (apply elem_of_cons in Hf as [->|Hf];
                                [reflexivity|]);
                        apply elem_of_nil in Hf; contradiction))).
Defined.

Lemma rated_snoc (uid : string) (tbl : list Feedback.Row)
  (f : Feedback.Row) :
  rated uid (tbl ++ [f])
  = rated uid tbl
          ++ (if decide (Feedback.to_user_id f = uid
                         /\ Feedback.rating f <> None)
              then [f] else []).
Proof.
  unfold rated. rewrite filter_app. f_equal.
Qed.

(** X30: feedback that [submitFeedback] accepts raises the count that
    [useAverageRating] shows for the recipient by one; when it is the
    recipient's first rating the average shown is the number of stars
    given; and what is shown for every other user stays the same. *)
Theorem submitted_feedback_is_rated (m : Feedback.Modal) (s : Feedback.Store)
  (u r : string) (k : Z) :
  Feedback.user m = Some u -> Feedback.currentRecipient m = Some r ->
  Feedback.ratings m !! r = Some k -> 1 <= k <= 5 ->
  Feedback.taskId m ∈ id <$> tasks_tbl (Feedback.base s) ->
  (Feedback.taskId m, u, r) ∉ Feedback.key <$> Feedback.feedback_tbl s ->
  let tbl := Feedback.feedback_tbl s in
  let tbl' := Feedback.feedback_tbl (Feedback.submitFeedback m s).2 in
  (fetchRating (Some r) tbl').2 = S (fetchRating (Some r) tbl).2 /\
  (rated r tbl = [] -> ((fetchRating (Some r) tbl').1 == inject_Z k)%Q) /\
  (forall uid, uid <> r ->
               fetchRating (Some uid) tbl' = fetchRating (Some uid) tbl).
Proof.
  intros Hu Hr Hk Hrange Hfk Huq tbl tbl'.
  assert (tbl' = tbl ++ [Feedback.mkRow (Feedback.taskId m) u r (Some k)
                                        (Feedback.comment_for m r)]) as ->.
  { unfold tbl'.
    rewrite (submitFeedback_run m s u r k Hu Hr Hk Hrange Hfk Huq).
    reflexivity. }
  split; [|split].
  - rewrite !fetchRating_count, rated_snoc. simpl.
    rewrite decide_True by (split; [reflexivity|discriminate]).
    rewrite omap_app, length_app. simpl. lia.
  - intros Hnone. unfold fetchRating. rewrite rated_snoc, Hnone. simpl.
    rewrite decide_True by (split; [reflexivity|discriminate]).
    simpl.
    assert (avg [k] * 10 == inject_Z k * 10)%Q as Havg.
    { unfold avg, sum. simpl. change (0 + k) with k.
      change (inject_Z (Z.of_nat 1)) with 1%Q. field. }
    pose proof (round_near (avg [k] * 10)) as [Hr1 Hr2].
    set (F := round (avg [k] * 10)) in *.
    rewrite Havg in Hr1, Hr2.
    assert (F = 10 * k) as ->.
    { assert (10 * k < F + 1) as H1.
      { rewrite Zlt_Qlt. rewrite inject_Z_plus, inject_Z_mult.
        change (inject_Z 10) with 10%Q. change (inject_Z 1) with 1%Q.
        Lqa.lra. }
      assert (F < 10 * k + 1) as H2.
      { rewrite Zlt_Qlt. rewrite inject_Z_plus, inject_Z_mult.
        change (inject_Z 10) with 10%Q. change (inject_Z 1) with 1%Q.
        Lqa.lra. }
      lia. }
    rewrite inject_Z_mult. change (inject_Z 10) with 10%Q. field.
  - intros uid Hne. unfold fetchRating. rewrite rated_snoc. simpl.
    rewrite decide_False by (intros [H _]; apply Hne; symmetry; exact H).
    rewrite app_nil_r. reflexivity.
Qed.

(** X30, witness: the four stars of C are A's first rating. *)
Lemma submitted_feedback_is_rated_witness :
  let m := Feedback.handleStarClick 4 feedback_dialog in
  (fetchRating (Some "A")
               (Feedback.feedback_tbl
                  (Feedback.submitFeedback m feedback_store).2)).2
  = 1%nat.
Proof.
  intros m.
  assert (Feedback.ratings m !! "A" = Some 4) as Hk
      by (apply lookup_insert_eq).
  assert ((Feedback.taskId m, "C", "A")
            ∉ Feedback.key <$> Feedback.feedback_tbl feedback_store) as Huq
      by (apply not_elem_of_nil).
  assert (Feedback.taskId m
            ∈ id <$> tasks_tbl (Feedback.base feedback_store)) as Hfk
      by (left).
  apply (proj1 (submitted_feedback_is_rated m feedback_store "C" "A" 4
                  eq_refl eq_refl Hk ltac:(lia) Hfk Huq)).
Defined.

End RatingFacts.

(** * The hooks under row level security *)

Section SecuredFacts.
Import useTasks useTaskVolunteers.

Lemma fmap_same {A : Type} (f : A -> A) (l : list A) :
  (forall x, x ∈ l -> f x = x) -> f <$> l = l.
Proof.
  induction l as [|x l IH]; intros H; [reflexivity|].
  rewrite fmap_cons, (H x) by left. f_equal. apply IH.
  intros y Hy. apply H. right. exact Hy.
Qed.

Lemma own_profile_only_refl (uid : option string) (l : list Profile) :
  Forall2 (Secured.own_profile_only uid) l l.
Proof.
  induction l as [|p l IH]; constructor; [|exact IH].
  split; [reflexivity|]. intros _. reflexivity.
Qed.

Lemma own_profile_only_trans (uid : option string) (x y z : Profile) :
  Secured.own_profile_only uid x y -> Secured.own_profile_only uid y z ->
  Secured.own_profile_only uid x z.
Proof.
  intros [H1 H2] [H3 H4]. split; [congruence|].
  intros Hne. rewrite <- (H2 Hne). apply H4. rewrite (H2 Hne). exact Hne.
Qed.

(** The loop of [completeTask] under the policy on profiles. *)
Lemma secured_updateStats (hours : Q) (vols : list string) (w : World) :
  let w' := snd (Secured.updateStats hours vols w) in
  tasks_tbl (db w') = tasks_tbl (db w) /\
  task_volunteers_tbl (db w') = task_volunteers_tbl (db w) /\
  client w' = client w /\
  Forall2 (Secured.own_profile_only (user (client w)))
          (profiles_tbl (db w)) (profiles_tbl (db w')) /\
  ((forall v, v ∈ vols -> user (client w) <> Some v) ->
   profiles_tbl (db w') = profiles_tbl (db w)).
Proof.
  revert w. induction vols as [|v vols IH]; intros [d c]; cbv zeta.
  - cbn. repeat split; try reflexivity. apply own_profile_only_refl.
  - cbn [Secured.updateStats].
    unfold select_profile_maybeSingle, Secured.update_profile_stats,
      get_client, get_db, put_db, mbind, mret, Hook_bind, Hook_ret.
    cbn [db client].
    assert (Hsame : forall w1 : World,
               w1 = mkWorld d c ->
               let w' := snd (Secured.updateStats hours vols w1) in
               tasks_tbl (db w') = tasks_tbl d /\
               task_volunteers_tbl (db w') = task_volunteers_tbl d /\
               client w' = c /\
               Forall2 (Secured.own_profile_only (user c))
                       (profiles_tbl d) (profiles_tbl (db w')) /\
               ((forall x, x ∈ v :: vols -> user c <> Some x) ->
                profiles_tbl (db w') = profiles_tbl d)).
    { intros w1 ->. destruct (IH (mkWorld d c)) as (H1 & H2 & H3 & H4 & H5).
      cbn [db client] in *. repeat split; try assumption.
      intros Hall. apply H5. intros x Hx. apply Hall. right. exact Hx. }
    destruct (filter (fun p => user_id p = v) (profiles_tbl d))
      as [|p [|p' l]] eqn:E;
      cbv beta iota zeta; cbn [db client tasks_tbl task_volunteers_tbl
                                  profiles_tbl];
      try (apply Hsame; reflexivity).
    destruct (Secured.int4 (default 0 (tasks_completed p) + 1));
      cbv beta iota zeta; cbn [db client tasks_tbl task_volunteers_tbl
                                  profiles_tbl snd];
      [|apply Hsame; reflexivity].
    match goal with
    | |- context [Secured.updateStats hours vols ?w1] =>
      destruct (IH w1) as (H1 & H2 & H3 & H4 & H5)
    end.
    cbn [db client tasks_tbl task_volunteers_tbl profiles_tbl] in *.
    split; [exact H1|]. split; [exact H2|]. split; [exact H3|]. split.
    + eapply (Forall2_trans_rel _ (own_profile_only_trans (user c)));
        [|exact H4].
      apply Forall2_map_self. intros q Hq.
      unfold Secured.profiles_update.
      destruct (bool_decide (user_id q = v)); cbn [andb];
        [|split; [reflexivity|intros _; reflexivity]].
      destruct (bool_decide_reflect (user c = Some (user_id q))) as [Hu|Hu];
        (split; [reflexivity|]); intros Hne; [contradiction|reflexivity].
    + intros Hall. rewrite H5.
      * apply fmap_same. intros q Hq. unfold Secured.profiles_update.
        destruct (bool_decide_reflect (user_id q = v)) as [Hv|Hv];
          [|reflexivity].
        rewrite bool_decide_eq_false_2; [reflexivity|].
        rewrite Hv. apply Hall. left.
      * intros x Hx. apply Hall. right. exact Hx.
Qed.

Lemma secured_completeTask_run (w : World) (taskId now : string) :
  Secured.completeTask taskId now w =
  let w1 :=
    mkWorld
      (mkDb (Secured.updated_tasks (user (client w)) taskId
                                   (completedTask now) (tasks_tbl (db w)))
            (task_volunteers_tbl (db w)) (profiles_tbl (db w)))
      (client w) in
  let vols :=
    volunteer_id <$>
      filter (fun v => task_id v = taskId /\ vol_status v = "accepted")
             (task_volunteers_tbl (db w)) in
  let hours :=
    match find (fun t => bool_decide (id t = taskId)) (tasks (client w)) with
    | Some task => Q_or (hoursMap (time_needed task)) (1 # 2)
    | None => (1 # 2)%Q
    end in
  let w2 :=
    if (0 <? length vols)%nat
    then snd (Secured.updateStats hours vols w1) else w1 in
  (None, snd (fetchTasks w2)).
Proof.
  destruct w as [d c].
  unfold Secured.completeTask, Secured.update_tasks, fetchTasks, setTasks,
    get_client, put_client, get_db, put_db, mbind, mret, Hook_bind, Hook_ret.
  simpl.
  destruct (0 <? length _)%nat.
  - destruct (Secured.updateStats _ _ _) as [[] w2]. reflexivity.
  - reflexivity.
Qed.

Lemma accepted_volunteers (taskId : string) (tbl : list TaskVolunteer) :
  filter (fun v => task_id v = taskId /\ vol_status v = "accepted") tbl
  = acceptedRows taskId tbl.
Proof.
  unfold acceptedRows. induction tbl as [|v tbl IH]; [reflexivity|].
  rewrite !filter_cons.
  destruct (decide (task_id v = taskId)) as [Ht|Ht].
  - rewrite filter_cons.
    destruct (decide (vol_status v = "accepted")) as [Hs|Hs].
    + rewrite decide_True by (split; assumption). f_equal. exact IH.
    + rewrite decide_False by (intros [_ H]; contradiction). exact IH.
  - rewrite decide_False by (intros [H _]; contradiction). exact IH.
Qed.

(** The tables after [completeTask] under the policies. *)
Lemma secured_completeTask_tables (w : World) (taskId now : string) :
  let r := Secured.completeTask taskId now w in
  fst r = None /\
  tasks_tbl (db (snd r))
  = Secured.updated_tasks (user (client w)) taskId (completedTask now)
                          (tasks_tbl (db w)) /\
  task_volunteers_tbl (db (snd r)) = task_volunteers_tbl (db w) /\
  Forall2 (Secured.own_profile_only (user (client w)))
          (profiles_tbl (db w)) (profiles_tbl (db (snd r))) /\
  ((forall v, v ∈ acceptedRows taskId (task_volunteers_tbl (db w)) ->
              user (client w) <> Some (volunteer_id v)) ->
   profiles_tbl (db (snd r)) = profiles_tbl (db w)).
Proof.
  intros r. subst r. rewrite secured_completeTask_run. cbv zeta.
  cbn [fst snd]. rewrite fetchTasks_db.
  destruct (0 <? length _)%nat eqn:E.
  - match goal with
    | |- context [Secured.updateStats ?h ?vols ?w1] =>
      destruct (secured_updateStats h vols w1) as (H1 & H2 & H3 & H4 & H5)
    end.
    cbn [db client tasks_tbl task_volunteers_tbl profiles_tbl] in *.
    rewrite H1, H2. repeat split; try reflexivity; [exact H4|].
    intros Hall. apply H5. intros v Hv.
    apply list_elem_of_fmap in Hv as (row & -> & Hrow).
    apply Hall. rewrite <- accepted_volunteers. exact Hrow.
  - cbn [db tasks_tbl task_volunteers_tbl profiles_tbl].
    repeat split; try reflexivity. apply own_profile_only_refl.
Qed.

(** C2, at the failing input: C creates a one-hour task for two, accepts
    the offers of A and B and marks the task complete.  [completeTask]
    succeeds and the task is completed at the current time, but the
    profiles are as they were: the policy on profiles lets a user update
    the own profile only, so the two updates of the loop match no row and
    neither A nor B is credited with the task or with the hour. *)
Theorem completeTask_credits_nobody :
  let d := Secured.run two_helpers_accepted three_profiles in
  let d' := Secured.step d creator_marks_complete in
  (exists t, task_row d "t1" = Some t /\ creator_id t = "C" /\
             time_needed t = t1hour /\ status t = in_progress /\
             current_volunteers t = 2) /\
  volunteer_id <$> acceptedRows "t1" (task_volunteers_tbl d) = ["A"; "B"] /\
  fst (Secured.completeTask "t1" "2024-01-01T00:00:00.000Z"
                            (mount "C" (Some "t1") d)) = None /\
  (exists t', task_row d' "t1" = Some t' /\ status t' = completed /\
              completed_at t' = Some "2024-01-01T00:00:00.000Z") /\
  profiles_tbl d' = profiles_tbl three_profiles /\
  tasks_completed <$> profiles_tbl d' = [Some 0; Some 3; Some 0] /\
  total_volunteer_hours <$> profiles_tbl d'
  = [Some 0%Q; Some (5 # 2); Some 0%Q].
Proof.
  intros d d'.
  assert (Hd : d = mkDb [mkTask "t1" "C" t1hour low in_progress [] 2 2
                                None None]
                        [mkTaskVolunteer "t1" "A" "accepted";
                         mkTaskVolunteer "t1" "B" "accepted"]
                        (profiles_tbl three_profiles))
    by (vm_compute; reflexivity).
  split; [eexists; rewrite Hd; repeat split; reflexivity|].
  split; [rewrite Hd; vm_compute; reflexivity|].
  split; [apply secured_completeTask_tables|].
  assert (Hp : profiles_tbl d' = profiles_tbl three_profiles).
  { unfold d', creator_marks_complete, Secured.step.
    destruct (secured_completeTask_tables
                (mount "C" (Some "t1") d) "t1" "2024-01-01T00:00:00.000Z")
      as (_ & _ & _ & _ & H).
    rewrite H; [rewrite mount_db, Hd; reflexivity|].
    rewrite (proj1 (mount_tasks "C" (Some "t1") d)), mount_db, Hd.
    intros v Hv.
    assert (Hv' : v ∈ [mkTaskVolunteer "t1" "A" "accepted";
                       mkTaskVolunteer "t1" "B" "accepted"])
      by exact Hv.
    apply elem_of_cons in Hv' as [->|Hv']; [discriminate|].
    apply list_elem_of_singleton in Hv' as ->. discriminate. }
  split.
  { unfold d', creator_marks_complete, Secured.step.
    destruct (secured_completeTask_tables
                (mount "C" (Some "t1") d) "t1" "2024-01-01T00:00:00.000Z")
      as (_ & Ht & _).
    unfold task_row.
    rewrite Ht, (proj1 (mount_tasks "C" (Some "t1") d)), mount_db, Hd.
    eexists. split; [vm_compute; reflexivity|]. split; reflexivity. }
  split; [exact Hp|]. rewrite Hp. split; reflexivity.
Qed.

End SecuredFacts.

(** ** The task rows under the policies *)

Section SecuredTaskFacts.
Import useTasks useTaskVolunteers.











End SecuredTaskFacts.

(** ** Joining and completing under the policies *)

Section SecuredJoinFacts.
Import useTasks useTaskVolunteers.






Lemma accepted_volunteers_NoDup (taskId : string)
  (tbl : list TaskVolunteer) :
  NoDup (vol_key <$> tbl) ->
  NoDup (volunteer_id <$> acceptedRows taskId tbl).
Proof.
  intros Hnd. rewrite <- accepted_volunteers.
  induction tbl as [|v tbl IH]; [constructor|].
  rewrite fmap_cons in Hnd. apply NoDup_cons in Hnd as [Hv Hnd].
  rewrite filter_cons. destruct (decide _) as [[Ht _]|_]; [|apply IH, Hnd].
  rewrite fmap_cons. apply NoDup_cons. split; [|apply IH, Hnd].
  intros Hin. apply Hv.
  apply list_elem_of_fmap in Hin as (x & Hx & Hin).
  apply list_elem_of_filter in Hin as [[Hxt _] Hin].
  apply list_elem_of_fmap. exists x. split; [|exact Hin].
  unfold vol_key. congruence.
Qed.

(** The loop of [completeTask] when the caller is one of the volunteers. *)
Lemma secured_updateStats_self (hours : Q) (vols : list string) (w : World)
  (caller : string) (p : Profile) :
  user (client w) = Some caller ->
  NoDup vols -> caller ∈ vols ->
  filter (fun q => user_id q = caller) (profiles_tbl (db w)) = [p] ->
  Secured.int4 (default 0 (tasks_completed p) + 1) = true ->
  profiles_tbl (db (snd (Secured.updateStats hours vols w)))
  = (fun q => if bool_decide (user_id q = caller)
              then creditedProfile hours q else q) <$> profiles_tbl (db w).
Proof.
  revert w. induction vols as [|v vols IH];
    intros [d c] Hu Hnd Hin Hp Hint; [inversion Hin|].
  cbn [db client] in *.
  apply NoDup_cons in Hnd as [Hv Hnd].
  cbn [Secured.updateStats].
  unfold select_profile_maybeSingle, Secured.update_profile_stats,
    get_client, get_db, put_db, mbind, mret, Hook_bind, Hook_ret.
  cbn [db client].
  destruct (decide (v = caller)) as [->|Hne].
  - rewrite Hp. cbv beta iota zeta. rewrite Hint.
    cbv beta iota zeta. cbn [db client snd].
    match goal with
    | |- context [Secured.updateStats hours vols ?w1] =>
      destruct (secured_updateStats hours vols w1) as (_ & _ & _ & _ & H5)
    end.
    cbn [db client profiles_tbl] in *.
    rewrite H5 by (intros x Hx; rewrite Hu; intros [= <-]; contradiction).
    apply list_fmap_ext. intros i q Hq.
    destruct (bool_decide_reflect (user_id q = caller)) as [Hq'|Hq'];
      [|reflexivity].
    assert (Hqp : q ∈ filter (fun q => user_id q = caller) (profiles_tbl d)).
    { apply list_elem_of_filter. split; [exact Hq'|].
      apply (list_elem_of_lookup_2 _ _ _ Hq). }
    rewrite Hp in Hqp. apply list_elem_of_singleton in Hqp. subst q.
    unfold Secured.profiles_update.
    rewrite bool_decide_eq_true_2 by (rewrite Hu, Hq'; reflexivity).
    reflexivity.
  - assert (Hin' : caller ∈ vols).
    { apply elem_of_cons in Hin as [Heq|Hin]; [|exact Hin].
      exfalso. apply Hne. symmetry. exact Heq. }
    assert (Hstep : forall (completed : Z) (h : Q),
               (fun q => if bool_decide (user_id q = v)
                            && Secured.profiles_update (user c) q
                         then mkProfile (user_id q) (skills q)
                                        (Some completed) (Some h)
                         else q) <$> profiles_tbl d = profiles_tbl d).
    { intros completed h. apply fmap_same. intros q _.
      unfold Secured.profiles_update.
      destruct (bool_decide_reflect (user_id q = v)) as [Hq|Hq];
        [|reflexivity].
      rewrite bool_decide_eq_false_2; [reflexivity|].
      rewrite Hu, Hq. intros [= ->]. apply Hne. reflexivity. }
    destruct (filter (fun q => user_id q = v) (profiles_tbl d))
      as [|p1 [|p2 l]];
      cbv beta iota zeta; cbn [db client snd];
      try (apply (IH (mkWorld d c)); assumption).
    destruct (Secured.int4 (default 0 (tasks_completed p1) + 1));
      cbv beta iota zeta; cbn [db client snd];
      [|apply (IH (mkWorld d c)); assumption].
    rewrite Hstep. destruct d as [ts vs ps]. cbn [tasks_tbl task_volunteers_tbl
                                                   profiles_tbl] in *.
    apply (IH (mkWorld (mkDb ts vs ps) c)); assumption.
Qed.

(** X23: under the policies, [completeTask] leaves the profile of every
    user other than the caller as it was, whoever the accepted volunteers
    are; called by a user who is not an accepted volunteer of the task, as
    the creator is in the dialog, it changes no profile at all.  The one
    profile that it can credit is the caller's own: an accepted volunteer
    with a profile who calls it is credited with one task and with the
    hours of the loaded task (half an hour when the task is not loaded),
    whether or not the policy lets the update of the task through. *)
Theorem completeTask_own_profile_only (w : World) (taskId now : string) :
  let r := Secured.completeTask taskId now w in
  Forall2 (Secured.own_profile_only (user (client w)))
          (profiles_tbl (db w)) (profiles_tbl (db (snd r))) /\
  ((forall v, v ∈ acceptedRows taskId (task_volunteers_tbl (db w)) ->
              user (client w) <> Some (volunteer_id v)) ->
   profiles_tbl (db (snd r)) = profiles_tbl (db w)) /\
  (forall caller p,
      user (client w) = Some caller ->
      unique_volunteers (db w) ->
      caller ∈ volunteer_id <$> acceptedRows taskId
                                   (task_volunteers_tbl (db w)) ->
      filter (fun q => user_id q = caller) (profiles_tbl (db w)) = [p] ->
      Secured.int4 (default 0 (tasks_completed p) + 1) = true ->
      let hours :=
        match find (fun t => bool_decide (id t = taskId))
                   (tasks (client w)) with
        | Some task => Q_or (hoursMap (time_needed task)) (1 # 2)
        | None => (1 # 2)%Q
        end in
      profiles_tbl (db (snd r))
      = (fun q => if bool_decide (user_id q = caller)
                  then creditedProfile hours q else q)
          <$> profiles_tbl (db w)).
Proof.
  intros r. subst r.
  destruct (secured_completeTask_tables w taskId now)
    as (_ & _ & _ & H1 & H2).
  split; [exact H1|]. split; [exact H2|].
  intros caller p Hu Huv Hin Hp Hint hours. subst hours.
  rewrite secured_completeTask_run. cbv zeta. cbn [snd].
  rewrite fetchTasks_db, accepted_volunteers.
  destruct (0 <? length _)%nat eqn:E.
  - match goal with
    | |- context [Secured.updateStats ?h ?vols ?w1] =>
      pose proof (secured_updateStats_self h vols w1 caller p) as Hs
    end.
    cbn [db client profiles_tbl] in Hs. apply Hs; try assumption.
    apply accepted_volunteers_NoDup, Huv.
  - exfalso. destruct (volunteer_id <$> acceptedRows taskId _);
      [inversion Hin|discriminate E].
Qed.

(** X23, witness: the creator C marks the task of A and B complete, and
    the volunteer A does. *)
Lemma completeTask_own_profile_only_witness :
  profiles_tbl
    (db (snd (Secured.completeTask "t1" "2024-01-01T00:00:00.000Z"
                                   creator_completes)))
  = profiles_tbl in_progress_task_db /\
  tasks_completed <$>
    profiles_tbl
      (db (snd (Secured.completeTask
                  "t1" "2024-01-01T00:00:00.000Z"
                  (mount "A" (Some "t1") in_progress_task_db))))
  = [Some 1; Some 3; None].
Proof.
  split.
  - apply (proj1 (proj2 (completeTask_own_profile_only
                           creator_completes "t1"
                           "2024-01-01T00:00:00.000Z"))).
    intros v Hv.
    assert (Hv' : v ∈ [mkTaskVolunteer "t1" "A" "accepted";
                       mkTaskVolunteer "t1" "B" "accepted"]) by exact Hv.
    apply elem_of_cons in Hv' as [->|Hv']; [discriminate|].
    apply list_elem_of_singleton in Hv' as ->. discriminate.
  - rewrite (proj2 (proj2 (completeTask_own_profile_only
                             (mount "A" (Some "t1") in_progress_task_db)
                             "t1" "2024-01-01T00:00:00.000Z"))
                   "A" (mkProfile "A" [] None None) eq_refl).
    + vm_compute. reflexivity.
    + apply (bool_decide_unpack _). vm_compute. exact I.
    + apply (bool_decide_unpack _). vm_compute. exact I.
    + reflexivity.
    + reflexivity.
Defined.

End SecuredJoinFacts.
